(** * MindSpark tutoring session: topic store and agent orchestrator

    A shallow embedding of [services/TopicDatabase.ts],
    [services/AgentOrchestrator.ts], [analyzeTopicShift] of
    [services/geminiService.ts] and [handleSendMessage] of
    [components/StudySession.tsx], followed by the properties of the
    session engine that the specification states. The embedding goes on with
    the other handlers of the lesson page (slides, notebook, saved state),
    the research, summary and exam calls of [services/geminiService.ts], and
    the state machines of [components/Flashcards.tsx], [components/Quiz.tsx],
    [components/ExamMode.tsx] and [components/TopicInput.tsx], with the
    properties the code of these shows.

    Conventions of the embedding.
    - A JavaScript string is a [string]; the built-in string methods
      ([toLowerCase], [trim], [substring]) are given on the ASCII range.
    - The [Map<string, Topic>] of the store is an association list in
      insertion order: [Map.prototype.set] on a present key replaces the value
      where it stands, on an absent key it appends; [values()] iterates in that
      order.
    - A [Topic] held by the map is a mutable object; a mutation through a
      reference obtained by [get] is an in-place update of the entry.
    - [crypto.randomUUID()] and [Date.now()] are read from the environment:
      every function that calls them takes the values drawn as arguments.
    - The remote calls (classifier, researcher, conversation engine) are
      oracles of a per-turn environment record; a rejected promise or a thrown
      exception is [None] or a dedicated constructor. *)

From Stdlib Require Import List String Ascii ZArith Bool Arith Lia.
From Stdlib Require Import Permutation Sorted DecimalString.
Import ListNotations.
Local Open Scope string_scope.
Set Warnings "-abstract-large-number".

(** ** JavaScript built-ins used by the code *)

Module JS.

(** The one-character strings that cannot be written inside a literal. *)
Definition nl : string := String (ascii_of_nat 10) EmptyString.
Definition dq : string := String (ascii_of_nat 34) EmptyString.

Definition is_upper (c : ascii) : bool :=
  let n := nat_of_ascii c in (65 <=? n)%nat && (n <=? 90)%nat.

Definition lower_char (c : ascii) : ascii :=
  if is_upper c then ascii_of_nat (nat_of_ascii c + 32) else c.

(** [String.prototype.toLowerCase]. *)
Fixpoint toLowerCase (s : string) : string :=
  match s with
  | EmptyString => EmptyString
  | String c s' => String (lower_char c) (toLowerCase s')
  end.

(** White space and line terminators of the ASCII range: TAB, LF, VT, FF,
    CR and SP. *)
Definition is_space (c : ascii) : bool :=
  let n := nat_of_ascii c in
  ((9 <=? n)%nat && (n <=? 13)%nat) || (n =? 32)%nat.

Fixpoint trimStart (s : string) : string :=
  match s with
  | EmptyString => EmptyString
  | String c s' => if is_space c then trimStart s' else s
  end.

(** [trimEnd] keeps a character when it is not white space or when
    something remains after it. *)
Fixpoint trimEnd (s : string) : string :=
  match s with
  | EmptyString => EmptyString
  | String c s' =>
      match trimEnd s' with
      | EmptyString => if is_space c then EmptyString else String c EmptyString
      | r => String c r
      end
  end.

(** [String.prototype.trim]. *)
Definition trim (s : string) : string := trimEnd (trimStart s).

(** Truthiness of a string: only the empty string is falsy. *)
Definition truthy (s : string) : bool := negb (s =? "").

(** [s || d] on strings. *)
Definition or_else (s d : string) : string := if truthy s then s else d.

(** [Array.prototype.slice(-n)]: the last [n] elements. *)
Definition slice_last {A : Type} (n : nat) (l : list A) : list A :=
  skipn (List.length l - n) l.

(** [Array.prototype.join]. *)
Definition join (sep : string) (l : list string) : string := String.concat sep l.

(** [Array.prototype.sort] with a comparator. The language requires the
    sort to be stable; it is given here as a stable insertion sort, which
    places [x] before the first element [y] that it does not follow
    ([cmp x y <= 0]). This is the result the language fixes when the
    comparator orders the elements consistently. Where it does not, the
    language leaves the order to the engine, which may compare a later
    element with an earlier one, and this definition does not give it: for
    [getAllTopics] that is the relative order of several main topics, of
    which the comparator says that each comes before the other. *)
Section Sort.
Context {A : Type} (cmp : A -> A -> Z).

Fixpoint insert (x : A) (l : list A) : list A :=
  match l with
  | [] => [x]
  | y :: l' => if (cmp x y <=? 0)%Z then x :: y :: l' else y :: insert x l'
  end.

Definition sort (l : list A) : list A := fold_right insert [] l.
End Sort.

End JS.

(** ** Data model ([types.ts]) *)

Inductive AgentMode := TUTOR | RESEARCH | NOTEBOOK.

Inductive Role := user | model.

Record Source := { title : string; uri : string }.

Record ChatMessage := {
  role : Role;
  text : string;
  sources : option (list Source)
}.

Record Flashcard := { front : string; back : string }.

Record QuizQuestion := {
  question : string;
  options : list string;
  correctAnswerIndex : Z;
  explanation : string
}.

Inductive QuestionType := MCQ | SHORT_ANSWER.

Record ExamQuestion := {
  exam_id : string;
  exam_type : QuestionType;
  exam_question : string;
  exam_options : option (list string);
  exam_correctAnswerIndex : option Z;
  modelAnswer : option string
}.

Record LessonSlide := {
  slide_title : string;
  content : string;
  imagePrompt : string
}.

Record Topic := {
  id : string;
  name : string;
  timestamp : Z;
  messages : list ChatMessage;
  flashcards : list Flashcard;
  quizzes : list QuizQuestion;
  examQuestions : list ExamQuestion;
  isMainTopic : bool;
  videoUri : option string;
  notebookContent : string;
  knowledgeBase : string
}.

Record TopicAnalysis := { isNewTopic : bool; topicName : string }.

Record SessionState := {
  ss_slides : list LessonSlide;
  ss_currentSlideIndex : nat;
  ss_lessonContext : string;
  ss_chatHistory : list ChatMessage;
  ss_currentTopicName : string;
  ss_agentMode : AgentMode
}.

(** Field updates of a topic object. *)
Definition push_message (m : ChatMessage) (t : Topic) : Topic :=
  {| id := id t; name := name t; timestamp := timestamp t;
     messages := messages t ++ [m];
     flashcards := flashcards t; quizzes := quizzes t;
     examQuestions := examQuestions t; isMainTopic := isMainTopic t;
     videoUri := videoUri t; notebookContent := notebookContent t;
     knowledgeBase := knowledgeBase t |}.

Definition set_knowledgeBase (kb : string) (t : Topic) : Topic :=
  {| id := id t; name := name t; timestamp := timestamp t;
     messages := messages t;
     flashcards := flashcards t; quizzes := quizzes t;
     examQuestions := examQuestions t; isMainTopic := isMainTopic t;
     videoUri := videoUri t; notebookContent := notebookContent t;
     knowledgeBase := kb |}.

Definition push_flashcards (cards : list Flashcard) (t : Topic) : Topic :=
  {| id := id t; name := name t; timestamp := timestamp t;
     messages := messages t;
     flashcards := flashcards t ++ cards; quizzes := quizzes t;
     examQuestions := examQuestions t; isMainTopic := isMainTopic t;
     videoUri := videoUri t; notebookContent := notebookContent t;
     knowledgeBase := knowledgeBase t |}.

Definition push_quizzes (qs : list QuizQuestion) (t : Topic) : Topic :=
  {| id := id t; name := name t; timestamp := timestamp t;
     messages := messages t;
     flashcards := flashcards t; quizzes := quizzes t ++ qs;
     examQuestions := examQuestions t; isMainTopic := isMainTopic t;
     videoUri := videoUri t; notebookContent := notebookContent t;
     knowledgeBase := knowledgeBase t |}.

Definition set_examQuestions (qs : list ExamQuestion) (t : Topic) : Topic :=
  {| id := id t; name := name t; timestamp := timestamp t;
     messages := messages t;
     flashcards := flashcards t; quizzes := quizzes t;
     examQuestions := qs; isMainTopic := isMainTopic t;
     videoUri := videoUri t; notebookContent := notebookContent t;
     knowledgeBase := knowledgeBase t |}.

Definition set_notebookContent (c : string) (t : Topic) : Topic :=
  {| id := id t; name := name t; timestamp := timestamp t;
     messages := messages t;
     flashcards := flashcards t; quizzes := quizzes t;
     examQuestions := examQuestions t; isMainTopic := isMainTopic t;
     videoUri := videoUri t; notebookContent := c;
     knowledgeBase := knowledgeBase t |}.

(** ** The insertion-ordered map of the store *)

Module TMap.

Definition t := list (string * Topic).

Fixpoint get (k : string) (m : t) : option Topic :=
  match m with
  | [] => None
  | (k', v) :: m' => if k' =? k then Some v else get k m'
  end.

Definition has (k : string) (m : t) : bool :=
  match get k m with Some _ => true | None => false end.

Fixpoint set (k : string) (v : Topic) (m : t) : t :=
  match m with
  | [] => [(k, v)]
  | (k', v') :: m' => if k' =? k then (k', v) :: m' else (k', v') :: set k v m'
  end.

(** In-place mutation of the object stored under [k]. *)
Fixpoint modify (k : string) (f : Topic -> Topic) (m : t) : t :=
  match m with
  | [] => []
  | (k', v) :: m' => if k' =? k then (k', f v) :: m' else (k', v) :: modify k f m'
  end.

Definition values (m : t) : list Topic := map snd m.
Definition keys (m : t) : list string := map fst m.

End TMap.

(** ** [TopicDatabase] *)

Record TopicDatabase := {
  topics : TMap.t;
  currentTopicId : option string;
  mainTopicName : option string;
  sessionState : option SessionState
}.

(** The state built by the private constructor. *)
Definition newTopicDatabase : TopicDatabase :=
  {| topics := []; currentTopicId := None; mainTopicName := None;
     sessionState := None |}.

Definition with_topics (m : TMap.t) (db : TopicDatabase) : TopicDatabase :=
  {| topics := m; currentTopicId := currentTopicId db;
     mainTopicName := mainTopicName db; sessionState := sessionState db |}.

Definition same_name (n : string) (t : Topic) : bool :=
  JS.toLowerCase (name t) =? JS.toLowerCase n.

(** [createTopic(name, isMain)]; [uuid] and [now] are the values that
    [crypto.randomUUID()] and [Date.now()] return when they are reached. *)
Definition createTopic (uuid : string) (now : Z) (n : string) (isMain : bool)
    (db : TopicDatabase) : Topic * TopicDatabase :=
  match find (same_name n) (TMap.values (topics db)) with
  | Some existing => (existing, db)
  | None =>
      let newTopic :=
        {| id := uuid; name := n; timestamp := now; messages := [];
           flashcards := []; quizzes := []; examQuestions := [];
           isMainTopic := isMain; videoUri := None; notebookContent := "";
           knowledgeBase := "" |} in
      (newTopic, with_topics (TMap.set uuid newTopic (topics db)) db)
  end.

(** [reset(mainTopicName)]. *)
Definition reset (uuid : string) (now : Z) (n : string) (db : TopicDatabase)
    : TopicDatabase :=
  let cleared :=
    {| topics := []; currentTopicId := currentTopicId db;
       mainTopicName := Some n; sessionState := None |} in
  let (mainTopic, db1) := createTopic uuid now n true cleared in
  {| topics := topics db1; currentTopicId := Some (id mainTopic);
     mainTopicName := mainTopicName db1; sessionState := sessionState db1 |}.

Definition getMainTopicName (db : TopicDatabase) : option string :=
  mainTopicName db.

Definition setSessionState (s : SessionState) (db : TopicDatabase) : TopicDatabase :=
  {| topics := topics db; currentTopicId := currentTopicId db;
     mainTopicName := mainTopicName db; sessionState := Some s |}.

Definition getSessionState (db : TopicDatabase) : option SessionState :=
  sessionState db.

Definition setCurrentTopic (topicId : string) (db : TopicDatabase) : TopicDatabase :=
  if TMap.has topicId (topics db)
  then {| topics := topics db; currentTopicId := Some topicId;
          mainTopicName := mainTopicName db; sessionState := sessionState db |}
  else db.

(** [getCurrentTopic()]: the guard [!this.currentTopicId] also rejects the
    empty string. *)
Definition getCurrentTopic (db : TopicDatabase) : option Topic :=
  match currentTopicId db with
  | None => None
  | Some i => if JS.truthy i then TMap.get i (topics db) else None
  end.

Definition getTopicByName (n : string) (db : TopicDatabase) : option Topic :=
  find (same_name n) (TMap.values (topics db)).

(** The comparator of [getAllTopics]. *)
Definition compareTopics (a b : Topic) : Z :=
  if isMainTopic a then (-1)%Z
  else if isMainTopic b then 1%Z
  else (timestamp a - timestamp b)%Z.

(** [getAllTopics()]. With at most one main topic the comparator is
    consistent on the topics of the store and the list is the one every
    engine returns; with several, only what holds of every permutation of the
    topics is read from this definition. *)
Definition getAllTopics (db : TopicDatabase) : list Topic :=
  JS.sort compareTopics (TMap.values (topics db)).

(** A method that fetches the topic and mutates it when it is there. *)
Definition mutate (topicId : string) (f : Topic -> Topic) (db : TopicDatabase)
    : TopicDatabase :=
  match TMap.get topicId (topics db) with
  | Some _ => with_topics (TMap.modify topicId f (topics db)) db
  | None => db
  end.

Definition addMessageToTopic (topicId : string) (message : ChatMessage) :=
  mutate topicId (push_message message).

Definition knowledge_separator : string := JS.nl ++ "- ".

Definition appendKnowledge (topicId : string) (summary : string) :=
  mutate topicId
    (fun t => set_knowledgeBase (knowledgeBase t ++ knowledge_separator ++ summary) t).

Definition getKnowledgeBase (topicId : string) (db : TopicDatabase) : string :=
  match TMap.get topicId (topics db) with
  | Some t => JS.or_else (knowledgeBase t) ""
  | None => ""
  end.

Definition addFlashcardsToTopic (topicId : string) (cards : list Flashcard) :=
  mutate topicId (push_flashcards cards).

Definition addQuizQuestionsToTopic (topicId : string) (qs : list QuizQuestion) :=
  mutate topicId (push_quizzes qs).

Definition setExamQuestionsForTopic (topicId : string) (qs : list ExamQuestion) :=
  mutate topicId (set_examQuestions qs).

Definition getExamQuestionsForTopic (topicId : string) (db : TopicDatabase)
    : list ExamQuestion :=
  match TMap.get topicId (topics db) with
  | Some t => examQuestions t
  | None => []
  end.

Definition updateNotebookContent (topicId : string) (c : string) :=
  mutate topicId (set_notebookContent c).

Record TopicContent := {
  tc_flashcards : list Flashcard;
  tc_quizzes : list QuizQuestion;
  tc_examQuestions : list ExamQuestion;
  tc_notebookContent : string;
  tc_knowledgeBase : string
}.

Definition emptyTopicContent : TopicContent :=
  {| tc_flashcards := []; tc_quizzes := []; tc_examQuestions := [];
     tc_notebookContent := ""; tc_knowledgeBase := "" |}.

Definition getTopicContent (topicId : string) (db : TopicDatabase) : TopicContent :=
  match TMap.get topicId (topics db) with
  | Some t =>
      {| tc_flashcards := flashcards t; tc_quizzes := quizzes t;
         tc_examQuestions := examQuestions t;
         tc_notebookContent := JS.or_else (notebookContent t) "";
         tc_knowledgeBase := JS.or_else (knowledgeBase t) "" |}
  | None => emptyTopicContent
  end.

(** *** The public operations as data

    One constructor per public method that changes the store; a run of the
    store is a list of them. *)
Inductive StoreOp :=
| OpReset (uuid : string) (now : Z) (mainName : string)
| OpCreateTopic (uuid : string) (now : Z) (n : string) (isMain : bool)
| OpSetSessionState (s : SessionState)
| OpSetCurrentTopic (topicId : string)
| OpAddMessage (topicId : string) (m : ChatMessage)
| OpAppendKnowledge (topicId : string) (summary : string)
| OpAddFlashcards (topicId : string) (cards : list Flashcard)
| OpAddQuizQuestions (topicId : string) (qs : list QuizQuestion)
| OpSetExamQuestions (topicId : string) (qs : list ExamQuestion)
| OpUpdateNotebook (topicId : string) (c : string).

Definition apply_op (o : StoreOp) (db : TopicDatabase) : TopicDatabase :=
  match o with
  | OpReset u now n => reset u now n db
  | OpCreateTopic u now n m => snd (createTopic u now n m db)
  | OpSetSessionState s => setSessionState s db
  | OpSetCurrentTopic i => setCurrentTopic i db
  | OpAddMessage i m => addMessageToTopic i m db
  | OpAppendKnowledge i s => appendKnowledge i s db
  | OpAddFlashcards i c => addFlashcardsToTopic i c db
  | OpAddQuizQuestions i q => addQuizQuestionsToTopic i q db
  | OpSetExamQuestions i q => setExamQuestionsForTopic i q db
  | OpUpdateNotebook i c => updateNotebookContent i c db
  end.

Definition run (ops : list StoreOp) (db : TopicDatabase) : TopicDatabase :=
  fold_left (fun d o => apply_op o d) ops db.

(** ** The remote boundary *)

(** What [ai.models.generateContent] does when awaited: it throws, or it
    returns a response whose [text] may be undefined. *)
Inductive CallOutcome :=
| Threw
| Returned (responseText : option string).

Record ResearchResult := {
  research_text : string;
  research_sources : list Source
}.

Record MicroStudySet := {
  ms_flashcards : list Flashcard;
  ms_quiz : list QuizQuestion
}.

(** The environment of one turn. [classifierCall] is the classifier model
    applied to the three values interpolated into its prompt (current topic,
    history snippet, user message); [jsonParse] is [JSON.parse] read at type
    [TopicAnalysis], [None] when it throws; [performResearch] never throws (it
    catches); [sendMessage] is the conversation engine, [None] when its promise
    rejects; the remaining fields are the values [crypto.randomUUID()] and
    [Date.now()] give to the two [createTopic] calls a turn can reach. *)
Record Env := {
  classifierCall : string -> string -> string -> CallOutcome;
  jsonParse : string -> option TopicAnalysis;
  performResearch : string -> ResearchResult;
  sendMessage : string -> option string;
  uuid_background : string;
  now_background : Z;
  uuid_shift : string;
  now_shift : Z
}.

(** The history snippet interpolated into the classifier's prompt. *)
Definition historyContext (recentHistory : list ChatMessage) : string :=
  JS.join " | " (map text (JS.slice_last 3 recentHistory)).

(** [analyzeTopicShift] of [geminiService.ts]. *)
Definition analyzeTopicShift (env : Env) (currentTopic userMessage : string)
    (recentHistory : list ChatMessage) : TopicAnalysis :=
  let fallback := {| isNewTopic := false; topicName := currentTopic |} in
  match classifierCall env currentTopic (historyContext recentHistory) userMessage with
  | Threw => fallback
  | Returned responseText =>
      let parsed :=
        match responseText with
        | Some txt =>
            if JS.truthy txt then jsonParse env txt
            else Some {| isNewTopic := false; topicName := "" |}
        | None => Some {| isNewTopic := false; topicName := "" |}
        end in
      match parsed with
      | Some analysis => analysis
      | None => fallback
      end
  end.

(** ** [AgentOrchestrator] *)

Module AgentOrchestrator.

(** The handle of the conversation engine. *)
Inductive Chat := ChatSession.

Record t := {
  parentChat : option Chat;
  currentTopicName : string
}.

Definition new (chat : Chat) (initialTopic : string) : t :=
  {| parentChat := Some chat; currentTopicName := initialTopic |}.

Definition updateParentChat (chat : Chat) (o : t) : t :=
  {| parentChat := Some chat; currentTopicName := currentTopicName o |}.

Definition updateTopic (topic : string) (o : t) : t :=
  {| parentChat := parentChat o; currentTopicName := topic |}.

(** The note prepended to the prompt when a shift is handled. *)
Definition pivotNote (workingTopicName : string) : string :=
  "[SYSTEM NOTE: The user has switched context to the topic " ++ JS.dq
    ++ workingTopicName ++ JS.dq
    ++ ". Pivot your response to focus on this new topic immediately.]" ++ JS.nl.

(** The guard of the shift branch. *)
Definition shiftDetected (analysis : TopicAnalysis) (o : t) : bool :=
  isNewTopic analysis && negb (topicName analysis =? currentTopicName o).

Definition researchOutput (userText : string) (r : ResearchResult) : string :=
  JS.nl
  ++ "      [DATA FROM RESEARCHER AGENT]:" ++ JS.nl
  ++ "      The user asked about " ++ JS.dq ++ userText ++ JS.dq ++ "." ++ JS.nl
  ++ "      Here are the search findings:" ++ JS.nl
  ++ "      " ++ research_text r ++ JS.nl
  ++ "      " ++ JS.nl
  ++ "      Instructions: Synthesize this research into a helpful response. Cite the sources provided." ++ JS.nl
  ++ "      ".

Definition NOTEBOOK_BUDGET : nat := 20000.

Definition notebookHeader : string :=
  JS.nl
  ++ "        [DATA FROM NOTEBOOK AGENT]:" ++ JS.nl
  ++ "        The user has provided the following personal notes/documents:" ++ JS.nl
  ++ "        " ++ JS.dq ++ JS.dq ++ JS.dq ++ JS.nl
  ++ "        ".

Definition notebookInstruction (userText : string) : string :=
  " ... (content truncated for context)" ++ JS.nl
  ++ "        " ++ JS.dq ++ JS.dq ++ JS.dq ++ JS.nl
  ++ "        " ++ JS.nl
  ++ "        Instructions: Answer the user's question " ++ JS.dq ++ userText ++ JS.dq
  ++ " strictly based on the provided notes above. If the answer isn't in the notes, say so."
  ++ JS.nl
  ++ "        ".

Definition notebookEmptyOutput : string :=
  "[DATA FROM NOTEBOOK AGENT]: The user has not uploaded any notes yet. Remind them to paste their content to use this feature.".

(** The NOTEBOOK branch, from the store as it is when the branch runs. *)
Definition notebookOutput (userText : string) (db : TopicDatabase) : string :=
  let notebook :=
    match getCurrentTopic db with
    | Some currentTopic => JS.or_else (notebookContent currentTopic) ""
    | None => ""
    end in
  if JS.truthy (JS.trim notebook)
  then notebookHeader ++ substring 0 NOTEBOOK_BUDGET notebook
         ++ notebookInstruction userText
  else notebookEmptyOutput.

(** Step 2: the child agent's output and the sources it found. *)
Definition childAgent (env : Env) (mode : AgentMode) (userText : string)
    (db : TopicDatabase) : string * list Source :=
  match mode with
  | RESEARCH =>
      let researchResult := performResearch env userText in
      (researchOutput userText researchResult, research_sources researchResult)
  | NOTEBOOK => (notebookOutput userText db, [])
  | TUTOR => ("", [])
  end.

(** Step 3: the prompt sent to the parent agent. *)
Definition finalPrompt (systemInjection slideContext childAgentOutput userText : string)
    : string :=
  JS.nl
  ++ "    " ++ systemInjection ++ JS.nl
  ++ "    [Current Slide Context: " ++ JS.dq ++ slideContext ++ JS.dq ++ "]" ++ JS.nl
  ++ "    " ++ childAgentOutput ++ JS.nl
  ++ "    " ++ JS.nl
  ++ "    User Query: " ++ userText ++ JS.nl
  ++ "    ".

(** Steps 1 to 3, up to the call of the parent agent. *)
Record Routed := {
  analysis : TopicAnalysis;
  workingTopicName : string;
  systemInjection : string;
  routedSources : list Source;
  prompt : string;
  routedOrchestrator : t
}.

Definition route (env : Env) (userText : string) (mode : AgentMode)
    (recentHistory : list ChatMessage) (slideContext : string)
    (o : t) (db : TopicDatabase) : Routed :=
  let a := analyzeTopicShift env (currentTopicName o) userText recentHistory in
  let shift := shiftDetected a o in
  let working := if shift then topicName a else currentTopicName o in
  let injection := if shift then "" ++ pivotNote working else "" in
  let o1 := if shift then updateTopic working o else o in
  let (childAgentOutput, srcs) := childAgent env mode userText db in
  {| analysis := a; workingTopicName := working; systemInjection := injection;
     routedSources := srcs;
     prompt := finalPrompt injection slideContext childAgentOutput userText;
     routedOrchestrator := o1 |}.

(** [triggerBackgroundGeneration] up to its first [await]: this part runs
    inside the call, before [processUserQuery] returns. The result holds the
    topic id the generated materials are destined to. *)
Definition triggerBackgroundGeneration (env : Env) (topic : string)
    (db : TopicDatabase) : TopicDatabase * option string :=
  let db1 :=
    match getCurrentTopic db with
    | Some _ => db
    | None =>
        let (t0, d) :=
          createTopic (uuid_background env) (now_background env) topic false db in
        setCurrentTopic (id t0) d
    end in
  match getCurrentTopic db1 with
  | Some cur => (db1, if JS.truthy (id cur) then Some (id cur) else None)
  | None => (db1, None)
  end.

(** The rest of [triggerBackgroundGeneration], run when the materials
    arrive, at some later point. *)
Definition completeBackgroundGeneration (targetTopicId : string)
    (materials : MicroStudySet) (db : TopicDatabase) : TopicDatabase :=
  addQuizQuestionsToTopic targetTopicId (ms_quiz materials)
    (addFlashcardsToTopic targetTopicId (ms_flashcards materials) db).

Record QueryResult := {
  response : ChatMessage;
  resultAnalysis : TopicAnalysis;
  resultSources : list Source
}.

(** What a call of [processUserQuery] leaves behind: the orchestrator and
    the store after it, the value the promise resolves to ([None] when it
    rejects) and the enrichment it left pending. *)
Record Outcome := {
  orchestratorAfter : t;
  storeAfter : TopicDatabase;
  result : option QueryResult;
  pendingEnrichment : option string
}.

Definition processUserQuery (env : Env) (userText : string) (mode : AgentMode)
    (recentHistory : list ChatMessage) (slideContext : string)
    (o : t) (db : TopicDatabase) : Outcome :=
  match parentChat o with
  | None =>
      {| orchestratorAfter := o; storeAfter := db; result := None;
         pendingEnrichment := None |}
  | Some _ =>
      let r := route env userText mode recentHistory slideContext o db in
      match sendMessage env (prompt r) with
      | None =>
          {| orchestratorAfter := routedOrchestrator r; storeAfter := db;
             result := None; pendingEnrichment := None |}
      | Some modelResponseText =>
          let responseMessage :=
            {| role := model; text := modelResponseText;
               sources := match routedSources r with
                          | [] => None
                          | _ :: _ => Some (routedSources r)
                          end |} in
          let (db1, target) :=
            triggerBackgroundGeneration env (workingTopicName r) db in
          {| orchestratorAfter := routedOrchestrator r; storeAfter := db1;
             result := Some {| response := responseMessage;
                               resultAnalysis := analysis r;
                               resultSources := routedSources r |};
             pendingEnrichment := target |}
      end
  end.

End AgentOrchestrator.

(** ** [StudySession]: the chat handler of the component *)

Module StudySession.

Record t := {
  slides : list LessonSlide;
  currentSlideIndex : nat;
  chatMessages : list ChatMessage;
  inputMessage : string;
  isChatLoading : bool;
  currentTopicName : string;
  agentMode : AgentMode;
  slideChatHistoryRef : list ChatMessage;
  orchestratorRef : option AgentOrchestrator.t
}.

Definition errorMessage : ChatMessage :=
  {| role := model;
     text := "Sorry, I encountered an error coordinating the agents.";
     sources := None |}.

(** The store write that follows [getCurrentTopic()?.id]. *)
Definition addToCurrent (m : ChatMessage) (db : TopicDatabase) : TopicDatabase :=
  match getCurrentTopic db with
  | Some cur => if JS.truthy (id cur) then addMessageToTopic (id cur) m db else db
  | None => db
  end.

(** Step 3 of the handler: the store side of a shift. *)
Definition switchStore (env : Env) (n : string) (db : TopicDatabase)
    : TopicDatabase :=
  match getTopicByName n db with
  | Some newTopic => setCurrentTopic (id newTopic) db
  | None =>
      let (newTopic, d) := createTopic (uuid_shift env) (now_shift env) n false db in
      setCurrentTopic (id newTopic) d
  end.

(** The message object built from the chat box. *)
Definition userMessage (s : t) : ChatMessage :=
  {| role := user; text := inputMessage s; sources := None |}.

(** The state a turn ends in when the [try] block throws. *)
Definition failed (s : t) (o : option AgentOrchestrator.t) : t :=
  {| slides := slides s; currentSlideIndex := currentSlideIndex s;
     chatMessages := (chatMessages s ++ [userMessage s]) ++ [errorMessage];
     inputMessage := ""; isChatLoading := false;
     currentTopicName := currentTopicName s; agentMode := agentMode s;
     slideChatHistoryRef := slideChatHistoryRef s ++ [userMessage s];
     orchestratorRef := o |}.

(** The guard of step 3 of the handler. *)
Definition shiftHandled (a : TopicAnalysis) (s : t) : bool :=
  isNewTopic a && negb (topicName a =? currentTopicName s).

(** The state a turn ends in when the orchestrator resolves with [res]. *)
Definition answered (s : t) (res : AgentOrchestrator.QueryResult)
    (o : AgentOrchestrator.t) : t :=
  let a := AgentOrchestrator.resultAnalysis res in
  let reply := AgentOrchestrator.response res in
  {| slides := slides s; currentSlideIndex := currentSlideIndex s;
     chatMessages := (chatMessages s ++ [userMessage s]) ++ [reply];
     inputMessage := ""; isChatLoading := false;
     currentTopicName :=
       if shiftHandled a s then topicName a else currentTopicName s;
     agentMode := agentMode s;
     slideChatHistoryRef := (slideChatHistoryRef s ++ [userMessage s]) ++ [reply];
     orchestratorRef :=
       Some (if shiftHandled a s
             then AgentOrchestrator.updateTopic (topicName a) o
             else o) |}.

(** [handleSendMessage], run to the end of its [finally] block. The third
    component is the topic id of the enrichment the turn left pending. *)
Definition handleSendMessage (env : Env) (s : t) (db : TopicDatabase)
    : t * TopicDatabase * option string :=
  match orchestratorRef s with
  | None => (s, db, None)
  | Some orch =>
      if negb (JS.truthy (JS.trim (inputMessage s))) then (s, db, None)
      else
        let userText := inputMessage s in
        let db1 := addToCurrent (userMessage s) db in
        match nth_error (slides s) (currentSlideIndex s) with
        | None => (failed s (Some orch), db1, None)
        | Some slide =>
            let out :=
              AgentOrchestrator.processUserQuery env userText (agentMode s)
                (JS.slice_last 5 (chatMessages s)) (slide_title slide) orch db1 in
            let orch1 := AgentOrchestrator.orchestratorAfter out in
            let db2 := AgentOrchestrator.storeAfter out in
            match AgentOrchestrator.result out with
            | None => (failed s (Some orch1), db2, None)
            | Some res =>
                let a := AgentOrchestrator.resultAnalysis res in
                let db3 :=
                  if shiftHandled a s then switchStore env (topicName a) db2
                  else db2 in
                (answered s res orch1,
                 addToCurrent (AgentOrchestrator.response res) db3,
                 AgentOrchestrator.pendingEnrichment out)
            end
        end
  end.

(** The greeting that opens a new session. *)
Definition introMessage (topic : string) : ChatMessage :=
  {| role := model;
     text := "Welcome! I'm your AI tutor. We're starting with **" ++ topic
               ++ "**. Read this slide, and ask me anything!";
     sources := None |}.

(** The NEW SESSION branch of [initSession], after the first slide has
    arrived in a component that is still mounted; the branch from its start
    is [newSession] below. The session is [None] when the non-null assertion
    on [getCurrentTopic()] fails: the handler catches the exception and shows
    an error instead of the lesson. *)
Definition initSession (uuid : string) (now : Z) (topic : string)
    (firstSlide : LessonSlide) (db : TopicDatabase) : option t * TopicDatabase :=
  let db1 := reset uuid now topic db in
  match getCurrentTopic db1 with
  | Some cur =>
      (Some {| slides := [firstSlide]; currentSlideIndex := 0;
               chatMessages := [introMessage topic]; inputMessage := "";
               isChatLoading := false;
               currentTopicName := topic; agentMode := TUTOR;
               slideChatHistoryRef := [];
               orchestratorRef :=
                 Some (AgentOrchestrator.new AgentOrchestrator.ChatSession topic) |},
       addMessageToTopic (id cur) (introMessage topic) db1)
  | None => (None, db1)
  end.

(** The whole NEW SESSION branch of [initSession]. The store is reset
    before the first slide is asked for; [getInitialSlide] is the service
    applied to the topic, [None] when it throws, and [isMounted] is the flag
    read after the slide has arrived. When the service throws, or the
    component was unmounted meanwhile, nothing follows the reset: no session,
    no greeting. *)
Definition newSession (uuid : string) (now : Z) (topic : string)
    (getInitialSlide : string -> option LessonSlide) (isMounted : bool)
    (db : TopicDatabase) : option t * TopicDatabase :=
  match getInitialSlide topic with
  | Some firstSlide =>
      if isMounted then initSession uuid now topic firstSlide db
      else (None, reset uuid now topic db)
  | None => (None, reset uuid now topic db)
  end.

(** Typing into the chat box. *)
Definition setInput (txt : string) (s : t) : t :=
  {| slides := slides s; currentSlideIndex := currentSlideIndex s;
     chatMessages := chatMessages s; inputMessage := txt;
     isChatLoading := isChatLoading s;
     currentTopicName := currentTopicName s; agentMode := agentMode s;
     slideChatHistoryRef := slideChatHistoryRef s;
     orchestratorRef := orchestratorRef s |}.

End StudySession.

(** ** Other calls of [geminiService.ts] *)

Module GeminiService.

(** A grounding chunk of a search response; every level may be absent. *)
Record WebChunk := { web_uri : option string; web_title : option string }.

Record GroundingChunk := { web : option WebChunk }.

(** What [performResearch] reads of the response: its text and the chunks
    at the end of the optional chain
    [candidates?.[0]?.groundingMetadata?.groundingChunks]. *)
Record ResearchResponse := {
  researchResponseText : option string;
  groundingChunks : option (list GroundingChunk)
}.

Inductive ResearchCall :=
| ResearchThrew
| ResearchReturned (response : ResearchResponse).

(** [o || d] for a string that may be undefined. *)
Definition text_or (o : option string) (d : string) : string :=
  match o with
  | Some s => JS.or_else s d
  | None => d
  end.

(** The source a chunk contributes: the guard is
    [chunk.web?.uri && chunk.web?.title]. *)
Definition chunkSource (chunk : GroundingChunk) : option Source :=
  match web chunk with
  | Some w =>
      match web_uri w, web_title w with
      | Some u, Some t =>
          if JS.truthy u && JS.truthy t then Some {| title := t; uri := u |}
          else None
      | _, _ => None
      end
  | None => None
  end.

(** The [forEach] that pushes the sources, in chunk order. *)
Fixpoint collectSources (chunks : list GroundingChunk) : list Source :=
  match chunks with
  | [] => []
  | chunk :: rest =>
      match chunkSource chunk with
      | Some s => s :: collectSources rest
      | None => collectSources rest
      end
  end.

(** [performResearch], from what the search call did. *)
Definition performResearch (call : ResearchCall) : ResearchResult :=
  match call with
  | ResearchThrew =>
      {| research_text := "I couldn't access the research tools at the moment.";
         research_sources := [] |}
  | ResearchReturned response =>
      {| research_text := text_or (researchResponseText response) "No results found.";
         research_sources :=
           collectSources
             (match groundingChunks response with
              | Some chunks => chunks
              | None => []
              end) |}
  end.

Definition speaker (r : Role) : string :=
  match r with
  | user => "Student"
  | model => "Tutor"
  end.

(** The transcript interpolated into the summary prompt. *)
Definition chatText (chatHistory : list ChatMessage) : string :=
  JS.join JS.nl (map (fun msg => speaker (role msg) ++ ": " ++ text msg) chatHistory).

(** [summarizeSlideDiscussion]; [call] is the model applied to the slide
    title and the transcript. With no discussion the model is not called. *)
Definition summarizeSlideDiscussion (call : string -> string -> CallOutcome)
    (slideTitle : string) (chatHistory : list ChatMessage) : string :=
  match chatHistory with
  | [] => "Completed slide: " ++ slideTitle ++ "."
  | _ :: _ =>
      match call slideTitle (chatText chatHistory) with
      | Threw => "Discussed " ++ slideTitle ++ "."
      | Returned responseText => text_or responseText ("Discussed " ++ slideTitle ++ ".")
      end
  end.

(** The decimal text of an array index, as a template literal prints it. *)
Definition index_text (i : nat) : string := NilZero.string_of_uint (Nat.to_uint i).

Definition with_exam_id (i : string) (q : ExamQuestion) : ExamQuestion :=
  {| exam_id := i; exam_type := exam_type q; exam_question := exam_question q;
     exam_options := exam_options q;
     exam_correctAnswerIndex := exam_correctAnswerIndex q;
     modelAnswer := modelAnswer q |}.

(** [questions.map((q, i) => ({ ...q, id: q.id || `q-${i}` }))], from index
    [i] on. *)
Fixpoint fillIds (i : nat) (questions : list ExamQuestion) : list ExamQuestion :=
  match questions with
  | [] => []
  | q :: rest =>
      with_exam_id (JS.or_else (exam_id q) ("q-" ++ index_text i)) q
        :: fillIds (S i) rest
  end.

(** [generateExam], from what the model call did and from [JSON.parse] read at
    type [ExamQuestion[]] ([None] when it throws); the result is [None] when
    the function throws. *)
Definition generateExam (call : CallOutcome)
    (parse : string -> option (list ExamQuestion)) : option (list ExamQuestion) :=
  match call with
  | Threw => None
  | Returned responseText =>
      let parsed :=
        match responseText with
        | Some txt => if JS.truthy txt then parse txt else Some []
        | None => Some []
        end in
      match parsed with
      | Some questions => Some (fillIds 0 questions)
      | None => None
      end
  end.

End GeminiService.

(** ** [StudySession]: slides and notebook *)

Module Lesson.

(** The state of the component that the slide and notebook handlers use,
    around the state the chat handler uses. *)
Record t := {
  session : StudySession.t;
  lessonContext : string;
  generatingNext : bool;
  notebookContent : string
}.

(** The remote calls of [handleNextSlide]: the summary model, and
    [getNextSlide] applied to topic, previous title and lesson context, [None]
    when it throws. *)
Record SlideEnv := {
  summarizeCall : string -> string -> CallOutcome;
  getNextSlide : string -> string -> string -> option LessonSlide
}.

Definition with_session (s : StudySession.t) (l : t) : t :=
  {| session := s; lessonContext := lessonContext l;
     generatingNext := generatingNext l; notebookContent := notebookContent l |}.

(** The session after a slide change: new slides, new index, the slide's
    discussion cleared, [extra] added to the chat. *)
Definition moved (slides' : list LessonSlide) (index' : nat)
    (extra : list ChatMessage) (s : StudySession.t) : StudySession.t :=
  {| StudySession.slides := slides';
     StudySession.currentSlideIndex := index';
     StudySession.chatMessages := StudySession.chatMessages s ++ extra;
     StudySession.inputMessage := StudySession.inputMessage s;
     StudySession.isChatLoading := StudySession.isChatLoading s;
     StudySession.currentTopicName := StudySession.currentTopicName s;
     StudySession.agentMode := StudySession.agentMode s;
     StudySession.slideChatHistoryRef := [];
     StudySession.orchestratorRef := StudySession.orchestratorRef s |}.

Definition movingOnMessage (nextSlide : LessonSlide) : ChatMessage :=
  {| role := model;
     text := "Moving on! Here is a new slide about **" ++ slide_title nextSlide
               ++ "**.";
     sources := None |}.

(** The store write of step 2: the summary goes to the active topic. *)
Definition saveSummary (summary : string) (db : TopicDatabase) : TopicDatabase :=
  match getCurrentTopic db with
  | Some cur => if JS.truthy (id cur) then appendKnowledge (id cur) summary db else db
  | None => db
  end.

(** [handleNextSlide], run to the end of its [finally] block. The image of
    the new slide is loaded apart and is not part of this state. *)
Definition handleNextSlide (env : SlideEnv) (l : t) (db : TopicDatabase)
    : t * TopicDatabase :=
  let s := session l in
  let index := StudySession.currentSlideIndex s in
  if (Z.of_nat index <? Z.of_nat (List.length (StudySession.slides s)) - 1)%Z
  then (with_session (moved (StudySession.slides s) (index + 1) [] s) l, db)
  else
    match nth_error (StudySession.slides s) index with
    | None =>
        ({| session := s; lessonContext := lessonContext l;
            generatingNext := false; notebookContent := notebookContent l |}, db)
    | Some currentSlide =>
        let summary :=
          GeminiService.summarizeSlideDiscussion (summarizeCall env)
            (slide_title currentSlide) (StudySession.slideChatHistoryRef s) in
        let db1 := saveSummary summary db in
        let updatedContext :=
          lessonContext l ++ JS.nl ++ "- Slide " ++ JS.dq ++ slide_title currentSlide
            ++ JS.dq ++ " Summary: " ++ summary in
        match getNextSlide env (StudySession.currentTopicName s)
                (slide_title currentSlide) updatedContext with
        | None =>
            ({| session := s; lessonContext := updatedContext;
                generatingNext := false; notebookContent := notebookContent l |},
             db1)
        | Some nextSlide =>
            ({| session :=
                  moved (StudySession.slides s ++ [nextSlide]) (index + 1)
                    [movingOnMessage nextSlide] s;
                lessonContext := updatedContext;
                generatingNext := false; notebookContent := notebookContent l |},
             db1)
        end
    end.

(** The handler of the Previous button:
    [setCurrentSlideIndex(prev => Math.max(0, prev - 1))]. *)
Definition handlePrevSlide (l : t) : t :=
  let s := session l in
  with_session
    {| StudySession.slides := StudySession.slides s;
       StudySession.currentSlideIndex :=
         Z.to_nat (Z.max 0 (Z.of_nat (StudySession.currentSlideIndex s) - 1));
       StudySession.chatMessages := StudySession.chatMessages s;
       StudySession.inputMessage := StudySession.inputMessage s;
       StudySession.isChatLoading := StudySession.isChatLoading s;
       StudySession.currentTopicName := StudySession.currentTopicName s;
       StudySession.agentMode := StudySession.agentMode s;
       StudySession.slideChatHistoryRef := StudySession.slideChatHistoryRef s;
       StudySession.orchestratorRef := StudySession.orchestratorRef s |} l.

(** [handleNotebookUpdate]. *)
Definition handleNotebookUpdate (content : string) (l : t) (db : TopicDatabase)
    : t * TopicDatabase :=
  ({| session := session l; lessonContext := lessonContext l;
      generatingNext := generatingNext l; notebookContent := content |},
   match getCurrentTopic db with
   | Some cur =>
       if JS.truthy (id cur) then updateNotebookContent (id cur) content db else db
   | None => db
   end).

(** [handleSendMessage] on this state. *)
Definition handleSendMessage (env : Env) (l : t) (db : TopicDatabase)
    : t * TopicDatabase * option string :=
  let '(s', db', pending) := StudySession.handleSendMessage env (session l) db in
  (with_session s' l, db', pending).

(** The state the NEW SESSION branch builds around the chat state. *)
Definition start (s : StudySession.t) : t :=
  {| session := s; lessonContext := ""; generatingNext := false;
     notebookContent := "" |}.

(** The effect that saves the state of a lesson that has finished loading
    after each change of it. *)
Definition saveState (l : t) (db : TopicDatabase) : TopicDatabase :=
  let s := session l in
  if (0 <? List.length (StudySession.slides s))%nat
  then setSessionState
         {| ss_slides := StudySession.slides s;
            ss_currentSlideIndex := StudySession.currentSlideIndex s;
            ss_lessonContext := lessonContext l;
            ss_chatHistory := StudySession.chatMessages s;
            ss_currentTopicName := StudySession.currentTopicName s;
            ss_agentMode := StudySession.agentMode s |} db
  else db.

(** The RESTORE branch of [initSession] in a component just mounted on
    [topic]; [None] when the guard sends the component to the NEW SESSION
    branch. The three agent modes are non-empty strings, so that
    [savedSession.agentMode || AgentMode.TUTOR] is the saved mode. *)
Definition restore (topic : string) (db : TopicDatabase) : option t :=
  match getMainTopicName db, getSessionState db with
  | Some mainTopicName, Some savedSession =>
      if mainTopicName =? topic then
        let currentId :=
          match getCurrentTopic db with
          | Some cur => JS.or_else (id cur) ""
          | None => ""
          end in
        Some {| session :=
                  {| StudySession.slides := ss_slides savedSession;
                     StudySession.currentSlideIndex := ss_currentSlideIndex savedSession;
                     StudySession.chatMessages := ss_chatHistory savedSession;
                     StudySession.inputMessage := "";
                     StudySession.isChatLoading := false;
                     StudySession.currentTopicName := ss_currentTopicName savedSession;
                     StudySession.agentMode := ss_agentMode savedSession;
                     StudySession.slideChatHistoryRef := [];
                     StudySession.orchestratorRef :=
                       Some (AgentOrchestrator.new AgentOrchestrator.ChatSession
                               (ss_currentTopicName savedSession)) |};
                lessonContext := ss_lessonContext savedSession;
                generatingNext := false;
                notebookContent := tc_notebookContent (getTopicContent currentId db) |}
      else None
  | _, _ => None
  end.

End Lesson.

(** ** [TopicInput] *)

Module TopicInput.

(** [handleSubmit]: the topic handed to [onSearch], if any. *)
Definition handleSubmit (value : string) : option string :=
  if JS.truthy (JS.trim value) then Some (JS.trim value) else None.

End TopicInput.

(** ** [Flashcards] *)

Module Flashcards.

(** The state of the component. [timers] holds the index changes that
    [setTimeout] has scheduled and not yet run, oldest first: they share one
    delay, so they run in the order they were set. [cards] is the array as it
    was when it was loaded: when it is the array of the store, an enrichment
    that completes while the page is open appends to it, and the runs below
    have no such event. *)
Record t := {
  activeTopicId : option string;
  availableTopics : list Topic;
  cards : list Flashcard;
  loading : bool;
  error : option string;
  currentIndex : Z;
  isFlipped : bool;
  timers : list Z
}.

Definition initial : t :=
  {| activeTopicId := None; availableTopics := []; cards := []; loading := false;
     error := None; currentIndex := 0; isFlipped := false; timers := [] |}.

(** The effect run on mount. The topics listed are the objects of the store;
    the handlers below read their [id], [name] and [isMainTopic], which no
    method of the store changes. *)
Definition mount (db : TopicDatabase) (st : t) : t :=
  let allTopics := getAllTopics db in
  {| activeTopicId :=
       match getCurrentTopic db with
       | Some current => Some (id current)
       | None =>
           match allTopics with
           | first :: _ => Some (id first)
           | [] => activeTopicId st
           end
       end;
     availableTopics := allTopics; cards := cards st; loading := loading st;
     error := error st; currentIndex := currentIndex st;
     isFlipped := isFlipped st; timers := timers st |}.

(** The state a load ends in: the four resets of its start, then the cards
    and the error it sets. *)
Definition loaded (cards' : list Flashcard) (error' : option string) (st : t) : t :=
  {| activeTopicId := activeTopicId st; availableTopics := availableTopics st;
     cards := cards'; loading := false; error := error';
     currentIndex := 0; isFlipped := false; timers := timers st |}.

(** [loadCardsForTopic], run to completion; [getFlashcards] is the service
    applied to topic name and knowledge base, [None] when it throws. *)
Definition loadCardsForTopic (getFlashcards : string -> string -> option (list Flashcard))
    (st : t) (db : TopicDatabase) : t * TopicDatabase :=
  match activeTopicId st with
  | None => (st, db)
  | Some i =>
      if negb (JS.truthy i) then (st, db)
      else
        let loadedCards := tc_flashcards (getTopicContent i db) in
        let topicObj := find (fun t0 => id t0 =? i) (availableTopics st) in
        let fetches :=
          match loadedCards, topicObj with
          | [], Some obj => isMainTopic obj
          | _, _ => false
          end in
        match topicObj with
        | Some obj =>
            if fetches then
              match getFlashcards (name obj) (getKnowledgeBase i db) with
              | Some fetched =>
                  (loaded fetched None st, addFlashcardsToTopic i fetched db)
              | None => (loaded (cards st) (Some "Failed to load flashcards.") st, db)
              end
            else (loaded loadedCards None st, db)
        | None => (loaded loadedCards None st, db)
        end
  end.

Definition schedule (delta : Z) (st : t) : t :=
  {| activeTopicId := activeTopicId st; availableTopics := availableTopics st;
     cards := cards st; loading := loading st; error := error st;
     currentIndex := currentIndex st; isFlipped := false;
     timers := timers st ++ [delta] |}.

(** [handleNext]: the guard reads the index of the last render; the index
    moves 150 ms later. *)
Definition handleNext (st : t) : t :=
  if (currentIndex st <? Z.of_nat (List.length (cards st)) - 1)%Z
  then schedule 1 st else st.

Definition handlePrev (st : t) : t :=
  if (0 <? currentIndex st)%Z then schedule (-1) st else st.

(** The oldest timer runs: [setCurrentIndex(prev => prev + delta)]. *)
Definition fireTimer (st : t) : t :=
  match timers st with
  | [] => st
  | delta :: rest =>
      {| activeTopicId := activeTopicId st; availableTopics := availableTopics st;
         cards := cards st; loading := loading st; error := error st;
         currentIndex := (currentIndex st + delta)%Z; isFlipped := isFlipped st;
         timers := rest |}
  end.

Definition handleFlip (st : t) : t :=
  {| activeTopicId := activeTopicId st; availableTopics := availableTopics st;
     cards := cards st; loading := loading st; error := error st;
     currentIndex := currentIndex st; isFlipped := negb (isFlipped st);
     timers := timers st |}.

(** The Reset button. *)
Definition handleReset (st : t) : t :=
  {| activeTopicId := activeTopicId st; availableTopics := availableTopics st;
     cards := cards st; loading := loading st; error := error st;
     currentIndex := 0; isFlipped := false; timers := timers st |}.

(** What the learner and the clock can do to a deck. *)
Inductive Event := ClickNext | ClickPrev | ClickFlip | ClickReset | TimerFires.

Definition step (e : Event) (st : t) : t :=
  match e with
  | ClickNext => handleNext st
  | ClickPrev => handlePrev st
  | ClickFlip => handleFlip st
  | ClickReset => handleReset st
  | TimerFires => fireTimer st
  end.

Definition run (events : list Event) (st : t) : t :=
  fold_left (fun s e => step e s) events st.

End Flashcards.

(** ** [Quiz] *)

Module Quiz.

(** The state of the component. As for the flashcards, [questions] is the
    array as it was when it was loaded. *)
Record t := {
  activeTopicId : option string;
  availableTopics : list Topic;
  questions : list QuizQuestion;
  loading : bool;
  error : option string;
  currentQIndex : nat;
  selectedOption : option Z;
  isAnswered : bool;
  score : nat;
  quizCompleted : bool
}.

Definition initial : t :=
  {| activeTopicId := None; availableTopics := []; questions := [];
     loading := false; error := None; currentQIndex := 0;
     selectedOption := None; isAnswered := false; score := 0;
     quizCompleted := false |}.

Definition mount (db : TopicDatabase) (st : t) : t :=
  let allTopics := getAllTopics db in
  {| activeTopicId :=
       match getCurrentTopic db with
       | Some current => Some (id current)
       | None =>
           match allTopics with
           | first :: _ => Some (id first)
           | [] => activeTopicId st
           end
       end;
     availableTopics := allTopics; questions := questions st;
     loading := loading st; error := error st;
     currentQIndex := currentQIndex st; selectedOption := selectedOption st;
     isAnswered := isAnswered st; score := score st;
     quizCompleted := quizCompleted st |}.

(** The state a load ends in: the resets of its start, then the questions
    and the error it sets. *)
Definition loaded (questions' : list QuizQuestion) (error' : option string)
    (st : t) : t :=
  {| activeTopicId := activeTopicId st; availableTopics := availableTopics st;
     questions := questions'; loading := false; error := error';
     currentQIndex := 0; selectedOption := None; isAnswered := false;
     score := 0; quizCompleted := false |}.

(** [loadQuiz], run to completion; [getQuiz] is the service applied to topic
    name and knowledge base, [None] when it throws. *)
Definition loadQuiz (getQuiz : string -> string -> option (list QuizQuestion))
    (st : t) (db : TopicDatabase) : t * TopicDatabase :=
  match activeTopicId st with
  | None => (st, db)
  | Some i =>
      if negb (JS.truthy i) then (st, db)
      else
        let loadedQuestions := tc_quizzes (getTopicContent i db) in
        let topicObj := find (fun t0 => id t0 =? i) (availableTopics st) in
        let fetches :=
          match loadedQuestions, topicObj with
          | [], Some obj => isMainTopic obj
          | _, _ => false
          end in
        match topicObj with
        | Some obj =>
            if fetches then
              match getQuiz (name obj) (getKnowledgeBase i db) with
              | Some fetched =>
                  (loaded fetched None st, addQuizQuestionsToTopic i fetched db)
              | None => (loaded (questions st) (Some "Failed to generate quiz.") st, db)
              end
            else (loaded loadedQuestions None st, db)
        | None => (loaded loadedQuestions None st, db)
        end
  end.

(** [handleOptionSelect]. When no question stands at the index, reading
    [correctAnswerIndex] throws after the first two state updates were
    queued. *)
Definition handleOptionSelect (index : Z) (st : t) : t :=
  if isAnswered st then st
  else
    {| activeTopicId := activeTopicId st; availableTopics := availableTopics st;
       questions := questions st; loading := loading st; error := error st;
       currentQIndex := currentQIndex st; selectedOption := Some index;
       isAnswered := true;
       score :=
         match nth_error (questions st) (currentQIndex st) with
         | Some q => if (index =? correctAnswerIndex q)%Z then score st + 1 else score st
         | None => score st
         end;
       quizCompleted := quizCompleted st |}.

Definition handleNext (st : t) : t :=
  if (Z.of_nat (currentQIndex st) <? Z.of_nat (List.length (questions st)) - 1)%Z
  then
    {| activeTopicId := activeTopicId st; availableTopics := availableTopics st;
       questions := questions st; loading := loading st; error := error st;
       currentQIndex := currentQIndex st + 1; selectedOption := None;
       isAnswered := false; score := score st;
       quizCompleted := quizCompleted st |}
  else
    {| activeTopicId := activeTopicId st; availableTopics := availableTopics st;
       questions := questions st; loading := loading st; error := error st;
       currentQIndex := currentQIndex st; selectedOption := selectedOption st;
       isAnswered := isAnswered st; score := score st;
       quizCompleted := true |}.

(** The handlers a learner can trigger on a loaded quiz. *)
Inductive Event := Select (index : Z) | Next.

Definition step (e : Event) (st : t) : t :=
  match e with
  | Select index => handleOptionSelect index st
  | Next => handleNext st
  end.

Definition run (events : list Event) (st : t) : t :=
  fold_left (fun s e => step e s) events st.

End Quiz.

(** ** [ExamMode] *)

Module ExamMode.

Inductive Step := SELECT_TOPIC | CONSENT | EXAM | RESULTS.

(** A value of [userAnswers]: an option index or a text. *)
Inductive Answer := AnswerIndex (optionIndex : Z) | AnswerText (answer : string).

(** The state of the component that starting and answering an exam use,
    with the flag [isExamActive] of [App] that its two callbacks set; grading
    and its feedback are left out. [userAnswers] is the object used as a map,
    one entry per key; only its set of keys is read here. *)
Record t := {
  step : Step;
  selectedTopicId : option string;
  selectedTopicName : string;
  questions : list ExamQuestion;
  loading : bool;
  userAnswers : list (string * Answer);
  availableTopics : list Topic;
  isExamActive : bool
}.

Definition initial : t :=
  {| step := SELECT_TOPIC; selectedTopicId := None; selectedTopicName := "";
     questions := []; loading := false; userAnswers := [];
     availableTopics := []; isExamActive := false |}.

(** The filter of the topics offered for an exam. *)
Definition examinable (t0 : Topic) : bool :=
  (0 <? String.length (knowledgeBase t0))%nat || isMainTopic t0.

(** The effect run on mount. *)
Definition mount (db : TopicDatabase) (st : t) : t :=
  let offered := filter examinable (getAllTopics db) in
  let selection :=
    match getCurrentTopic db with
    | Some current => Some (id current, name current)
    | None =>
        match offered with
        | first :: _ => Some (id first, name first)
        | [] => None
        end
    end in
  {| step := step st;
     selectedTopicId :=
       match selection with Some (i, _) => Some i | None => selectedTopicId st end;
     selectedTopicName :=
       match selection with Some (_, n) => n | None => selectedTopicName st end;
     questions := questions st; loading := loading st;
     userAnswers := userAnswers st; availableTopics := offered;
     isExamActive := isExamActive st |}.

Definition with_exam (step' : Step) (questions' : list ExamQuestion)
    (active : bool) (st : t) : t :=
  {| step := step'; selectedTopicId := selectedTopicId st;
     selectedTopicName := selectedTopicName st; questions := questions';
     loading := false; userAnswers := userAnswers st;
     availableTopics := availableTopics st; isExamActive := active |}.

(** [startExam], run to the end of its [finally] block; [generate] is
    [generateExam] applied to topic name and knowledge base, [None] when it
    throws. *)
Definition startExam (generate : string -> string -> option (list ExamQuestion))
    (st : t) (db : TopicDatabase) : t * TopicDatabase :=
  match selectedTopicId st with
  | None => (st, db)
  | Some i =>
      if negb (JS.truthy i) then (st, db)
      else
        match getExamQuestionsForTopic i db with
        | (_ :: _) as existingExam => (with_exam EXAM existingExam true st, db)
        | [] =>
            match generate (selectedTopicName st) (getKnowledgeBase i db) with
            | Some newQuestions =>
                (with_exam EXAM newQuestions true st,
                 setExamQuestionsForTopic i newQuestions db)
            | None => (with_exam (step st) (questions st) false st, db)
            end
        end
  end.

(** [{ ...prev, [qId]: value }]. *)
Fixpoint setAnswer (qId : string) (value : Answer) (answers : list (string * Answer))
    : list (string * Answer) :=
  match answers with
  | [] => [(qId, value)]
  | (k, v) :: rest =>
      if k =? qId then (k, value) :: rest else (k, v) :: setAnswer qId value rest
  end.

Definition with_answers (answers : list (string * Answer)) (st : t) : t :=
  {| step := step st; selectedTopicId := selectedTopicId st;
     selectedTopicName := selectedTopicName st; questions := questions st;
     loading := loading st; userAnswers := answers;
     availableTopics := availableTopics st; isExamActive := isExamActive st |}.

Definition handleAnswerMCQ (qId : string) (optionIndex : Z) (st : t) : t :=
  with_answers (setAnswer qId (AnswerIndex optionIndex) (userAnswers st)) st.

Definition handleAnswerText (qId : string) (answer : string) (st : t) : t :=
  with_answers (setAnswer qId (AnswerText answer) (userAnswers st)) st.

(** The Submit button is enabled:
    [!(Object.keys(userAnswers).length < questions.length)]. *)
Definition submitEnabled (st : t) : bool :=
  negb (List.length (userAnswers st) <? List.length (questions st))%nat.

Definition handleExit (st : t) : t :=
  {| step := SELECT_TOPIC; selectedTopicId := selectedTopicId st;
     selectedTopicName := selectedTopicName st; questions := [];
     loading := loading st; userAnswers := [];
     availableTopics := availableTopics st; isExamActive := false |}.

(** The answers a learner can give on the exam page: to a question that is
    shown, by its id. *)
Inductive AnswerEvent :=
| AnswerMCQ (position : nat) (optionIndex : Z)
| AnswerShort (position : nat) (answer : string).

Definition answer (e : AnswerEvent) (st : t) : t :=
  match e with
  | AnswerMCQ position optionIndex =>
      match nth_error (questions st) position with
      | Some q => handleAnswerMCQ (exam_id q) optionIndex st
      | None => st
      end
  | AnswerShort position txt =>
      match nth_error (questions st) position with
      | Some q => handleAnswerText (exam_id q) txt st
      | None => st
      end
  end.

Definition answerAll (events : list AnswerEvent) (st : t) : t :=
  fold_left (fun s e => answer e s) events st.

End ExamMode.

(** * Vocabulary of the properties

    Predicates over stores, runs and turns in which the properties are
    stated, and the sample sessions they are exercised on. *)

(** ** Runs of the store *)

(** [crypto.randomUUID()] returns an identifier that is not yet a key of the
    map. The call is reached only when [createTopic] finds no topic of that
    name; [reset] draws after clearing the map, where every identifier is
    fresh. *)
Definition op_fresh (o : StoreOp) (db : TopicDatabase) : Prop :=
  match o with
  | OpCreateTopic u _ n _ =>
      getTopicByName n db = None -> TMap.get u (topics db) = None
  | _ => True
  end.

Fixpoint fresh_ids (ops : list StoreOp) (db : TopicDatabase) : Prop :=
  match ops with
  | [] => True
  | o :: rest => op_fresh o db /\ fresh_ids rest (apply_op o db)
  end.

(** The identifiers drawn in a run are not empty. *)
Definition op_nonempty (o : StoreOp) : Prop :=
  match o with
  | OpReset u _ _ => u <> ""
  | OpCreateTopic u _ _ _ => u <> ""
  | _ => True
  end.

Definition is_reset (o : StoreOp) : bool :=
  match o with OpReset _ _ _ => true | _ => false end.

(** The operation asks [createTopic] for a main topic. *)
Definition creates_main (o : StoreOp) : bool :=
  match o with OpCreateTopic _ _ _ true => true | _ => false end.

(** The calls [appendKnowledge(topicId, s1)], ..., [appendKnowledge(topicId, sn)]
    in this order. *)
Definition appendAll (topicId : string) (ss : list string) (db : TopicDatabase)
    : TopicDatabase :=
  fold_left (fun d s => appendKnowledge topicId s d) ss db.

(** ** Predicates on stores *)

(** Follows the words of the specification: the texts joined, in call order,
    with the separator, after the value the knowledge base had. *)
Definition joined_knowledge (initial : string) (ss : list string) : string :=
  JS.join knowledge_separator (initial :: ss).

(** The name of a topic as [createTopic] compares it. *)
Definition folded_name (t : Topic) : string := JS.toLowerCase (name t).

(** No two topics of the store have names that are equal up to case. *)
Definition names_unique (db : TopicDatabase) : Prop :=
  NoDup (map folded_name (TMap.values (topics db))).

Definition main_topics (db : TopicDatabase) : list Topic :=
  filter isMainTopic (TMap.values (topics db)).

(** The order a comparator stands for: [x] does not follow [y]. *)
Definition cmp_le {A : Type} (cmp : A -> A -> Z) (x y : A) : Prop :=
  (cmp x y <= 0)%Z.

Definition topic_le : Topic -> Topic -> Prop := cmp_le compareTopics.

Definition created_before (a b : Topic) : Prop := (timestamp a < timestamp b)%Z.

(** The keys of the map are distinct, every topic sits under its own id, and
    no id is the empty string. [createTopic] is the only method that inserts,
    and it inserts a topic under the id it has just drawn. *)
Definition wf (db : TopicDatabase) : Prop :=
  NoDup (TMap.keys (topics db))
  /\ Forall (fun kv => id (snd kv) = fst kv /\ fst kv <> "") (topics db).

(** A string made of white space only. *)
Fixpoint all_space (s : string) : bool :=
  match s with
  | EmptyString => true
  | String c s' => JS.is_space c && all_space s'
  end.

(** The notebook the NOTEBOOK branch reads: that of the topic the store has
    active when the branch runs, empty when none is. *)
Definition activeNotebook (db : TopicDatabase) : string :=
  match getCurrentTopic db with
  | Some t => notebookContent t
  | None => ""
  end.

(** ** Predicates on turns *)

(** The [try] block of [analyzeTopicShift] throws: the call itself fails,
    or the text it returned does not parse. *)
Definition classifier_throws (env : Env)
    (currentTopic historySnippet userMessage : string) : Prop :=
  match classifierCall env currentTopic historySnippet userMessage with
  | Threw => True
  | Returned (Some txt) => JS.truthy txt = true /\ jsonParse env txt = None
  | Returned None => False
  end.

(** The message built from the engine's answer and the sources found. *)
Definition replyMessage (txt : string) (srcs : list Source) : ChatMessage :=
  {| role := model; text := txt;
     sources := match srcs with [] => None | _ :: _ => Some srcs end |}.

(** The session and the store agree on the current topic: the active topic
    bears the session's topic name, up to letter case. *)
Definition agree (s : StudySession.t) (db : TopicDatabase) : Prop :=
  forall t, getCurrentTopic db = Some t ->
            same_name (StudySession.currentTopicName s) t = true.

(** The analysis the classifier step gives the turn. *)
Definition classification (env : Env) (s : StudySession.t)
    (o : AgentOrchestrator.t) : TopicAnalysis :=
  analyzeTopicShift env (AgentOrchestrator.currentTopicName o)
    (StudySession.inputMessage s) (JS.slice_last 5 (StudySession.chatMessages s)).

(** Steps 1 to 3 of the orchestrator as the handler reaches them: the
    learner's message is already in the store. *)
Definition turnRoute (env : Env) (s : StudySession.t) (o : AgentOrchestrator.t)
    (slide : LessonSlide) (db : TopicDatabase) : AgentOrchestrator.Routed :=
  AgentOrchestrator.route env (StudySession.inputMessage s)
    (StudySession.agentMode s) (JS.slice_last 5 (StudySession.chatMessages s))
    (slide_title slide) o
    (StudySession.addToCurrent (StudySession.userMessage s) db).

(** ** Sample stores *)

(** A store just reset on Biology. *)
Definition sampleStore : TopicDatabase := reset "id-1" 1000 "Biology" newTopicDatabase.

Definition quantumStore : TopicDatabase :=
  snd (createTopic "id-2" 2000 "Quantum Physics" false sampleStore).

(** A run with a shift to a second topic, a later reset and a third topic. *)
Definition shiftOps : list StoreOp :=
  [ OpCreateTopic "id-2" 2000 "Math" false;
    OpSetCurrentTopic "id-2";
    OpAppendKnowledge "id-2" "fractions";
    OpReset "id-3" 3000 "History";
    OpCreateTopic "id-4" 4000 "Art" false ].

(** The store of the specification's example: A (main), then C, then B. *)
Definition acbStore : TopicDatabase :=
  run [ OpCreateTopic "id-c" 2000 "C" false; OpCreateTopic "id-b" 3000 "B" false ]
      (reset "id-a" 1000 "A" newTopicDatabase).

(** ** Sample sessions *)

(** An environment whose classifier always throws and whose engine always
    answers. *)
Definition failingClassifierEnv : Env :=
  {| classifierCall := fun _ _ _ => Threw;
     jsonParse := fun _ => None;
     performResearch := fun _ => {| research_text := ""; research_sources := [] |};
     sendMessage := fun _ => Some "Because heat flows from hot to cold.";
     uuid_background := "id-8"; now_background := 8000;
     uuid_shift := "id-9"; now_shift := 9000 |}.

Definition romeSlide : LessonSlide :=
  {| slide_title := "Ancient Rome"; content := "The republic and the empire.";
     imagePrompt := "A map of the Roman empire." |}.

(** The classifier reports Biology as a new topic; the engine answers with
    [answer], or fails when there is none. *)
Definition biologyEnv (answer : option string) : Env :=
  {| classifierCall := fun _ _ _ => Returned (Some "biology-is-new");
     jsonParse := fun _ => Some {| isNewTopic := true; topicName := "Biology" |};
     performResearch := fun _ => {| research_text := ""; research_sources := [] |};
     sendMessage := fun _ => answer;
     uuid_background := "id-8"; now_background := 8000;
     uuid_shift := "id-2"; now_shift := 2000 |}.

(** The classifier names the orchestrator's and the session's current topic
    as new. *)
Definition echoEnv : Env :=
  {| classifierCall := fun _ _ _ => Returned (Some "history-is-new");
     jsonParse := fun _ => Some {| isNewTopic := true; topicName := "History" |};
     performResearch := fun _ => {| research_text := ""; research_sources := [] |};
     sendMessage := fun _ => Some "Rome fell in 476.";
     uuid_background := "id-8"; now_background := 8000;
     uuid_shift := "id-2"; now_shift := 2000 |}.

(** A new session on History. *)
Definition historySession : option StudySession.t * TopicDatabase :=
  StudySession.initSession "id-1" 1000 "History" romeSlide newTopicDatabase.

Definition historyStore : TopicDatabase := snd historySession.

(** The topic that session has active. *)
Definition historyTopic : Topic :=
  {| id := "id-1"; name := "History"; timestamp := 1000;
     messages := [StudySession.introMessage "History"];
     flashcards := []; quizzes := []; examQuestions := [];
     isMainTopic := true; videoUri := None; notebookContent := "";
     knowledgeBase := "" |}.

Definition historyOrchestrator : AgentOrchestrator.t :=
  AgentOrchestrator.new AgentOrchestrator.ChatSession "History".

(** The session just started, with [q] typed into the chat box. *)
Definition asking (q : string) : StudySession.t :=
  {| StudySession.slides := [romeSlide];
     StudySession.currentSlideIndex := 0;
     StudySession.chatMessages := [StudySession.introMessage "History"];
     StudySession.inputMessage := q;
     StudySession.isChatLoading := false;
     StudySession.currentTopicName := "History";
     StudySession.agentMode := TUTOR;
     StudySession.slideChatHistoryRef := [];
     StudySession.orchestratorRef := Some historyOrchestrator |}.

(** The store of the session after the learner pasted notes. *)
Definition notedStore : TopicDatabase :=
  updateNotebookContent "id-1" "Rome was founded in 753 BC." historyStore.

(** ** Further predicates on stores *)

(** The pointer to the active topic is unset or a key of the map. *)
Definition pointer_valid (db : TopicDatabase) : Prop :=
  forall i, currentTopicId db = Some i -> TMap.has i (topics db) = true.

(** [t'] is a later state of the topic object [t]: what identifies it is
    unchanged and what it collects has only grown. *)
Definition later_state (t t' : Topic) : Prop :=
  id t' = id t /\ name t' = name t /\ timestamp t' = timestamp t
  /\ isMainTopic t' = isMainTopic t
  /\ (exists ms, messages t' = (messages t ++ ms)%list)
  /\ (exists cards, flashcards t' = (flashcards t ++ cards)%list)
  /\ (exists qs, quizzes t' = (quizzes t ++ qs)%list)
  /\ (exists k, knowledgeBase t' = knowledgeBase t ++ k).

(** The topics that are not main and were created at time [ts]. *)
Definition created_at (ts : Z) (t : Topic) : bool :=
  negb (isMainTopic t) && (timestamp t =? ts)%Z.

(** The object [createTopic] builds when it finds no topic of the name. *)
Definition blankTopic (uuid : string) (now : Z) (n : string) (isMain : bool) : Topic :=
  {| id := uuid; name := n; timestamp := now; messages := [];
     flashcards := []; quizzes := []; examQuestions := [];
     isMainTopic := isMain; videoUri := None; notebookContent := "";
     knowledgeBase := "" |}.

(** ** Runs of a lesson *)

(** What the learner can do on the lesson page: send [txt] (the remote calls
    of the turn are those of [env]), ask for the next slide, go back a slide,
    edit the notebook. *)
Inductive LessonEvent :=
| Send (env : Env) (txt : string)
| NextSlide (env : Lesson.SlideEnv)
| PrevSlide
| EditNotebook (content : string).

Definition lessonStep (e : LessonEvent) (st : Lesson.t * TopicDatabase)
    : Lesson.t * TopicDatabase :=
  let (l, db) := st in
  match e with
  | Send env txt =>
      fst (Lesson.handleSendMessage env
             (Lesson.with_session (StudySession.setInput txt (Lesson.session l)) l)
             db)
  | NextSlide env => Lesson.handleNextSlide env l db
  | PrevSlide => (Lesson.handlePrevSlide l, db)
  | EditNotebook c => Lesson.handleNotebookUpdate c l db
  end.

Fixpoint lessonRun (events : list LessonEvent) (st : Lesson.t * TopicDatabase)
    : Lesson.t * TopicDatabase :=
  match events with
  | [] => st
  | e :: rest => lessonRun rest (lessonStep e st)
  end.

(** The identifier a turn would draw is not empty and not yet a key. *)
Definition event_fresh (e : LessonEvent) (db : TopicDatabase) : Prop :=
  match e with
  | Send env _ => uuid_shift env <> "" /\ TMap.get (uuid_shift env) (topics db) = None
  | _ => True
  end.

Fixpoint events_fresh (events : list LessonEvent) (st : Lesson.t * TopicDatabase)
    : Prop :=
  match events with
  | [] => True
  | e :: rest => event_fresh e (snd st) /\ events_fresh rest (lessonStep e st)
  end.

(** The state of a lesson is sound: the store is well formed and has an
    active topic, the session names that topic, and a slide is shown. *)
Definition lesson_ok (st : Lesson.t * TopicDatabase) : Prop :=
  wf (snd st)
  /\ getCurrentTopic (snd st) <> None
  /\ agree (Lesson.session (fst st)) (snd st)
  /\ StudySession.currentSlideIndex (Lesson.session (fst st))
     < List.length (StudySession.slides (Lesson.session (fst st))).

(** The summary [handleNextSlide] asks for on the slide shown. *)
Definition slideSummary (env : Lesson.SlideEnv) (l : Lesson.t) (slide : LessonSlide)
    : string :=
  GeminiService.summarizeSlideDiscussion (Lesson.summarizeCall env)
    (slide_title slide) (StudySession.slideChatHistoryRef (Lesson.session l)).

(** The last slide of the deck is shown. *)
Definition on_last_slide (l : Lesson.t) (slide : LessonSlide) : Prop :=
  nth_error (StudySession.slides (Lesson.session l))
    (StudySession.currentSlideIndex (Lesson.session l)) = Some slide
  /\ S (StudySession.currentSlideIndex (Lesson.session l))
     = List.length (StudySession.slides (Lesson.session l)).

(** ** Predicates on the practice and exam pages *)

(** A learner who waits for the card to change before the next click: each
    click is followed by the run of the timer it may have set. *)
Definition patient (clicks : list Flashcards.Event) : list Flashcards.Event :=
  flat_map (fun e => [e; Flashcards.TimerFires]) clicks.

(** The index of the deck points at a card. *)
Definition card_shown (st : Flashcards.t) : Prop :=
  (0 <= Flashcards.currentIndex st
   < Z.of_nat (List.length (Flashcards.cards st)))%Z.

(** The score never runs ahead of the questions seen, and the index points
    at a question when there is one. *)
Definition quiz_ok (st : Quiz.t) : Prop :=
  Quiz.score st
  <= Quiz.currentQIndex st + (if Quiz.isAnswered st then 1 else 0)
  /\ (Quiz.currentQIndex st < List.length (Quiz.questions st)
      \/ (Quiz.questions st = [] /\ Quiz.currentQIndex st = 0 /\ Quiz.score st = 0)).

(** The ids of the questions of the exam, and the ids that have an answer. *)
Definition examIds (st : ExamMode.t) : list string :=
  map exam_id (ExamMode.questions st).

Definition answeredIds (st : ExamMode.t) : list string :=
  map fst (ExamMode.userAnswers st).

(** An exam page just opened on [questions]: nothing is answered yet. *)
Definition examPage (questions : list ExamQuestion) (st : ExamMode.t) : ExamMode.t :=
  ExamMode.with_answers [] (ExamMode.with_exam ExamMode.EXAM questions true st).

(** * Properties *)

(** ** Strings *)

Lemma or_else_empty (s : string) : JS.or_else s "" = s.
Proof.
  unfold JS.or_else, JS.truthy.
  destruct (s =? "") eqn:E; simpl; [ | reflexivity ].
  apply String.eqb_eq in E. now subst.
Qed.

Lemma truthy_true (s : string) : JS.truthy s = true <-> s <> "".
Proof.
  unfold JS.truthy. rewrite negb_true_iff. apply String.eqb_neq.
Qed.

Lemma string_length_app (a b : string) :
  String.length (a ++ b) = String.length a + String.length b.
Proof. induction a as [ | c a IH ]; simpl; [ reflexivity | now rewrite IH ]. Qed.

Lemma string_app_assoc (a b c : string) : (a ++ b) ++ c = a ++ (b ++ c).
Proof. induction a as [ | x a IH ]; simpl; [ reflexivity | now rewrite IH ]. Qed.

Lemma string_app_empty_r (a : string) : a ++ "" = a.
Proof. induction a as [ | x a IH ]; simpl; [ reflexivity | now rewrite IH ]. Qed.

(** ** The insertion-ordered map *)

Lemma get_modify_same k f m :
  TMap.get k (TMap.modify k f m) = option_map f (TMap.get k m).
Proof.
  induction m as [ | [k' v] m IH ]; simpl; [ reflexivity | ].
  destruct (k' =? k) eqn:E; simpl; rewrite E; [ reflexivity | exact IH ].
Qed.

Lemma get_modify_other k k' f m :
  k <> k' -> TMap.get k' (TMap.modify k f m) = TMap.get k' m.
Proof.
  intros Hne. induction m as [ | [k0 v] m IH ]; simpl; [ reflexivity | ].
  destruct (k0 =? k) eqn:E; simpl.
  - apply String.eqb_eq in E. subst k0.
    destruct (k =? k') eqn:E'; [ | reflexivity ].
    apply String.eqb_eq in E'. contradiction.
  - destruct (k0 =? k'); [ reflexivity | exact IH ].
Qed.

Lemma keys_modify k f m : TMap.keys (TMap.modify k f m) = TMap.keys m.
Proof.
  unfold TMap.keys.
  induction m as [ | [k' v] m IH ]; simpl; [ reflexivity | ].
  destruct (k' =? k); simpl; [ reflexivity | now rewrite IH ].
Qed.

Lemma modify_absent k f m : TMap.get k m = None -> TMap.modify k f m = m.
Proof.
  induction m as [ | [k' v] m IH ]; simpl; [ reflexivity | ].
  destruct (k' =? k); [ discriminate | ].
  intros H. now rewrite IH.
Qed.

Lemma set_absent k v m : TMap.get k m = None -> TMap.set k v m = (m ++ [(k, v)])%list.
Proof.
  induction m as [ | [k' v'] m IH ]; simpl; [ reflexivity | ].
  destruct (k' =? k); [ discriminate | ].
  intros H. now rewrite IH.
Qed.

Lemma get_app_absent k m m' :
  TMap.get k m = None -> TMap.get k (m ++ m')%list = TMap.get k m'.
Proof.
  induction m as [ | [k' v'] m IH ]; simpl; [ reflexivity | ].
  destruct (k' =? k); [ discriminate | exact IH ].
Qed.

Lemma get_app_present k m m' v :
  TMap.get k m = Some v -> TMap.get k (m ++ m')%list = Some v.
Proof.
  induction m as [ | [k' v'] m IH ]; simpl; [ discriminate | ].
  destruct (k' =? k); [ trivial | exact IH ].
Qed.

Lemma get_In k m v : TMap.get k m = Some v -> In (k, v) m.
Proof.
  induction m as [ | [k' v'] m IH ]; simpl; [ discriminate | ].
  destruct (k' =? k) eqn:E.
  - intros [= <-]. apply String.eqb_eq in E. subst. now left.
  - intros H. right. now apply IH.
Qed.

Lemma get_None_not_key k m : TMap.get k m = None <-> ~ In k (TMap.keys m).
Proof.
  induction m as [ | [k' v'] m IH ]; simpl.
  - split; [ intros _ [] | reflexivity ].
  - destruct (k' =? k) eqn:E.
    + apply String.eqb_eq in E. split; [ discriminate | ].
      intros H. exfalso. apply H. now left.
    + apply String.eqb_neq in E. rewrite IH. tauto.
Qed.

Lemma In_get k v m : NoDup (TMap.keys m) -> In (k, v) m -> TMap.get k m = Some v.
Proof.
  induction m as [ | [k' v'] m IH ]; simpl; [ intros _ [] | ].
  intros Hnd [H | H].
  - injection H as -> ->. now rewrite String.eqb_refl.
  - inversion Hnd as [ | ? ? Hnotin Hnd' ]; subst.
    destruct (k' =? k) eqn:E.
    + apply String.eqb_eq in E. subst k'. exfalso. apply Hnotin.
      change k with (fst (k, v)). now apply in_map.
    + now apply IH.
Qed.

(** A field that [f] leaves alone reads the same through [modify]. *)
Lemma map_values_modify {B : Type} (g : Topic -> B) k f m :
  (forall t, g (f t) = g t) ->
  map g (TMap.values (TMap.modify k f m)) = map g (TMap.values m).
Proof.
  intros Hg. unfold TMap.values.
  induction m as [ | [k' v] m IH ]; simpl; [ reflexivity | ].
  destruct (k' =? k); simpl.
  - now rewrite Hg.
  - now rewrite IH.
Qed.

(** ** The store *)

Lemma mutate_missing topicId f db :
  TMap.get topicId (topics db) = None -> mutate topicId f db = db.
Proof. intros H. unfold mutate. now rewrite H. Qed.

Lemma topics_mutate topicId f db :
  topics (mutate topicId f db) = TMap.modify topicId f (topics db).
Proof.
  unfold mutate. destruct (TMap.get topicId (topics db)) eqn:E; simpl.
  - reflexivity.
  - now rewrite modify_absent.
Qed.

Lemma currentTopicId_mutate topicId f db :
  currentTopicId (mutate topicId f db) = currentTopicId db.
Proof. unfold mutate. now destruct (TMap.get topicId (topics db)). Qed.

Lemma has_false_get k m : TMap.has k m = false <-> TMap.get k m = None.
Proof.
  unfold TMap.has. destruct (TMap.get k m); split; congruence.
Qed.

(** The mutating methods are instances of [mutate]. *)
Ltac unfold_mutators :=
  unfold addMessageToTopic, appendKnowledge, addFlashcardsToTopic,
    addQuizQuestionsToTopic, setExamQuestionsForTopic, updateNotebookContent in *.

(** C6. An operation addressed to a topic id that is not a key of the store
    does nothing and does not fail: each of the seven mutating methods returns
    the store it was given, and each of the three reading methods returns its
    empty default. *)
Theorem missing_id_is_noop (db : TopicDatabase) (topicId : string)
    (Hmiss : TMap.has topicId (topics db) = false) :
  (setCurrentTopic topicId db = db
   /\ (forall m, addMessageToTopic topicId m db = db)
   /\ (forall s, appendKnowledge topicId s db = db)
   /\ (forall cards, addFlashcardsToTopic topicId cards db = db)
   /\ (forall qs, addQuizQuestionsToTopic topicId qs db = db)
   /\ (forall qs, setExamQuestionsForTopic topicId qs db = db)
   /\ (forall c, updateNotebookContent topicId c db = db))
  /\ getKnowledgeBase topicId db = ""
  /\ getExamQuestionsForTopic topicId db = []
  /\ getTopicContent topicId db = emptyTopicContent.
Proof.
  pose proof (proj1 (has_false_get _ _) Hmiss) as Hget.
  repeat split; intros;
    try (apply mutate_missing; exact Hget).
  - unfold setCurrentTopic. now rewrite Hmiss.
  - unfold getKnowledgeBase. now rewrite Hget.
  - unfold getExamQuestionsForTopic. now rewrite Hget.
  - unfold getTopicContent. now rewrite Hget.
Qed.

Lemma missing_id_is_noop_witness :
  TMap.has "stale" (topics sampleStore) = false
  /\ setCurrentTopic "stale" sampleStore = sampleStore
  /\ getKnowledgeBase "stale" sampleStore = "".
Proof.
  split; [ reflexivity | ].
  pose proof (missing_id_is_noop sampleStore "stale" eq_refl) as H.
  split; [ exact (proj1 (proj1 H)) | exact (proj1 (proj2 H)) ].
Defined.

(** *** Runs of the store and the two outcomes of [createTopic] *)

Lemma run_cons o ops db : run (o :: ops) db = run ops (apply_op o db).
Proof. reflexivity. Qed.

Lemma createTopic_found uuid now n isMain db t :
  getTopicByName n db = Some t -> createTopic uuid now n isMain db = (t, db).
Proof. unfold getTopicByName, createTopic. now intros ->. Qed.

Lemma createTopic_fresh uuid now n isMain db :
  getTopicByName n db = None ->
  TMap.get uuid (topics db) = None ->
  exists t,
    createTopic uuid now n isMain db
    = (t, with_topics (topics db ++ [(uuid, t)])%list db)
    /\ id t = uuid /\ name t = n /\ timestamp t = now /\ messages t = []
    /\ isMainTopic t = isMain /\ knowledgeBase t = "".
Proof.
  intros Hname Hid. unfold getTopicByName in Hname. unfold createTopic.
  rewrite Hname. eexists. split.
  - rewrite (set_absent _ _ _ Hid). reflexivity.
  - simpl. repeat split.
Qed.

(** ** Knowledge base *)

Lemma get_appendKnowledge_same topicId s db t :
  TMap.get topicId (topics db) = Some t ->
  TMap.get topicId (topics (appendKnowledge topicId s db))
  = Some (set_knowledgeBase (knowledgeBase t ++ knowledge_separator ++ s) t).
Proof.
  intros H. unfold appendKnowledge. rewrite topics_mutate, get_modify_same.
  now rewrite H.
Qed.

Lemma getKnowledgeBase_get topicId db t :
  TMap.get topicId (topics db) = Some t ->
  getKnowledgeBase topicId db = knowledgeBase t.
Proof. intros H. unfold getKnowledgeBase. rewrite H. apply or_else_empty. Qed.

Lemma join_absorb sep a s ss :
  JS.join sep ((a ++ sep ++ s) :: ss) = JS.join sep (a :: s :: ss).
Proof.
  unfold JS.join. destruct ss as [ | x xs ].
  - reflexivity.
  - cbn [String.concat]. now rewrite !string_app_assoc.
Qed.

Lemma appendAll_knowledge topicId ss : forall db t,
  TMap.get topicId (topics db) = Some t ->
  getKnowledgeBase topicId (appendAll topicId ss db)
  = knowledgeBase t
      ++ String.concat "" (map (fun s => knowledge_separator ++ s) ss).
Proof.
  induction ss as [ | s ss IH ]; intros db t H.
  - simpl. rewrite string_app_empty_r. now apply getKnowledgeBase_get.
  - cbn [appendAll fold_left].
    change (fold_left _ ss ?d) with (appendAll topicId ss d).
    rewrite (IH _ _ (get_appendKnowledge_same _ s _ _ H)).
    cbn [knowledgeBase set_knowledgeBase map].
    destruct ss as [ | s' ss' ].
    + simpl. now rewrite !string_app_empty_r.
    + cbn [String.concat map]. simpl String.append at 3.
      now rewrite !string_app_assoc.
Qed.

Lemma appendAll_joined topicId ss : forall db t,
  TMap.get topicId (topics db) = Some t ->
  getKnowledgeBase topicId (appendAll topicId ss db)
  = joined_knowledge (knowledgeBase t) ss.
Proof.
  unfold joined_knowledge.
  induction ss as [ | s ss IH ]; intros db t H.
  - simpl. now apply getKnowledgeBase_get.
  - cbn [appendAll fold_left].
    change (fold_left _ ss ?d) with (appendAll topicId ss d).
    rewrite (IH _ _ (get_appendKnowledge_same _ s _ _ H)).
    cbn [knowledgeBase set_knowledgeBase]. apply join_absorb.
Qed.

Lemma appendAll_app topicId ss1 ss2 db :
  appendAll topicId (ss1 ++ ss2) db = appendAll topicId ss2 (appendAll topicId ss1 db).
Proof. unfold appendAll. apply fold_left_app. Qed.

Lemma appendAll_present topicId ss : forall db t,
  TMap.get topicId (topics db) = Some t ->
  exists t', TMap.get topicId (topics (appendAll topicId ss db)) = Some t'.
Proof.
  induction ss as [ | s ss IH ]; intros db t H.
  - now exists t.
  - cbn [appendAll fold_left].
    exact (IH _ _ (get_appendKnowledge_same _ s _ _ H)).
Qed.

(** The length of a topic's knowledge base under one operation other than
    [reset]. *)
Lemma knowledge_length_mutate i k f db :
  (forall t, String.length (knowledgeBase t) <= String.length (knowledgeBase (f t))) ->
  String.length (getKnowledgeBase i db)
  <= String.length (getKnowledgeBase i (mutate k f db)).
Proof.
  intros Hf. unfold getKnowledgeBase at 2. rewrite topics_mutate.
  destruct (String.eqb_spec k i) as [-> | Hne].
  - rewrite get_modify_same. unfold getKnowledgeBase.
    destruct (TMap.get i (topics db)) as [t | ]; simpl; [ | lia ].
    rewrite !or_else_empty. apply Hf.
  - rewrite (get_modify_other _ _ _ _ Hne). unfold getKnowledgeBase. lia.
Qed.

Lemma knowledge_length_op i o db :
  is_reset o = false -> op_fresh o db ->
  String.length (getKnowledgeBase i db)
  <= String.length (getKnowledgeBase i (apply_op o db)).
Proof.
  intros Hr Hf. destruct o; try discriminate; simpl in *;
    try (apply knowledge_length_mutate; intros t; simpl;
         try rewrite !string_length_app; lia).
  - destruct (getTopicByName n db) as [t | ] eqn:E.
    + rewrite (createTopic_found _ _ _ _ _ _ E). simpl. lia.
    + destruct (createTopic_fresh uuid now n isMain db E (Hf eq_refl))
        as (t & -> & _). simpl.
      unfold getKnowledgeBase. simpl.
      destruct (TMap.get i (topics db)) as [t0 | ] eqn:G.
      * rewrite (get_app_present _ _ _ _ G). lia.
      * simpl. lia.
  - unfold getKnowledgeBase, setSessionState. simpl. lia.
  - unfold getKnowledgeBase, setCurrentTopic.
    destruct (TMap.has topicId (topics db)); simpl; lia.
Qed.

Lemma knowledge_length_run i ops : forall db,
  forallb (fun o => negb (is_reset o)) ops = true -> fresh_ids ops db ->
  String.length (getKnowledgeBase i db)
  <= String.length (getKnowledgeBase i (run ops db)).
Proof.
  induction ops as [ | o ops IH ]; intros db Hr Hf.
  - simpl. lia.
  - simpl in Hr. apply andb_true_iff in Hr as [Ho Hr].
    destruct Hf as [Hf1 Hf2]. rewrite run_cons.
    apply negb_true_iff in Ho.
    pose proof (knowledge_length_op i o db Ho Hf1).
    pose proof (IH _ Hr Hf2). lia.
Qed.

(** C5. For a topic that is in the store and the calls
    [appendKnowledge(id, s1)], ..., [appendKnowledge(id, sn)]: the final
    knowledge base is the initial one followed by each text, in call order,
    behind the separator (newline, dash, space), which is the initial value
    and the texts joined with that separator; the length after a prefix of the
    calls is at most the length after all of them; and no run of store
    operations without a [reset] shortens the knowledge base of any topic. *)
Theorem appendKnowledge_concatenates (db : TopicDatabase) (topicId : string)
    (t : Topic) (ss : list string)
    (Hpresent : TMap.get topicId (topics db) = Some t) :
  getKnowledgeBase topicId (appendAll topicId ss db)
  = knowledgeBase t ++ String.concat "" (map (fun s => knowledge_separator ++ s) ss)
  /\ getKnowledgeBase topicId (appendAll topicId ss db)
     = joined_knowledge (knowledgeBase t) ss
  /\ (forall ss1 ss2, ss = (ss1 ++ ss2)%list ->
        String.length (getKnowledgeBase topicId (appendAll topicId ss1 db))
        <= String.length (getKnowledgeBase topicId (appendAll topicId ss db)))
  /\ (forall i ops,
        forallb (fun o => negb (is_reset o)) ops = true -> fresh_ids ops db ->
        String.length (getKnowledgeBase i db)
        <= String.length (getKnowledgeBase i (run ops db))).
Proof.
  split; [ now apply appendAll_knowledge | ].
  split; [ now apply appendAll_joined | ].
  split.
  - intros ss1 ss2 ->. rewrite appendAll_app.
    destruct (appendAll_present topicId ss1 db t Hpresent) as [t1 H1].
    rewrite (appendAll_knowledge topicId ss2 _ t1 H1).
    rewrite (getKnowledgeBase_get _ _ _ H1), string_length_app. lia.
  - intros i ops. apply knowledge_length_run.
Qed.

Lemma appendKnowledge_concatenates_witness :
  TMap.get "id-1" (topics sampleStore) <> None
  /\ getKnowledgeBase "id-1" (appendAll "id-1" ["cells"; "genes"] sampleStore)
     = JS.nl ++ "- cells" ++ JS.nl ++ "- genes".
Proof.
  split; [ discriminate | ].
  destruct (TMap.get "id-1" (topics sampleStore)) as [t | ] eqn:E;
    [ | discriminate ].
  rewrite (proj1 (appendKnowledge_concatenates sampleStore "id-1" t
                    ["cells"; "genes"] E)).
  injection E as <-. reflexivity.
Defined.

(** ** Names are unique up to letter case *)

Lemma same_name_true n t : same_name n t = true <-> folded_name t = JS.toLowerCase n.
Proof. unfold same_name, folded_name. apply String.eqb_eq. Qed.

Lemma find_exists {A : Type} (f : A -> bool) (l : list A) (x : A) :
  In x l -> f x = true -> exists y, find f l = Some y.
Proof.
  intros Hin Hf. destruct (find f l) as [y | ] eqn:E; [ now exists y | ].
  pose proof (find_none f l E x Hin). congruence.
Qed.

Lemma NoDup_map_eq {A B : Type} (g : A -> B) (l : list A) (a b : A) :
  NoDup (map g l) -> In a l -> In b l -> g a = g b -> a = b.
Proof.
  induction l as [ | x l IH ]; simpl; [ intros _ [] | ].
  intros Hnd Ha Hb Hg. inversion Hnd as [ | ? ? Hnotin Hnd' ]; subst.
  destruct Ha as [-> | Ha], Hb as [-> | Hb]; auto.
  - exfalso. apply Hnotin. rewrite Hg. now apply in_map.
  - exfalso. apply Hnotin. rewrite <- Hg. now apply in_map.
Qed.

Lemma In_values_set k v m x :
  In x (TMap.values (TMap.set k v m)) -> x = v \/ In x (TMap.values m).
Proof.
  unfold TMap.values.
  induction m as [ | [k' v'] m IH ]; simpl.
  - intros [<- | []]. now left.
  - destruct (k' =? k); simpl.
    + intros [<- | H]; auto.
    + intros [<- | H]; auto. destruct (IH H); auto.
Qed.

Lemma NoDup_map_set {B : Type} (g : Topic -> B) k v m :
  NoDup (map g (TMap.values m)) ->
  ~ In (g v) (map g (TMap.values m)) ->
  NoDup (map g (TMap.values (TMap.set k v m))).
Proof.
  induction m as [ | [k' v'] m IH ]; simpl.
  - intros _ _. repeat constructor. intros [].
  - intros Hnd Hnotin. inversion Hnd as [ | ? ? Hx Hnd' ]; subst.
    destruct (k' =? k); simpl.
    + constructor; [ tauto | exact Hnd' ].
    + constructor.
      * intros Hin. apply in_map_iff in Hin as (x & Hgx & Hxin).
        apply In_values_set in Hxin as [-> | Hxin].
        -- apply Hnotin. left. now symmetry.
        -- apply Hx. rewrite <- Hgx. now apply in_map.
      * apply IH; [ exact Hnd' | tauto ].
Qed.

Lemma topics_reset uuid now n db :
  topics (reset uuid now n db)
  = [(uuid, {| id := uuid; name := n; timestamp := now; messages := [];
               flashcards := []; quizzes := []; examQuestions := [];
               isMainTopic := true; videoUri := None; notebookContent := "";
               knowledgeBase := "" |})].
Proof. reflexivity. Qed.

Lemma currentTopicId_reset uuid now n db :
  currentTopicId (reset uuid now n db) = Some uuid.
Proof. reflexivity. Qed.

Lemma names_unique_createTopic uuid now n isMain db :
  names_unique db -> names_unique (snd (createTopic uuid now n isMain db)).
Proof.
  unfold names_unique, createTopic. intros Hnd.
  destruct (find (same_name n) (TMap.values (topics db))) as [t | ] eqn:E;
    simpl; [ exact Hnd | ].
  apply NoDup_map_set; [ exact Hnd | ].
  intros Hin. apply in_map_iff in Hin as (x & Hgx & Hxin).
  pose proof (find_none _ _ E x Hxin) as Hfalse.
  assert (same_name n x = true) as Htrue by (apply same_name_true; exact Hgx).
  congruence.
Qed.

Lemma names_unique_mutate k f db :
  (forall t, name (f t) = name t) ->
  names_unique db -> names_unique (mutate k f db).
Proof.
  unfold names_unique. intros Hf Hnd. rewrite topics_mutate.
  rewrite (map_values_modify folded_name); [ exact Hnd | ].
  intros t. unfold folded_name. now rewrite Hf.
Qed.

Lemma names_unique_op o db : names_unique db -> names_unique (apply_op o db).
Proof.
  intros H. destruct o; simpl;
    try (apply names_unique_mutate; [ reflexivity | exact H ]).
  - unfold names_unique. rewrite topics_reset. simpl.
    repeat constructor. intros [].
  - now apply names_unique_createTopic.
  - exact H.
  - unfold setCurrentTopic. now destruct (TMap.has topicId (topics db)).
Qed.

Lemma names_unique_run ops : forall db,
  names_unique db -> names_unique (run ops db).
Proof.
  induction ops as [ | o ops IH ]; intros db H; [ exact H | ].
  rewrite run_cons. apply IH. now apply names_unique_op.
Qed.

Lemma names_unique_new : names_unique newTopicDatabase.
Proof. constructor. Qed.

(** C2. [createTopic] looks names up without regard to letter case. When the
    store holds a topic [t] whose name equals the requested one up to case,
    the call returns a topic of the store with such a name and leaves the
    store as it was (nothing is inserted); when the names of the store are
    unique up to case, the topic returned is [t] itself, hence has its id.
    Uniqueness up to case holds in the empty store and is kept by every run of
    public operations, so no reachable store has two topics whose names are
    equal up to case. *)
Theorem createTopic_dedup_case_insensitive (db : TopicDatabase) (uuid : string)
    (now : Z) (n : string) (isMain : bool) (t : Topic)
    (Hin : In t (TMap.values (topics db)))
    (Hcase : JS.toLowerCase (name t) = JS.toLowerCase n) :
  (exists t',
     createTopic uuid now n isMain db = (t', db)
     /\ In t' (TMap.values (topics db))
     /\ JS.toLowerCase (name t') = JS.toLowerCase n
     /\ (names_unique db -> t' = t /\ id t' = id t))
  /\ (names_unique db -> forall ops, names_unique (run ops db))
  /\ (forall ops, names_unique (run ops newTopicDatabase)).
Proof.
  split; [ | split ].
  - assert (same_name n t = true) as Hsame by (apply same_name_true; exact Hcase).
    destruct (find_exists _ _ _ Hin Hsame) as [t' Hfind].
    exists t'. destruct (find_some _ _ Hfind) as [Hin' Hsame'].
    apply same_name_true in Hsame'.
    split; [ now apply createTopic_found | ].
    split; [ exact Hin' | ].
    split; [ exact Hsame' | ].
    intros Huniq.
    assert (t' = t) as ->; [ | now split ].
    apply (NoDup_map_eq folded_name _ _ _ Huniq Hin' Hin).
    unfold folded_name in *. congruence.
  - intros Huniq ops. now apply names_unique_run.
  - intros ops. apply names_unique_run, names_unique_new.
Qed.

Lemma createTopic_dedup_case_insensitive_witness :
  exists t,
    In t (TMap.values (topics quantumStore))
    /\ JS.toLowerCase (name t) = JS.toLowerCase "quantum physics"
    /\ exists t', createTopic "id-3" 3000 "quantum physics" false quantumStore
                  = (t', quantumStore)
                  /\ JS.toLowerCase (name t') = JS.toLowerCase "quantum physics".
Proof.
  eexists. split; [ right; left; reflexivity | ].
  split; [ reflexivity | ].
  destruct (proj1 (createTopic_dedup_case_insensitive quantumStore "id-3" 3000
                     "quantum physics" false _
                     (or_intror (or_introl eq_refl)) eq_refl))
    as (t' & Hc & _ & Hn & _).
  exists t'. split; assumption.
Defined.

(** ** The main topic *)

Lemma filter_length_map {A : Type} (g : A -> bool) (l1 l2 : list A) :
  map g l1 = map g l2 -> List.length (filter g l1) = List.length (filter g l2).
Proof.
  revert l2. induction l1 as [ | x l1 IH ]; intros [ | y l2 ]; simpl;
    try discriminate; [ reflexivity | ].
  intros [= Hxy Hrest]. rewrite Hxy.
  destruct (g y); simpl; now rewrite (IH _ Hrest).
Qed.

Lemma main_topics_mutate k f db :
  (forall t, isMainTopic (f t) = isMainTopic t) ->
  List.length (main_topics (mutate k f db)) = List.length (main_topics db).
Proof.
  intros Hf. unfold main_topics. rewrite topics_mutate.
  apply filter_length_map. now apply map_values_modify.
Qed.

Lemma main_topics_op o db :
  creates_main o = false -> op_fresh o db ->
  List.length (main_topics db) = 1%nat ->
  List.length (main_topics (apply_op o db)) = 1%nat.
Proof.
  intros Hm Hf H. destruct o; simpl in *;
    try (unfold_mutators; rewrite main_topics_mutate; [ exact H | reflexivity ]).
  - reflexivity.
  - destruct (getTopicByName n db) as [t | ] eqn:E.
    + now rewrite (createTopic_found _ _ _ _ _ _ E).
    + destruct (createTopic_fresh uuid now n isMain db E (Hf eq_refl))
        as (t & -> & _ & _ & _ & _ & Hmain & _).
      simpl. unfold main_topics, TMap.values in *. simpl.
      rewrite map_app, filter_app. simpl. rewrite Hmain.
      destruct isMain; [ discriminate | ].
      now rewrite app_nil_r.
  - exact H.
  - unfold setCurrentTopic. now destruct (TMap.has topicId (topics db)).
Qed.

Lemma main_topics_run ops : forall db,
  forallb (fun o => negb (creates_main o)) ops = true -> fresh_ids ops db ->
  List.length (main_topics db) = 1%nat ->
  List.length (main_topics (run ops db)) = 1%nat.
Proof.
  induction ops as [ | o ops IH ]; intros db Hm Hf H; [ exact H | ].
  simpl in Hm. apply andb_true_iff in Hm as [Ho Hm].
  destruct Hf as [Hf1 Hf2]. rewrite run_cons. apply negb_true_iff in Ho.
  apply IH; [ exact Hm | exact Hf2 | now apply main_topics_op ].
Qed.

(** C3, as the code has it. [reset(name)] leaves a store whose only topic is
    main and named [name]; after it, every run of public operations in which
    [createTopic] is never asked for a main topic (its [isMain] argument is
    false, the default) and every identifier drawn is fresh leaves exactly one
    main topic in the store. Later [reset]s are allowed in the run. *)
Theorem one_main_topic_after_reset (uuid : string) (now : Z) (n : string)
    (db0 : TopicDatabase) (ops : list StoreOp)
    (Hnomain : forallb (fun o => negb (creates_main o)) ops = true)
    (Hfresh : fresh_ids ops (reset uuid now n db0)) :
  (exists t, TMap.values (topics (reset uuid now n db0)) = [t]
             /\ isMainTopic t = true /\ name t = n)
  /\ List.length (main_topics (run ops (reset uuid now n db0))) = 1%nat.
Proof.
  split.
  - eexists. rewrite topics_reset. simpl. repeat split.
  - now apply main_topics_run.
Qed.

Lemma one_main_topic_after_reset_witness :
  forallb (fun o => negb (creates_main o)) shiftOps = true
  /\ fresh_ids shiftOps (reset "id-1" 1000 "Biology" newTopicDatabase)
  /\ List.length
       (main_topics (run shiftOps (reset "id-1" 1000 "Biology" newTopicDatabase)))
     = 1%nat.
Proof.
  assert (forallb (fun o => negb (creates_main o)) shiftOps = true) as H1
    by reflexivity.
  assert (fresh_ids shiftOps (reset "id-1" 1000 "Biology" newTopicDatabase)) as H2
    by (simpl; repeat split; intros; reflexivity).
  split; [ exact H1 | split; [ exact H2 | ] ].
  exact (proj2 (one_main_topic_after_reset "id-1" 1000 "Biology"
                  newTopicDatabase shiftOps H1 H2)).
Defined.

(** C3, as it is stated, fails: [createTopic] is a public method and takes
    [isMain]; asked for a main topic under a new name after a [reset], it
    inserts a second one. *)
Lemma second_main_topic_counterexample :
  let ops := [OpCreateTopic "id-2" 2000 "Math" true] in
  fresh_ids ops sampleStore
  /\ map name (main_topics (run ops sampleStore)) = ["Biology"; "Math"]
  /\ List.length (main_topics (run ops sampleStore)) <> 1%nat.
Proof.
  simpl. repeat split; try reflexivity. discriminate.
Qed.

(** ** The order of [getAllTopics] *)

Section SortFacts.

Context {A : Type} (cmp : A -> A -> Z).

Lemma insert_perm x l : Permutation (JS.insert cmp x l) (x :: l).
Proof.
  induction l as [ | y l IH ]; simpl; [ apply Permutation_refl | ].
  destruct (cmp x y <=? 0)%Z; [ apply Permutation_refl | ].
  eapply perm_trans; [ apply perm_skip, IH | apply perm_swap ].
Qed.

Lemma sort_perm l : Permutation (JS.sort cmp l) l.
Proof.
  induction l as [ | x l IH ]; simpl; [ constructor | ].
  eapply perm_trans; [ apply insert_perm | now apply perm_skip ].
Qed.

Hypothesis cmp_total : forall x y, cmp_le cmp x y \/ cmp_le cmp y x.
Hypothesis cmp_trans :
  forall x y z, cmp_le cmp x y -> cmp_le cmp y z -> cmp_le cmp x z.

Lemma insert_sorted x l :
  StronglySorted (cmp_le cmp) l -> StronglySorted (cmp_le cmp) (JS.insert cmp x l).
Proof.
  induction l as [ | y l IH ]; simpl; intros Hs.
  - repeat constructor.
  - inversion Hs as [ | ? ? Hs' Hall ]; subst.
    destruct (cmp x y <=? 0)%Z eqn:E.
    + apply Z.leb_le in E. constructor; [ exact Hs | ].
      constructor; [ exact E | ].
      eapply Forall_impl; [ | exact Hall ].
      intros z Hz. now apply (cmp_trans x y z).
    + apply Z.leb_gt in E. constructor; [ now apply IH | ].
      apply (Permutation_Forall (Permutation_sym (insert_perm x l))).
      constructor; [ | exact Hall ].
      destruct (cmp_total x y) as [H | H]; [ unfold cmp_le in H; lia | exact H ].
Qed.

Lemma sort_sorted l : StronglySorted (cmp_le cmp) (JS.sort cmp l).
Proof.
  induction l as [ | x l IH ]; simpl; [ constructor | now apply insert_sorted ].
Qed.

End SortFacts.

Lemma topic_le_iff a b :
  topic_le a b <->
  isMainTopic a = true \/ (isMainTopic b = false /\ (timestamp a <= timestamp b)%Z).
Proof.
  unfold topic_le, cmp_le, compareTopics.
  destruct (isMainTopic a), (isMainTopic b); split; intros H;
    try lia; auto; try (right; split; [ reflexivity | lia ]);
    destruct H as [H | [H1 H2]]; try discriminate; lia.
Qed.

Lemma topic_le_total a b : topic_le a b \/ topic_le b a.
Proof.
  rewrite !topic_le_iff.
  destruct (isMainTopic a) eqn:Ea; [ now left; left | ].
  destruct (isMainTopic b) eqn:Eb; [ now right; left | ].
  destruct (Z.le_ge_cases (timestamp a) (timestamp b)); [ left | right ];
    right; split; auto.
Qed.

Lemma topic_le_trans a b c : topic_le a b -> topic_le b c -> topic_le a c.
Proof.
  rewrite !topic_le_iff.
  intros [Ha | [Hb Hab]] [Hb' | [Hc Hbc]]; auto; try congruence.
  right. split; [ exact Hc | lia ].
Qed.

Lemma getAllTopics_perm db : Permutation (getAllTopics db) (TMap.values (topics db)).
Proof. apply sort_perm. Qed.

Lemma getAllTopics_sorted db : StronglySorted topic_le (getAllTopics db).
Proof. apply sort_sorted; [ exact topic_le_total | exact topic_le_trans ]. Qed.

(** Among topics that are not main and have distinct timestamps, the order of
    the comparator is the strict order of creation. *)
Lemma sorted_created_before l :
  StronglySorted topic_le l ->
  Forall (fun t => isMainTopic t = false) l ->
  NoDup (map timestamp l) ->
  StronglySorted created_before l.
Proof.
  induction l as [ | h l IH ]; intros Hs Hnm Hnd; [ constructor | ].
  inversion Hs as [ | ? ? Hs' Hall ]; subst.
  inversion Hnm as [ | ? ? Hh Hnm' ]; subst.
  inversion Hnd as [ | ? ? Hnotin Hnd' ]; subst.
  constructor; [ now apply IH | ].
  rewrite Forall_forall in *. intros z Hz.
  pose proof (Hall z Hz) as Hle. apply topic_le_iff in Hle.
  destruct Hle as [Hmain | [_ Hle]]; [ congruence | ].
  unfold created_before.
  assert (timestamp h <> timestamp z) as Hne.
  { intros Heq. apply Hnotin. rewrite Heq. now apply in_map. }
  lia.
Qed.

(** A list has at most one arrangement in strict creation order. *)
Lemma created_before_unique l1 : forall l2,
  StronglySorted created_before l1 -> StronglySorted created_before l2 ->
  Permutation l1 l2 -> l1 = l2.
Proof.
  induction l1 as [ | h1 t1 IH ]; intros l2 Hs1 Hs2 Hp.
  - apply Permutation_nil in Hp. now subst.
  - destruct l2 as [ | h2 t2 ].
    + apply Permutation_sym, Permutation_nil in Hp. discriminate.
    + inversion Hs1 as [ | ? ? Hs1' Hall1 ]; subst.
      inversion Hs2 as [ | ? ? Hs2' Hall2 ]; subst.
      rewrite Forall_forall in Hall1, Hall2.
      assert (h1 = h2) as ->.
      { assert (In h1 (h2 :: t2)) as H12
          by (apply (Permutation_in _ Hp); now left).
        assert (In h2 (h1 :: t1)) as H21
          by (apply (Permutation_in _ (Permutation_sym Hp)); now left).
        destruct H12 as [<- | H12]; [ reflexivity | ].
        destruct H21 as [-> | H21]; [ reflexivity | ].
        pose proof (Hall1 _ H21). pose proof (Hall2 _ H12).
        unfold created_before in *. lia. }
      f_equal. apply IH; try assumption.
      now apply Permutation_cons_inv in Hp.
Qed.

(** A list in the comparator's order that holds one main topic and otherwise
    topics with distinct timestamps starts with the main topic and goes on in
    creation order. *)
Lemma sorted_main_first l A rest :
  Permutation l (A :: rest) ->
  isMainTopic A = true ->
  Forall (fun t => isMainTopic t = false) rest ->
  NoDup (map timestamp rest) ->
  StronglySorted topic_le l ->
  exists tl, l = A :: tl /\ Permutation tl rest
             /\ StronglySorted created_before tl.
Proof.
  intros Hp HA Hrest Hnd Hs.
  destruct l as [ | h tl ].
  - apply Permutation_nil in Hp. discriminate.
  - inversion Hs as [ | ? ? Hs' Hall ]; subst.
    assert (h = A) as ->.
    { assert (In h (A :: rest)) as Hh by (apply (Permutation_in _ Hp); now left).
      destruct Hh as [<- | Hh]; [ reflexivity | ].
      rewrite Forall_forall in Hrest, Hall.
      pose proof (Hrest _ Hh) as Hhn.
      assert (In A (h :: tl)) as HAin
        by (apply (Permutation_in _ (Permutation_sym Hp)); now left).
      destruct HAin as [-> | HAin]; [ congruence | ].
      pose proof (Hall _ HAin) as Hle. apply topic_le_iff in Hle.
      destruct Hle as [Hm | [Hm _]]; congruence. }
    apply Permutation_cons_inv in Hp.
    exists tl. split; [ reflexivity | split; [ exact Hp | ] ].
    apply sorted_created_before.
    + exact Hs'.
    + exact (Permutation_Forall (Permutation_sym Hp) Hrest).
    + apply (Permutation_NoDup (l := map timestamp rest)); [ | exact Hnd ].
      apply Permutation_map. now apply Permutation_sym.
Qed.

(** C4. For a store that holds one main topic [A] and otherwise topics that
    are not main and whose creation timestamps are pairwise distinct,
    [getAllTopics] returns [A] followed by the other topics in ascending
    order of creation time. That list is the only arrangement of the store's
    topics that the comparator accepts as ordered, so the result is the same
    for every store that holds the same topics, whatever the order in which
    the map holds them; names play no part. *)
Theorem getAllTopics_main_first_then_creation_order (db : TopicDatabase)
    (A : Topic) (rest : list Topic)
    (Hstore : Permutation (TMap.values (topics db)) (A :: rest))
    (Hmain : isMainTopic A = true)
    (Hothers : Forall (fun t => isMainTopic t = false) rest)
    (Hdistinct : NoDup (map timestamp rest)) :
  exists tl,
    getAllTopics db = A :: tl
    /\ Permutation tl rest
    /\ StronglySorted created_before tl
    /\ (forall l, Permutation l (TMap.values (topics db)) ->
                  StronglySorted topic_le l -> l = A :: tl)
    /\ (forall db', Permutation (TMap.values (topics db')) (TMap.values (topics db)) ->
                    getAllTopics db' = A :: tl).
Proof.
  assert (Permutation (getAllTopics db) (A :: rest)) as Hp
    by (eapply perm_trans; [ apply getAllTopics_perm | exact Hstore ]).
  destruct (sorted_main_first _ _ _ Hp Hmain Hothers Hdistinct
              (getAllTopics_sorted db)) as (tl & Heq & Hptl & Hstl).
  exists tl.
  assert (forall l, Permutation l (TMap.values (topics db)) ->
                    StronglySorted topic_le l -> l = A :: tl) as Huniq.
  { intros l Hpl Hsl.
    assert (Permutation l (A :: rest)) as Hp2
      by (eapply perm_trans; [ exact Hpl | exact Hstore ]).
    destruct (sorted_main_first _ _ _ Hp2 Hmain Hothers Hdistinct Hsl)
      as (tl' & -> & Hptl' & Hstl').
    f_equal. apply created_before_unique; try assumption.
    eapply perm_trans; [ exact Hptl' | now apply Permutation_sym ]. }
  repeat split; try assumption.
  intros db' Hp'. apply Huniq.
  - eapply perm_trans; [ apply getAllTopics_perm | exact Hp' ].
  - apply getAllTopics_sorted.
Qed.

Example getAllTopics_acb : map name (getAllTopics acbStore) = ["A"; "C"; "B"].
Proof. reflexivity. Qed.

Lemma getAllTopics_main_first_then_creation_order_witness :
  exists A rest tl,
    TMap.values (topics acbStore) = A :: rest
    /\ isMainTopic A = true
    /\ map timestamp rest = [2000%Z; 3000%Z]
    /\ getAllTopics acbStore = A :: tl
    /\ Permutation tl rest.
Proof.
  eexists. eexists.
  assert (forall A rest, TMap.values (topics acbStore) = A :: rest ->
            isMainTopic A = true ->
            Forall (fun t => isMainTopic t = false) rest ->
            NoDup (map timestamp rest) ->
            exists tl, getAllTopics acbStore = A :: tl /\ Permutation tl rest) as H.
  { intros A rest Hv Hm Ho Hd.
    destruct (getAllTopics_main_first_then_creation_order acbStore A rest)
      as (tl & H1 & H2 & _); try assumption.
    - rewrite Hv. apply Permutation_refl.
    - now exists tl. }
  edestruct H as (tl & H1 & H2).
  - reflexivity.
  - reflexivity.
  - repeat constructor.
  - simpl. repeat constructor; simpl; intuition discriminate.
  - exists tl. repeat split; assumption.
Defined.

(** ** Routing without a shift *)

Lemma route_no_shift env userText mode recentHistory slideContext o db :
  AgentOrchestrator.shiftDetected
    (analyzeTopicShift env (AgentOrchestrator.currentTopicName o) userText recentHistory) o
  = false ->
  let r := AgentOrchestrator.route env userText mode recentHistory slideContext o db in
  AgentOrchestrator.workingTopicName r = AgentOrchestrator.currentTopicName o
  /\ AgentOrchestrator.systemInjection r = ""
  /\ AgentOrchestrator.routedOrchestrator r = o
  /\ AgentOrchestrator.prompt r
     = AgentOrchestrator.finalPrompt "" slideContext
         (fst (AgentOrchestrator.childAgent env mode userText db)) userText.
Proof.
  intros H. unfold AgentOrchestrator.route. rewrite H.
  destruct (AgentOrchestrator.childAgent env mode userText db) as [out srcs].
  simpl. repeat split.
Qed.

Lemma route_analysis env userText mode recentHistory slideContext o db :
  AgentOrchestrator.analysis
    (AgentOrchestrator.route env userText mode recentHistory slideContext o db)
  = analyzeTopicShift env (AgentOrchestrator.currentTopicName o) userText recentHistory.
Proof.
  unfold AgentOrchestrator.route.
  now destruct (AgentOrchestrator.childAgent env mode userText db).
Qed.

(** ** Well-formed stores *)

Lemma get_modify k k' f m :
  TMap.get k' (TMap.modify k f m)
  = if k =? k' then option_map f (TMap.get k' m) else TMap.get k' m.
Proof.
  destruct (String.eqb_spec k k') as [-> | Hne].
  - apply get_modify_same.
  - now apply get_modify_other.
Qed.

Lemma Forall_modify (P : string * Topic -> Prop) k f m :
  (forall k0 t, P (k0, t) -> P (k0, f t)) ->
  Forall P m -> Forall P (TMap.modify k f m).
Proof.
  intros Hf. induction m as [ | [k' v] m IH ]; simpl; intros H; [ constructor | ].
  inversion H as [ | ? ? Hx Hm ]; subst.
  destruct (k' =? k); constructor; auto.
Qed.

Lemma wf_get db k t :
  wf db -> TMap.get k (topics db) = Some t -> id t = k /\ k <> "".
Proof.
  intros [_ Hall] Hget. apply get_In in Hget.
  rewrite Forall_forall in Hall. exact (Hall _ Hget).
Qed.

Lemma wf_value db t :
  wf db -> In t (TMap.values (topics db)) ->
  TMap.get (id t) (topics db) = Some t /\ id t <> "".
Proof.
  intros Hwf Hin. unfold TMap.values in Hin.
  apply in_map_iff in Hin as ([k t'] & Heq & Hin). simpl in Heq. subst t'.
  destruct Hwf as [Hnd Hall]. rewrite Forall_forall in Hall.
  destruct (Hall _ Hin) as [Hid Hne]. simpl in Hid, Hne. subst k.
  split; [ now apply In_get | exact Hne ].
Qed.

Lemma wf_mutate k f db :
  (forall t, id (f t) = id t) -> wf db -> wf (mutate k f db).
Proof.
  intros Hf [Hnd Hall]. unfold wf. rewrite topics_mutate, keys_modify.
  split; [ exact Hnd | ].
  apply Forall_modify; [ | exact Hall ].
  intros k0 t. simpl. now rewrite Hf.
Qed.

Lemma wf_setCurrentTopic i db : wf db -> wf (setCurrentTopic i db).
Proof.
  unfold setCurrentTopic. now destruct (TMap.has i (topics db)).
Qed.

Lemma wf_createTopic uuid now n isMain db :
  wf db -> uuid <> "" ->
  (getTopicByName n db = None -> TMap.get uuid (topics db) = None) ->
  wf (snd (createTopic uuid now n isMain db)).
Proof.
  intros Hwf Hne Hfresh.
  destruct (getTopicByName n db) as [t | ] eqn:E.
  - now rewrite (createTopic_found _ _ _ _ _ _ E).
  - destruct (createTopic_fresh uuid now n isMain db E (Hfresh eq_refl))
      as (t & -> & Hid & _).
    destruct Hwf as [Hnd Hall]. unfold wf, TMap.keys. simpl. split.
    + rewrite map_app. simpl.
      apply (Permutation_NoDup (l := uuid :: map fst (topics db))).
      * apply Permutation_cons_append.
      * constructor; [ | exact Hnd ].
        now apply get_None_not_key, Hfresh.
    + apply Forall_app. split; [ exact Hall | ].
      constructor; [ now split | constructor ].
Qed.

Lemma wf_reset uuid now n db : uuid <> "" -> wf (reset uuid now n db).
Proof.
  intros Hne. unfold wf. rewrite topics_reset. simpl. split.
  - repeat constructor. intros [].
  - repeat constructor. exact Hne.
Qed.

Lemma wf_op o db : op_nonempty o -> op_fresh o db -> wf db -> wf (apply_op o db).
Proof.
  intros Hn Hf Hwf. destruct o; simpl in *;
    try (apply wf_mutate; [ reflexivity | exact Hwf ]).
  - now apply wf_reset.
  - now apply wf_createTopic.
  - exact Hwf.
  - now apply wf_setCurrentTopic.
Qed.

Lemma wf_run ops : forall db,
  Forall op_nonempty ops -> fresh_ids ops db -> wf db -> wf (run ops db).
Proof.
  induction ops as [ | o ops IH ]; intros db Hn Hf Hwf; [ exact Hwf | ].
  inversion Hn; subst. destruct Hf as [Hf1 Hf2]. rewrite run_cons.
  apply IH; try assumption. now apply wf_op.
Qed.

(** *** The active topic *)

Lemma getCurrentTopic_intro db i t :
  currentTopicId db = Some i -> i <> "" -> TMap.get i (topics db) = Some t ->
  getCurrentTopic db = Some t.
Proof.
  intros Hc Hne Hg. unfold getCurrentTopic. rewrite Hc.
  now rewrite (proj2 (truthy_true i) Hne).
Qed.

Lemma getCurrentTopic_elim db t :
  getCurrentTopic db = Some t ->
  exists i, currentTopicId db = Some i /\ i <> ""
            /\ TMap.get i (topics db) = Some t.
Proof.
  unfold getCurrentTopic. destruct (currentTopicId db) as [i | ]; [ | discriminate ].
  destruct (JS.truthy i) eqn:E; [ | discriminate ].
  intros H. exists i. repeat split; [ now apply truthy_true | exact H ].
Qed.

Lemma wf_current db t :
  wf db -> getCurrentTopic db = Some t ->
  currentTopicId db = Some (id t)
  /\ TMap.get (id t) (topics db) = Some t
  /\ JS.truthy (id t) = true.
Proof.
  intros Hwf Hcur. destruct (getCurrentTopic_elim _ _ Hcur) as (i & Hc & Hne & Hg).
  destruct (wf_get _ _ _ Hwf Hg) as [Hid _]. subst i.
  repeat split; try assumption. now apply truthy_true.
Qed.

Lemma currentTopicId_addToCurrent m db :
  currentTopicId (StudySession.addToCurrent m db) = currentTopicId db.
Proof.
  unfold StudySession.addToCurrent.
  destruct (getCurrentTopic db) as [cur | ]; [ | reflexivity ].
  destruct (JS.truthy (id cur)); [ | reflexivity ].
  apply currentTopicId_mutate.
Qed.

(** Writing to a topic keeps a topic active. *)
Lemma getCurrentTopic_mutate k f db t :
  getCurrentTopic db = Some t ->
  exists t', getCurrentTopic (mutate k f db) = Some t' /\ (t' = t \/ t' = f t).
Proof.
  intros Hcur. destruct (getCurrentTopic_elim _ _ Hcur) as (i & Hc & Hne & Hg).
  unfold getCurrentTopic. rewrite currentTopicId_mutate, Hc.
  rewrite (proj2 (truthy_true i) Hne), topics_mutate, get_modify, Hg.
  destruct (k =? i); simpl; eauto.
Qed.

Lemma getCurrentTopic_addToCurrent_some m db t :
  getCurrentTopic db = Some t ->
  exists t', getCurrentTopic (StudySession.addToCurrent m db) = Some t'
             /\ name t' = name t.
Proof.
  intros Hcur. unfold StudySession.addToCurrent. rewrite Hcur.
  destruct (JS.truthy (id t)); [ | eauto ].
  destruct (getCurrentTopic_mutate (id t) (push_message m) db t Hcur)
    as (t' & H & [-> | ->]); eauto.
Qed.

Lemma addToCurrent_active m db pre :
  wf db -> getCurrentTopic db = Some pre ->
  StudySession.addToCurrent m db = addMessageToTopic (id pre) m db
  /\ topics (StudySession.addToCurrent m db)
     = TMap.modify (id pre) (push_message m) (topics db)
  /\ getCurrentTopic (StudySession.addToCurrent m db) = Some (push_message m pre).
Proof.
  intros Hwf Hcur. destruct (wf_current _ _ Hwf Hcur) as (Hc & Hg & Ht).
  assert (StudySession.addToCurrent m db = addMessageToTopic (id pre) m db) as Heq
    by (unfold StudySession.addToCurrent; now rewrite Hcur, Ht).
  rewrite Heq. unfold addMessageToTopic. rewrite topics_mutate.
  repeat split.
  apply (getCurrentTopic_intro _ (id pre)).
  - now rewrite currentTopicId_mutate.
  - now apply truthy_true.
  - rewrite topics_mutate, get_modify_same, Hg. reflexivity.
Qed.

Lemma wf_addToCurrent m db : wf db -> wf (StudySession.addToCurrent m db).
Proof.
  intros Hwf. unfold StudySession.addToCurrent.
  destruct (getCurrentTopic db) as [cur | ]; [ | exact Hwf ].
  destruct (JS.truthy (id cur)); [ | exact Hwf ].
  now apply wf_mutate.
Qed.

(** ** The notebook agent *)

Lemma trimStart_empty s : JS.trimStart s = "" <-> all_space s = true.
Proof.
  induction s as [ | c s IH ]; simpl; [ tauto | ].
  destruct (JS.is_space c); simpl; [ exact IH | ].
  split; discriminate.
Qed.

Lemma trimEnd_empty s : JS.trimEnd s = "" <-> all_space s = true.
Proof.
  induction s as [ | c s IH ]; simpl; [ tauto | ].
  destruct (JS.trimEnd s) as [ | c' r ].
  - destruct (JS.is_space c); simpl.
    + split; [ intros _; now apply IH | reflexivity ].
    + split; discriminate.
  - split; [ discriminate | ].
    intros H. apply andb_true_iff in H as [_ H]. apply IH in H. discriminate.
Qed.

Lemma trimStart_head s c r : JS.trimStart s = String c r -> JS.is_space c = false.
Proof.
  induction s as [ | c0 s IH ]; simpl; [ discriminate | ].
  destruct (JS.is_space c0) eqn:E; [ exact IH | ].
  now intros [= <- <-].
Qed.

(** [trim] yields the empty string exactly on the strings made of white space. *)
Lemma trim_empty_iff s : JS.trim s = "" <-> all_space s = true.
Proof.
  unfold JS.trim. rewrite trimEnd_empty. split.
  - intros H. destruct (JS.trimStart s) as [ | c r ] eqn:E.
    + now apply trimStart_empty.
    + simpl in H. now rewrite (trimStart_head _ _ _ E) in H.
  - intros H. apply trimStart_empty in H. now rewrite H.
Qed.

Lemma substring_prefix_length n : forall s,
  String.length (substring 0 n s) <= n.
Proof.
  induction n as [ | n IH ]; intros [ | c s ]; simpl; try lia.
  specialize (IH s). lia.
Qed.

Lemma substring_is_prefix n : forall s,
  exists rest, s = substring 0 n s ++ rest.
Proof.
  induction n as [ | n IH ]; intros [ | c s ]; simpl.
  - now exists "".
  - now exists (String c s).
  - now exists "".
  - destruct (IH s) as [rest H]. exists rest. now rewrite <- H.
Qed.

Lemma substring_short n : forall s,
  String.length s <= n -> substring 0 n s = s.
Proof.
  induction n as [ | n IH ]; intros [ | c s ]; simpl; intros H;
    try reflexivity; try lia.
  rewrite IH; [ reflexivity | lia ].
Qed.

Lemma notebookOutput_activeNotebook userText db :
  AgentOrchestrator.notebookOutput userText db
  = if JS.truthy (JS.trim (activeNotebook db))
    then AgentOrchestrator.notebookHeader
           ++ substring 0 AgentOrchestrator.NOTEBOOK_BUDGET (activeNotebook db)
           ++ AgentOrchestrator.notebookInstruction userText
    else AgentOrchestrator.notebookEmptyOutput.
Proof.
  unfold AgentOrchestrator.notebookOutput, activeNotebook.
  destruct (getCurrentTopic db); [ | reflexivity ].
  now rewrite or_else_empty.
Qed.

(** Recording a message does not touch the notebook the agent reads. *)
Lemma activeNotebook_addToCurrent m db :
  activeNotebook (StudySession.addToCurrent m db) = activeNotebook db.
Proof.
  unfold StudySession.addToCurrent.
  destruct (getCurrentTopic db) as [cur | ] eqn:E; [ | reflexivity ].
  destruct (JS.truthy (id cur)); [ | reflexivity ].
  unfold addMessageToTopic, activeNotebook.
  destruct (getCurrentTopic_mutate (id cur) (push_message m) db cur E)
    as (t' & -> & [-> | ->]); now rewrite E.
Qed.

(** C9. In NOTEBOOK mode the child agent's context depends on the notebook
    of the store's active topic. When it is empty or white space only, the
    context is one fixed text (the same for every question): it says that the
    learner has not uploaded any notes yet and tells the tutor to remind them
    to paste their content. Otherwise it is a header announcing the learner's
    notes, the leading 20000 characters of the notebook (all of it when it is
    shorter) between quotes, and the instruction to answer the question
    strictly based on the notes and to say so if the answer is not in them.
    The context stands in the prompt sent to the conversation engine between
    the slide context and the learner's query, no sources come with it, and
    recording the learner's message at the start of the turn does not change
    it. *)
Theorem notebook_context (env : Env) (userText : string)
    (recentHistory : list ChatMessage) (slideContext : string)
    (o : AgentOrchestrator.t) (db : TopicDatabase) :
  let nb := activeNotebook db in
  let out := AgentOrchestrator.notebookOutput userText db in
  let r := AgentOrchestrator.route env userText NOTEBOOK recentHistory slideContext o db in
  AgentOrchestrator.childAgent env NOTEBOOK userText db = (out, [])
  /\ AgentOrchestrator.routedSources r = []
  /\ AgentOrchestrator.prompt r
     = AgentOrchestrator.finalPrompt (AgentOrchestrator.systemInjection r)
         slideContext out userText
  /\ AgentOrchestrator.prompt r
     = JS.nl
       ++ "    " ++ AgentOrchestrator.systemInjection r ++ JS.nl
       ++ "    [Current Slide Context: " ++ JS.dq ++ slideContext ++ JS.dq ++ "]"
       ++ JS.nl
       ++ "    " ++ out ++ JS.nl
       ++ "    " ++ JS.nl
       ++ "    User Query: " ++ userText ++ JS.nl
       ++ "    "
  /\ (all_space nb = true ->
      out = AgentOrchestrator.notebookEmptyOutput
      /\ out = "[DATA FROM NOTEBOOK AGENT]: The user has not uploaded any notes yet. Remind them to paste their content to use this feature.")
  /\ (all_space nb = false ->
      let shown := substring 0 AgentOrchestrator.NOTEBOOK_BUDGET nb in
      out = AgentOrchestrator.notebookHeader ++ shown
              ++ AgentOrchestrator.notebookInstruction userText
      /\ out
         = JS.nl
           ++ "        [DATA FROM NOTEBOOK AGENT]:" ++ JS.nl
           ++ "        The user has provided the following personal notes/documents:"
           ++ JS.nl
           ++ "        " ++ JS.dq ++ JS.dq ++ JS.dq ++ JS.nl
           ++ "        " ++ shown ++ " ... (content truncated for context)" ++ JS.nl
           ++ "        " ++ JS.dq ++ JS.dq ++ JS.dq ++ JS.nl
           ++ "        " ++ JS.nl
           ++ "        Instructions: Answer the user's question " ++ JS.dq ++ userText
           ++ JS.dq
           ++ " strictly based on the provided notes above. If the answer isn't in the notes, say so."
           ++ JS.nl
           ++ "        "
      /\ AgentOrchestrator.NOTEBOOK_BUDGET = 20000
      /\ String.length shown <= AgentOrchestrator.NOTEBOOK_BUDGET
      /\ (exists rest, nb = shown ++ rest)
      /\ (String.length nb <= AgentOrchestrator.NOTEBOOK_BUDGET -> shown = nb))
  /\ (forall m,
        AgentOrchestrator.notebookOutput userText (StudySession.addToCurrent m db)
        = out).
Proof.
  intros nb out r.
  split; [ reflexivity | ].
  split; [ reflexivity | ].
  split; [ reflexivity | ].
  split.
  { unfold r, AgentOrchestrator.route. simpl AgentOrchestrator.childAgent.
    fold out. cbv zeta. simpl AgentOrchestrator.prompt.
    simpl AgentOrchestrator.systemInjection.
    unfold AgentOrchestrator.finalPrompt. reflexivity. }
  split; [ | split ].
  - intros Hsp. apply trim_empty_iff in Hsp.
    assert (out = AgentOrchestrator.notebookEmptyOutput) as Hout.
    { unfold out. rewrite notebookOutput_activeNotebook. fold nb. now rewrite Hsp. }
    split; [ exact Hout | ]. rewrite Hout. reflexivity.
  - intros Hsp shown.
    assert (JS.truthy (JS.trim nb) = true) as Ht.
    { apply truthy_true. intros He. apply trim_empty_iff in He. congruence. }
    assert (out = AgentOrchestrator.notebookHeader ++ shown
                    ++ AgentOrchestrator.notebookInstruction userText) as Hout.
    { unfold out. rewrite notebookOutput_activeNotebook. fold nb. now rewrite Ht. }
    split; [ exact Hout | ].
    split.
    { rewrite Hout.
      unfold AgentOrchestrator.notebookHeader, AgentOrchestrator.notebookInstruction.
      rewrite !string_app_assoc. reflexivity. }
    split; [ reflexivity | ].
    split; [ | split ].
    + apply substring_prefix_length.
    + apply substring_is_prefix.
    + apply substring_short.
  - intros m. unfold out.
    now rewrite !notebookOutput_activeNotebook, activeNotebook_addToCurrent.
Qed.

(** ** One call of the orchestrator *)

Lemma triggerBackgroundGeneration_active env n db t :
  getCurrentTopic db = Some t ->
  AgentOrchestrator.triggerBackgroundGeneration env n db
  = (db, if JS.truthy (id t) then Some (id t) else None).
Proof.
  intros H. unfold AgentOrchestrator.triggerBackgroundGeneration. now rewrite H, H.
Qed.

Lemma processUserQuery_rejected env userText mode hist slideContext o db chat :
  AgentOrchestrator.parentChat o = Some chat ->
  let r := AgentOrchestrator.route env userText mode hist slideContext o db in
  sendMessage env (AgentOrchestrator.prompt r) = None ->
  AgentOrchestrator.processUserQuery env userText mode hist slideContext o db
  = {| AgentOrchestrator.orchestratorAfter := AgentOrchestrator.routedOrchestrator r;
       AgentOrchestrator.storeAfter := db;
       AgentOrchestrator.result := None;
       AgentOrchestrator.pendingEnrichment := None |}.
Proof.
  intros Hchat r Hsend. unfold AgentOrchestrator.processUserQuery.
  rewrite Hchat. fold r. now rewrite Hsend.
Qed.

Lemma processUserQuery_resolved env userText mode hist slideContext o db chat txt t :
  AgentOrchestrator.parentChat o = Some chat ->
  let r := AgentOrchestrator.route env userText mode hist slideContext o db in
  sendMessage env (AgentOrchestrator.prompt r) = Some txt ->
  getCurrentTopic db = Some t ->
  AgentOrchestrator.processUserQuery env userText mode hist slideContext o db
  = {| AgentOrchestrator.orchestratorAfter := AgentOrchestrator.routedOrchestrator r;
       AgentOrchestrator.storeAfter := db;
       AgentOrchestrator.result :=
         Some {| AgentOrchestrator.response :=
                   replyMessage txt (AgentOrchestrator.routedSources r);
                 AgentOrchestrator.resultAnalysis := AgentOrchestrator.analysis r;
                 AgentOrchestrator.resultSources := AgentOrchestrator.routedSources r |};
       AgentOrchestrator.pendingEnrichment :=
         if JS.truthy (id t) then Some (id t) else None |}.
Proof.
  intros Hchat r Hsend Hcur. unfold AgentOrchestrator.processUserQuery.
  rewrite Hchat. fold r. rewrite Hsend.
  now rewrite (triggerBackgroundGeneration_active _ _ _ _ Hcur).
Qed.

(** With a topic active, a call leaves the store as it found it. *)
Lemma processUserQuery_store env userText mode hist slideContext o db t :
  getCurrentTopic db = Some t ->
  AgentOrchestrator.storeAfter
    (AgentOrchestrator.processUserQuery env userText mode hist slideContext o db)
  = db.
Proof.
  intros Hcur. unfold AgentOrchestrator.processUserQuery.
  destruct (AgentOrchestrator.parentChat o); [ | reflexivity ].
  destruct (sendMessage env _); [ | reflexivity ].
  now rewrite (triggerBackgroundGeneration_active _ _ _ _ Hcur).
Qed.

Lemma processUserQuery_analysis env userText mode hist slideContext o db res :
  AgentOrchestrator.result
    (AgentOrchestrator.processUserQuery env userText mode hist slideContext o db)
  = Some res ->
  AgentOrchestrator.resultAnalysis res
  = analyzeTopicShift env (AgentOrchestrator.currentTopicName o) userText hist.
Proof.
  unfold AgentOrchestrator.processUserQuery.
  destruct (AgentOrchestrator.parentChat o); [ | discriminate ].
  destruct (sendMessage env _); [ | discriminate ].
  destruct (AgentOrchestrator.triggerBackgroundGeneration env _ db).
  simpl. intros [= <-]. simpl. apply route_analysis.
Qed.

Lemma processUserQuery_orchestrator env userText mode hist slideContext o db :
  AgentOrchestrator.shiftDetected
    (analyzeTopicShift env (AgentOrchestrator.currentTopicName o) userText hist) o
  = false ->
  AgentOrchestrator.orchestratorAfter
    (AgentOrchestrator.processUserQuery env userText mode hist slideContext o db)
  = o.
Proof.
  intros Hns.
  destruct (route_no_shift env userText mode hist slideContext o db Hns)
    as (_ & _ & Ho & _).
  unfold AgentOrchestrator.processUserQuery.
  destruct (AgentOrchestrator.parentChat o); [ | reflexivity ].
  destruct (sendMessage env _); [ | exact Ho ].
  destruct (AgentOrchestrator.triggerBackgroundGeneration env _ db).
  exact Ho.
Qed.

(** The enrichment that a turn leaves pending adds flashcards and quiz
    questions when it completes, whenever that is: it moves no message and
    does not move the pointer. *)
Lemma completeBackgroundGeneration_frame target materials db :
  currentTopicId (AgentOrchestrator.completeBackgroundGeneration target materials db)
  = currentTopicId db
  /\ forall k,
       option_map messages
         (TMap.get k (topics (AgentOrchestrator.completeBackgroundGeneration
                                target materials db)))
       = option_map messages (TMap.get k (topics db)).
Proof.
  unfold AgentOrchestrator.completeBackgroundGeneration,
    addQuizQuestionsToTopic, addFlashcardsToTopic.
  split; [ now rewrite !currentTopicId_mutate | ].
  intros k. rewrite !topics_mutate, !get_modify.
  destruct (target =? k); [ | reflexivity ].
  now destruct (TMap.get k (topics db)).
Qed.

(** ** The store side of a shift *)

Lemma getTopicByName_In n db t :
  getTopicByName n db = Some t ->
  In t (TMap.values (topics db)) /\ same_name n t = true.
Proof. apply find_some. Qed.

Lemma find_modify p k f m :
  (forall t, p (f t) = p t) ->
  match find p (TMap.values m) with
  | Some e => exists e', find p (TMap.values (TMap.modify k f m)) = Some e'
                         /\ (e' = e \/ e' = f e)
  | None => find p (TMap.values (TMap.modify k f m)) = None
  end.
Proof.
  intros Hp. unfold TMap.values.
  induction m as [ | [k' v] m IH ]; simpl; [ reflexivity | ].
  destruct (k' =? k); simpl.
  - rewrite Hp. destruct (p v); [ eauto | ].
    destruct (find p (map snd m)); eauto.
  - destruct (p v); [ eauto | exact IH ].
Qed.

Lemma getTopicByName_mutate n k f db :
  (forall t, name (f t) = name t) ->
  match getTopicByName n db with
  | Some e => exists e', getTopicByName n (mutate k f db) = Some e'
                         /\ (e' = e \/ e' = f e)
  | None => getTopicByName n (mutate k f db) = None
  end.
Proof.
  intros Hf. unfold getTopicByName. rewrite topics_mutate.
  apply find_modify. intros t. unfold same_name. now rewrite Hf.
Qed.

Lemma switchStore_existing env n db e :
  wf db -> getTopicByName n db = Some e ->
  topics (StudySession.switchStore env n db) = topics db
  /\ currentTopicId (StudySession.switchStore env n db) = Some (id e)
  /\ getCurrentTopic (StudySession.switchStore env n db) = Some e.
Proof.
  intros Hwf He. destruct (getTopicByName_In _ _ _ He) as [Hin _].
  destruct (wf_value _ _ Hwf Hin) as [Hg Hne].
  unfold StudySession.switchStore. rewrite He. unfold setCurrentTopic, TMap.has.
  rewrite Hg. simpl. repeat split.
  now apply (getCurrentTopic_intro _ (id e)).
Qed.

Lemma switchStore_new env n db :
  getTopicByName n db = None ->
  uuid_shift env <> "" ->
  TMap.get (uuid_shift env) (topics db) = None ->
  exists t,
    topics (StudySession.switchStore env n db)
    = (topics db ++ [(uuid_shift env, t)])%list
    /\ id t = uuid_shift env /\ name t = n /\ isMainTopic t = false
    /\ messages t = []
    /\ currentTopicId (StudySession.switchStore env n db) = Some (uuid_shift env)
    /\ getCurrentTopic (StudySession.switchStore env n db) = Some t.
Proof.
  intros Hn Hne Hfresh. unfold StudySession.switchStore. rewrite Hn.
  destruct (createTopic_fresh (uuid_shift env) (now_shift env) n false db Hn Hfresh)
    as (t & -> & Hid & Hname & _ & Hmsg & Hmain & _).
  exists t. rewrite Hid.
  assert (TMap.get (uuid_shift env)
            (topics db ++ [(uuid_shift env, t)])%list = Some t) as Hg.
  { rewrite (get_app_absent _ _ _ Hfresh). simpl. now rewrite String.eqb_refl. }
  unfold setCurrentTopic, TMap.has. simpl. rewrite Hg. simpl.
  repeat split; try assumption.
  now apply (getCurrentTopic_intro _ (uuid_shift env)).
Qed.

Lemma wf_topics_eq db db' : topics db' = topics db -> wf db -> wf db'.
Proof. unfold wf. now intros ->. Qed.

Lemma wf_switchStore env n db :
  wf db -> uuid_shift env <> "" ->
  (getTopicByName n db = None -> TMap.get (uuid_shift env) (topics db) = None) ->
  wf (StudySession.switchStore env n db).
Proof.
  intros Hwf Hne Hfresh. unfold StudySession.switchStore.
  pose proof (wf_createTopic (uuid_shift env) (now_shift env) n false db
                Hwf Hne Hfresh) as H.
  destruct (getTopicByName n db) as [e | ] eqn:E.
  - now apply wf_setCurrentTopic.
  - destruct (createTopic (uuid_shift env) (now_shift env) n false db) as [t d].
    now apply wf_setCurrentTopic.
Qed.

(** ** One turn of the chat handler *)

Section Turn.

Variables (env : Env) (s : StudySession.t) (db : TopicDatabase).
Variables (o : AgentOrchestrator.t) (chat : AgentOrchestrator.Chat).
Variables (slide : LessonSlide) (pre : Topic).

(** The session has an orchestrator with its engine, the chat box is not
    blank, a slide is shown, and the store is well formed with [pre] active. *)
Hypothesis Horch : StudySession.orchestratorRef s = Some o.
Hypothesis Hchat : AgentOrchestrator.parentChat o = Some chat.
Hypothesis Hinput : JS.truthy (JS.trim (StudySession.inputMessage s)) = true.
Hypothesis Hslide :
  nth_error (StudySession.slides s) (StudySession.currentSlideIndex s) = Some slide.
Hypothesis Hwf : wf db.
Hypothesis Hactive : getCurrentTopic db = Some pre.

Lemma handleSendMessage_failed :
  sendMessage env (AgentOrchestrator.prompt (turnRoute env s o slide db)) = None ->
  StudySession.handleSendMessage env s db
  = (StudySession.failed s
       (Some (AgentOrchestrator.routedOrchestrator (turnRoute env s o slide db))),
     StudySession.addToCurrent (StudySession.userMessage s) db,
     None).
Proof.
  intros Hsend. unfold StudySession.handleSendMessage.
  rewrite Horch, Hinput, Hslide. simpl negb. cbv iota.
  unfold turnRoute in Hsend.
  rewrite (processUserQuery_rejected _ _ _ _ _ _ _ chat Hchat Hsend).
  reflexivity.
Qed.

Lemma handleSendMessage_answered txt :
  sendMessage env (AgentOrchestrator.prompt (turnRoute env s o slide db)) = Some txt ->
  let r := turnRoute env s o slide db in
  let res :=
    {| AgentOrchestrator.response :=
         replyMessage txt (AgentOrchestrator.routedSources r);
       AgentOrchestrator.resultAnalysis := classification env s o;
       AgentOrchestrator.resultSources := AgentOrchestrator.routedSources r |} in
  let db1 := StudySession.addToCurrent (StudySession.userMessage s) db in
  StudySession.handleSendMessage env s db
  = (StudySession.answered s res (AgentOrchestrator.routedOrchestrator r),
     StudySession.addToCurrent
       (replyMessage txt (AgentOrchestrator.routedSources r))
       (if StudySession.shiftHandled (classification env s o) s
        then StudySession.switchStore env (topicName (classification env s o)) db1
        else db1),
     Some (id pre)).
Proof.
  intros Hsend r res db1. unfold StudySession.handleSendMessage.
  rewrite Horch, Hinput, Hslide. simpl negb. cbv iota.
  destruct (addToCurrent_active (StudySession.userMessage s) db pre Hwf Hactive)
    as (_ & _ & Hcur1).
  unfold turnRoute in Hsend.
  rewrite (processUserQuery_resolved _ _ _ _ _ _ _ chat txt _ Hchat Hsend Hcur1).
  cbn [AgentOrchestrator.result AgentOrchestrator.orchestratorAfter
       AgentOrchestrator.storeAfter AgentOrchestrator.pendingEnrichment
       AgentOrchestrator.resultAnalysis AgentOrchestrator.response].
  subst r res db1. unfold turnRoute. rewrite route_analysis.
  fold (classification env s o). cbn [push_message id].
  destruct (wf_current _ _ Hwf Hactive) as (_ & _ & Ht). rewrite Ht.
  reflexivity.
Qed.

(** C8. When the conversation engine's call fails, the turn ends in the
    error state the learner sees (the apology message closes the chat and the
    loading flag is off); the learner's message is the last entry of the
    message list of the topic that was active before the turn, which is still
    active; and no other message was appended to any topic: each topic's list
    is the one it had, with the learner's message added for that one topic.
    No enrichment is left pending. *)
Theorem synthesis_failure_keeps_question
    (Hfail : sendMessage env (AgentOrchestrator.prompt (turnRoute env s o slide db))
             = None) :
  let '(s', db', pending) := StudySession.handleSendMessage env s db in
  (StudySession.chatMessages s'
   = (StudySession.chatMessages s
        ++ [StudySession.userMessage s; StudySession.errorMessage])%list
   /\ StudySession.isChatLoading s' = false
   /\ StudySession.currentTopicName s' = StudySession.currentTopicName s)
  /\ getCurrentTopic db' = Some (push_message (StudySession.userMessage s) pre)
  /\ currentTopicId db' = currentTopicId db
  /\ (forall k t', TMap.get k (topics db') = Some t' ->
        exists t0, TMap.get k (topics db) = Some t0
                   /\ messages t'
                      = (messages t0
                           ++ (if k =? id pre then [StudySession.userMessage s]
                               else []))%list)
  /\ pending = None.
Proof.
  rewrite (handleSendMessage_failed Hfail).
  destruct (addToCurrent_active (StudySession.userMessage s) db pre Hwf Hactive)
    as (_ & Htopics & Hcur1).
  split; [ | split; [ exact Hcur1 | split; [ apply currentTopicId_addToCurrent | ] ] ].
  - simpl. rewrite <- app_assoc. now repeat split.
  - split; [ | reflexivity ].
    intros k t'. rewrite Htopics, get_modify, String.eqb_sym.
    destruct (k =? id pre).
    + destruct (TMap.get k (topics db)) as [t0 | ]; [ | discriminate ].
      simpl. intros [= <-]. now exists t0.
    + intros Hg. exists t'. split; [ exact Hg | now rewrite app_nil_r ].
Qed.

(** C1. In a turn for which the classifier reports a new topic and the
    engine answers: the learner's message is in the message list of the topic
    that was active before the turn; the tutor's reply is the last entry of
    the message list of the topic that is active after it; and the session's
    current topic name is the reported name. When the reported name is not
    the session's current one, the topic active after the turn bears the
    reported name up to letter case: it is the topic the store already had
    under that name or, when it had none, a topic created in the turn under
    the id drawn, with exactly the reported name, not main, holding only the
    reply. When the reported name is the session's current one, the active
    topic stays. *)
Theorem shift_persists_across_topics (txt : string)
    (Hnew : isNewTopic (classification env s o) = true)
    (Hsynth : sendMessage env (AgentOrchestrator.prompt (turnRoute env s o slide db))
              = Some txt)
    (Huuid : uuid_shift env <> "")
    (Hfresh : getTopicByName (topicName (classification env s o)) db = None ->
              TMap.get (uuid_shift env) (topics db) = None) :
  let n := topicName (classification env s o) in
  let reply :=
    replyMessage txt (AgentOrchestrator.routedSources (turnRoute env s o slide db)) in
  let '(s', db', _) := StudySession.handleSendMessage env s db in
  exists post pre',
    getCurrentTopic db' = Some post
    /\ TMap.get (id pre) (topics db') = Some pre'
    /\ messages pre'
       = (messages pre ++ [StudySession.userMessage s]
            ++ (if id post =? id pre then [reply] else []))%list
    /\ (exists earlier, messages post = (earlier ++ [reply])%list)
    /\ StudySession.currentTopicName s' = n
    /\ (n <> StudySession.currentTopicName s ->
        same_name n post = true
        /\ (forall e, getTopicByName n db = Some e -> id post = id e)
        /\ (getTopicByName n db = None ->
            id post = uuid_shift env /\ name post = n /\ isMainTopic post = false
            /\ messages post = [reply]))
    /\ (n = StudySession.currentTopicName s ->
        id post = id pre /\ name post = name pre).
Proof.
  intros n reply. rewrite (handleSendMessage_answered txt Hsynth).
  fold n. fold reply.
  set (userMsg := StudySession.userMessage s).
  set (db1 := StudySession.addToCurrent userMsg db).
  destruct (addToCurrent_active userMsg db pre Hwf Hactive)
    as (Hdb1 & Htopics1 & Hcur1).
  fold db1 in Hdb1, Htopics1, Hcur1.
  assert (wf db1) as Hwf1 by (now apply wf_addToCurrent).
  destruct (wf_current _ _ Hwf Hactive) as (_ & Hgpre & _).
  assert (TMap.get (id pre) (topics db1) = Some (push_message userMsg pre)) as Hgpre1.
  { rewrite Htopics1, get_modify_same, Hgpre. reflexivity. }
  assert (StudySession.shiftHandled (classification env s o) s
          = negb (n =? StudySession.currentTopicName s)) as Hguard.
  { unfold StudySession.shiftHandled. now rewrite Hnew. }
  assert (StudySession.currentTopicName
            (StudySession.answered s
               {| AgentOrchestrator.response := reply;
                  AgentOrchestrator.resultAnalysis := classification env s o;
                  AgentOrchestrator.resultSources :=
                    AgentOrchestrator.routedSources (turnRoute env s o slide db) |}
               (AgentOrchestrator.routedOrchestrator (turnRoute env s o slide db)))
          = n) as Hs'.
  { simpl. rewrite Hguard. fold n.
    destruct (String.eqb_spec n (StudySession.currentTopicName s)); simpl;
      congruence. }
  rewrite Hguard.
  destruct (String.eqb_spec n (StudySession.currentTopicName s)) as [Heq | Hdiff];
    simpl negb; cbv iota.
  { (* the reported name is the session's: nothing to switch *)
    destruct (addToCurrent_active reply db1 _ Hwf1 Hcur1) as (_ & Htopics' & Hcur').
    exists (push_message reply (push_message userMsg pre)).
    exists (push_message reply (push_message userMsg pre)).
    split; [ exact Hcur' | ].
    split.
    { rewrite Htopics'. cbn [id push_message].
      rewrite get_modify_same, Hgpre1. reflexivity. }
    split.
    { cbn [id push_message messages]. rewrite String.eqb_refl.
      now rewrite <- app_assoc. }
    split; [ now exists (messages pre ++ [userMsg])%list | ].
    split; [ exact Hs' | ].
    split; [ intros Hne; contradiction | ].
    intros _. now split. }
  pose proof (getTopicByName_mutate n (id pre) (push_message userMsg) db
                (fun _ => eq_refl)) as Hname1.
  fold (addMessageToTopic (id pre) userMsg db) in Hname1. rewrite <- Hdb1 in Hname1.
  destruct (getTopicByName n db) as [e | ] eqn:Ee.
  - (* the store already has a topic of that name *)
    destruct Hname1 as (e' & He' & Hee').
    destruct (switchStore_existing env n db1 e' Hwf1 He') as (Ht3 & _ & Hcur3).
    assert (wf (StudySession.switchStore env n db1)) as Hwf3
      by (now apply (wf_topics_eq db1)).
    destruct (addToCurrent_active reply _ e' Hwf3 Hcur3) as (_ & Htopics' & Hcur').
    assert (id e' = id e) as Hid by (destruct Hee' as [-> | ->]; reflexivity).
    exists (push_message reply e').
    exists (if id e' =? id pre
            then push_message reply (push_message userMsg pre)
            else push_message userMsg pre).
    split; [ exact Hcur' | ].
    split.
    { rewrite Htopics', Ht3, get_modify, Hgpre1.
      now destruct (id e' =? id pre). }
    split.
    { cbn [id push_message]. destruct (id e' =? id pre); simpl.
      - now rewrite <- app_assoc.
      - reflexivity. }
    split; [ now exists (messages e') | ].
    split; [ exact Hs' | ].
    split; [ | intros Heq; contradiction ].
    intros _. split.
    { destruct (getTopicByName_In _ _ _ He') as [_ Hsame]. exact Hsame. }
    split; [ intros e0 [= <-]; exact Hid | discriminate ].
  - (* the topic is created in the turn *)
    assert (TMap.get (uuid_shift env) (topics db1) = None) as Hfresh1.
    { rewrite Htopics1, get_modify, (Hfresh Ee).
      now destruct (id pre =? uuid_shift env). }
    destruct (switchStore_new env n db1 Hname1 Huuid Hfresh1)
      as (t & Ht3 & Hid & Hnm & Hmain & Hmsg & _ & Hcur3).
    assert (wf (StudySession.switchStore env n db1)) as Hwf3.
    { apply wf_switchStore; auto. }
    destruct (addToCurrent_active reply _ t Hwf3 Hcur3) as (_ & Htopics' & Hcur').
    assert ((uuid_shift env =? id pre) = false) as Hne.
    { apply String.eqb_neq. intros Heq. rewrite Heq in Hfresh1. congruence. }
    exists (push_message reply t), (push_message userMsg pre).
    split; [ exact Hcur' | ].
    split.
    { rewrite Htopics', Ht3, get_modify, Hid, Hne.
      now apply get_app_present. }
    split.
    { cbn [id push_message]. rewrite Hid, Hne. reflexivity. }
    split; [ now exists (messages t) | ].
    split; [ exact Hs' | ].
    split; [ | intros Heq; contradiction ].
    intros _. split.
    { apply same_name_true. unfold folded_name. simpl. now rewrite Hnm. }
    split; [ discriminate | ].
    intros _. simpl. rewrite Hmsg. now repeat split.
Qed.

End Turn.

(** ** A classifier that names the current topic as new *)

Lemma updateTopic_same o :
  AgentOrchestrator.updateTopic (AgentOrchestrator.currentTopicName o) o = o.
Proof. now destruct o. Qed.

Lemma shiftDetected_same_name a o :
  topicName a = AgentOrchestrator.currentTopicName o ->
  AgentOrchestrator.shiftDetected a o = false.
Proof.
  intros H. unfold AgentOrchestrator.shiftDetected.
  rewrite H, String.eqb_refl. apply andb_false_r.
Qed.

Lemma handleSendMessage_orchestrator env s db o :
  StudySession.orchestratorRef s = Some o ->
  topicName (classification env s o) = AgentOrchestrator.currentTopicName o ->
  StudySession.orchestratorRef (fst (fst (StudySession.handleSendMessage env s db)))
  = Some o.
Proof.
  intros Horch Hsame. unfold StudySession.handleSendMessage. rewrite Horch.
  destruct (negb (JS.truthy (JS.trim (StudySession.inputMessage s))));
    [ exact Horch | ].
  destruct (nth_error (StudySession.slides s) (StudySession.currentSlideIndex s))
    as [slide | ]; [ | reflexivity ].
  pose proof (shiftDetected_same_name _ _ Hsame) as Hns.
  unfold classification in Hns, Hsame.
  cbv zeta.
  rewrite (processUserQuery_orchestrator _ _ _ _ _ _ _ Hns).
  destruct (AgentOrchestrator.result _) as [res | ] eqn:R; [ | reflexivity ].
  pose proof (processUserQuery_analysis _ _ _ _ _ _ _ _ R) as Ha.
  simpl. rewrite !Ha.
  destruct (StudySession.shiftHandled _ s); [ | reflexivity ].
  now rewrite Hsame, updateTopic_same.
Qed.

Lemma shiftHandled_same_name a s :
  topicName a = StudySession.currentTopicName s ->
  StudySession.shiftHandled a s = false.
Proof.
  intros H. unfold StudySession.shiftHandled.
  rewrite H, String.eqb_refl. apply andb_false_r.
Qed.

(** A turn whose analysis does not pass the handler's guard leaves the
    store's pointer and the session's topic name alone. *)
Lemma handleSendMessage_no_switch env s db o t :
  StudySession.orchestratorRef s = Some o ->
  StudySession.shiftHandled (classification env s o) s = false ->
  getCurrentTopic db = Some t ->
  let '(s', db', _) := StudySession.handleSendMessage env s db in
  currentTopicId db' = currentTopicId db
  /\ StudySession.currentTopicName s' = StudySession.currentTopicName s.
Proof.
  intros Horch Hns Hcur. unfold StudySession.handleSendMessage. rewrite Horch.
  destruct (negb (JS.truthy (JS.trim (StudySession.inputMessage s))));
    [ now split | ].
  destruct (nth_error (StudySession.slides s) (StudySession.currentSlideIndex s))
    as [slide | ]; [ | split; [ apply currentTopicId_addToCurrent | reflexivity ] ].
  destruct (getCurrentTopic_addToCurrent_some (StudySession.userMessage s) db t Hcur)
    as (t1 & Hcur1 & _).
  cbv zeta. rewrite (processUserQuery_store _ _ _ _ _ _ _ _ Hcur1).
  destruct (AgentOrchestrator.result _) as [res | ] eqn:R.
  - pose proof (processUserQuery_analysis _ _ _ _ _ _ _ _ R) as Ha.
    fold (classification env s o) in Ha.
    unfold StudySession.answered. rewrite !Ha, Hns. simpl.
    now rewrite !currentTopicId_addToCurrent.
  - split; [ apply currentTopicId_addToCurrent | reflexivity ].
Qed.

(** C10, as the code has it. When the classifier returns [isNewTopic = true]
    with the orchestrator's current topic name, the orchestrator handles no
    shift: the prompt carries no pivot note and, after the turn, the
    orchestrator is as it was. The store is switched by the chat handler, whose
    guard compares the returned name with the session's own current topic
    name: when the returned name is that name too and a topic is active, the
    store's active-topic pointer and the session's topic name are unchanged. *)
Theorem no_shift_when_name_is_current (env : Env) (s : StudySession.t)
    (db : TopicDatabase) (o : AgentOrchestrator.t)
    (Horch : StudySession.orchestratorRef s = Some o)
    (Hnew : isNewTopic (classification env s o) = true)
    (Hsame : topicName (classification env s o)
             = AgentOrchestrator.currentTopicName o) :
  (forall slide,
     let r := turnRoute env s o slide db in
     AgentOrchestrator.systemInjection r = ""
     /\ AgentOrchestrator.routedOrchestrator r = o
     /\ AgentOrchestrator.prompt r
        = AgentOrchestrator.finalPrompt "" (slide_title slide)
            (fst (AgentOrchestrator.childAgent env (StudySession.agentMode s)
                    (StudySession.inputMessage s)
                    (StudySession.addToCurrent (StudySession.userMessage s) db)))
            (StudySession.inputMessage s))
  /\ let '(s', db', _) := StudySession.handleSendMessage env s db in
     StudySession.orchestratorRef s' = Some o
     /\ (topicName (classification env s o) = StudySession.currentTopicName s ->
         getCurrentTopic db <> None ->
         currentTopicId db' = currentTopicId db
         /\ StudySession.currentTopicName s' = StudySession.currentTopicName s).
Proof.
  split.
  - intros slide r.
    pose proof (shiftDetected_same_name _ _ Hsame) as Hns.
    unfold classification in Hns.
    destruct (route_no_shift env (StudySession.inputMessage s)
                (StudySession.agentMode s)
                (JS.slice_last 5 (StudySession.chatMessages s)) (slide_title slide) o
                (StudySession.addToCurrent (StudySession.userMessage s) db) Hns)
      as (_ & Hi & Ho & Hp).
    now repeat split.
  - pose proof (handleSendMessage_orchestrator env s db o Horch Hsame) as H1.
    pose proof (handleSendMessage_no_switch env s db o) as H2.
    destruct (StudySession.handleSendMessage env s db) as [[s' db'] p].
    split; [ exact H1 | ].
    intros Hsame2 Hcur.
    destruct (getCurrentTopic db) as [t | ] eqn:E; [ | congruence ].
    exact (H2 t Horch (shiftHandled_same_name _ _ Hsame2) eq_refl).
Qed.

(** ** The classifier's fallback in a turn *)

Lemma analyzeTopicShift_throws env currentTopic userMessage recentHistory :
  classifier_throws env currentTopic (historyContext recentHistory) userMessage ->
  analyzeTopicShift env currentTopic userMessage recentHistory
  = {| isNewTopic := false; topicName := currentTopic |}.
Proof.
  unfold classifier_throws, analyzeTopicShift.
  destruct (classifierCall env currentTopic (historyContext recentHistory) userMessage)
    as [ | [txt | ]]; [ reflexivity | | intros [] ].
  now intros [-> ->].
Qed.

(** C7. When the classification call fails (the call throws, or what it
    returned does not parse), [analyzeTopicShift] returns exactly
    [{ isNewTopic: false, topicName: currentTopic }], for every current topic
    name, message and history. In a turn this result passes neither shift
    guard: the prompt carries no pivot note, the orchestrator is unchanged
    and, with a topic active, so are the store's active-topic pointer and the
    session's topic name. The turn goes on: when the engine answers,
    [processUserQuery] resolves with that answer. *)
Theorem classification_failure_falls_back (env : Env) :
  (forall currentTopic userMessage recentHistory,
     classifier_throws env currentTopic (historyContext recentHistory) userMessage ->
     analyzeTopicShift env currentTopic userMessage recentHistory
     = {| isNewTopic := false; topicName := currentTopic |})
  /\ (forall s db o,
        StudySession.orchestratorRef s = Some o ->
        classifier_throws env (AgentOrchestrator.currentTopicName o)
          (historyContext (JS.slice_last 5 (StudySession.chatMessages s)))
          (StudySession.inputMessage s) ->
        (forall slide,
           let r := turnRoute env s o slide db in
           AgentOrchestrator.systemInjection r = ""
           /\ AgentOrchestrator.workingTopicName r
              = AgentOrchestrator.currentTopicName o
           /\ AgentOrchestrator.routedOrchestrator r = o
           /\ forall chat reply,
                AgentOrchestrator.parentChat o = Some chat ->
                sendMessage env (AgentOrchestrator.prompt r) = Some reply ->
                exists res,
                  AgentOrchestrator.result
                    (AgentOrchestrator.processUserQuery env
                       (StudySession.inputMessage s) (StudySession.agentMode s)
                       (JS.slice_last 5 (StudySession.chatMessages s))
                       (slide_title slide) o
                       (StudySession.addToCurrent (StudySession.userMessage s) db))
                  = Some res
                  /\ text (AgentOrchestrator.response res) = reply
                  /\ AgentOrchestrator.resultAnalysis res
                     = {| isNewTopic := false;
                          topicName := AgentOrchestrator.currentTopicName o |})
        /\ let '(s', db', _) := StudySession.handleSendMessage env s db in
           StudySession.orchestratorRef s' = Some o
           /\ (getCurrentTopic db <> None ->
               currentTopicId db' = currentTopicId db
               /\ StudySession.currentTopicName s'
                  = StudySession.currentTopicName s)).
Proof.
  split; [ apply analyzeTopicShift_throws | ].
  intros s db o Horch Hthrows.
  pose proof (analyzeTopicShift_throws _ _ _ _ Hthrows) as Ha.
  fold (classification env s o) in Ha.
  assert (topicName (classification env s o)
          = AgentOrchestrator.currentTopicName o) as Hsame by (now rewrite Ha).
  split.
  - intros slide r.
    pose proof (shiftDetected_same_name _ _ Hsame) as Hns.
    unfold classification in Hns.
    destruct (route_no_shift env (StudySession.inputMessage s)
                (StudySession.agentMode s)
                (JS.slice_last 5 (StudySession.chatMessages s)) (slide_title slide) o
                (StudySession.addToCurrent (StudySession.userMessage s) db) Hns)
      as (Hw & Hi & Ho & _).
    split; [ exact Hi | split; [ exact Hw | split; [ exact Ho | ] ] ].
    intros chat reply Hchat Hsend.
    unfold AgentOrchestrator.processUserQuery. rewrite Hchat.
    unfold r, turnRoute in Hsend. rewrite Hsend.
    destruct (AgentOrchestrator.triggerBackgroundGeneration env _ _)
      as [db1 target].
    eexists. split; [ reflexivity | ]. simpl. split; [ reflexivity | ].
    rewrite route_analysis. exact Ha.
  - pose proof (handleSendMessage_orchestrator env s db o Horch Hsame) as H1.
    pose proof (handleSendMessage_no_switch env s db o) as H2.
    destruct (StudySession.handleSendMessage env s db) as [[s' db'] p].
    split; [ exact H1 | ].
    intros Hcur.
    destruct (getCurrentTopic db) as [t | ] eqn:E; [ | congruence ].
    apply (H2 t Horch); [ | reflexivity ].
    unfold StudySession.shiftHandled. now rewrite Ha.
Qed.

Lemma classification_failure_falls_back_witness :
  classifier_throws failingClassifierEnv "Thermodynamics" (historyContext [])
    "why is that?"
  /\ analyzeTopicShift failingClassifierEnv "Thermodynamics" "why is that?" []
     = {| isNewTopic := false; topicName := "Thermodynamics" |}.
Proof.
  assert (classifier_throws failingClassifierEnv "Thermodynamics"
            (historyContext []) "why is that?") as H by exact I.
  split; [ exact H | ].
  exact (proj1 (classification_failure_falls_back failingClassifierEnv)
           "Thermodynamics" "why is that?" [] H).
Defined.

(** ** The store stays well formed, with a topic active, through a session *)

Lemma get_addToCurrent_none k m db :
  TMap.get k (topics db) = None ->
  TMap.get k (topics (StudySession.addToCurrent m db)) = None.
Proof.
  intros H. unfold StudySession.addToCurrent.
  destruct (getCurrentTopic db) as [cur | ]; [ | exact H ].
  destruct (JS.truthy (id cur)); [ | exact H ].
  unfold addMessageToTopic. rewrite topics_mutate, get_modify, H.
  now destruct (id cur =? k).
Qed.

Lemma switchStore_active env n db :
  wf db -> uuid_shift env <> "" ->
  TMap.get (uuid_shift env) (topics db) = None ->
  exists t, getCurrentTopic (StudySession.switchStore env n db) = Some t
            /\ same_name n t = true.
Proof.
  intros Hwf Hne Hfresh. destruct (getTopicByName n db) as [e | ] eqn:E.
  - destruct (switchStore_existing env n db e Hwf E) as (_ & _ & H).
    destruct (getTopicByName_In _ _ _ E) as [_ Hsame]. eauto.
  - destruct (switchStore_new env n db E Hne Hfresh)
      as (t & _ & _ & Hnm & _ & _ & _ & H).
    exists t. split; [ exact H | ].
    apply same_name_true. unfold folded_name. now rewrite Hnm.
Qed.

Lemma same_name_eq_name n t t' : name t' = name t -> same_name n t' = same_name n t.
Proof. unfold same_name. now intros ->. Qed.

(** A new session starts with a well-formed store, a topic active, and the
    session, the orchestrator and the store agreeing on the topic. *)
Lemma initSession_sound uuid now topic firstSlide db :
  uuid <> "" ->
  exists s db',
    StudySession.initSession uuid now topic firstSlide db = (Some s, db')
    /\ wf db' /\ getCurrentTopic db' <> None /\ agree s db'
    /\ StudySession.currentTopicName s = topic
    /\ option_map AgentOrchestrator.currentTopicName (StudySession.orchestratorRef s)
       = Some topic.
Proof.
  intros Hne. unfold StudySession.initSession.
  pose proof (wf_reset uuid now topic db Hne) as Hwf.
  assert (exists t, getCurrentTopic (reset uuid now topic db) = Some t
                    /\ name t = topic) as (t & Ht & Hnm).
  { eexists. split.
    - apply (getCurrentTopic_intro _ uuid); [ reflexivity | exact Hne | ].
      rewrite topics_reset. simpl. now rewrite String.eqb_refl.
    - reflexivity. }
  rewrite Ht. do 2 eexists. split; [ reflexivity | ].
  destruct (getCurrentTopic_mutate (id t) (push_message (StudySession.introMessage topic))
              _ t Ht) as (t' & Ht' & Hor).
  fold (addMessageToTopic (id t) (StudySession.introMessage topic)
          (reset uuid now topic db)) in Ht'.
  split; [ now apply wf_mutate | ].
  split; [ congruence | ].
  split; [ | now split ].
  intros t0 Ht0. simpl. rewrite Ht' in Ht0. injection Ht0 as <-.
  apply same_name_true. unfold folded_name.
  destruct Hor as [-> | ->]; simpl; now rewrite Hnm.
Qed.

(** A turn keeps all of that, when the id it may draw is fresh. *)
Lemma handleSendMessage_sound env s db :
  wf db -> getCurrentTopic db <> None -> agree s db ->
  uuid_shift env <> "" -> TMap.get (uuid_shift env) (topics db) = None ->
  let '(s', db', _) := StudySession.handleSendMessage env s db in
  wf db' /\ getCurrentTopic db' <> None /\ agree s' db'.
Proof.
  intros Hwf Hcur Hagree Hne Hfresh.
  destruct (getCurrentTopic db) as [t | ] eqn:Et; [ clear Hcur | congruence ].
  assert (same_name (StudySession.currentTopicName s) t = true) as Hst
    by (apply Hagree; exact Et).
  assert (forall db0 t0,
            getCurrentTopic db0 = Some t0 -> forall n, same_name n t0 = true ->
            forall s0, StudySession.currentTopicName s0 = n -> agree s0 db0)
    as Hmk.
  { intros db0 t0 H0 n Hn s0 Hs0 t1 H1. rewrite H0 in H1. injection H1 as <-.
    now rewrite Hs0. }
  unfold StudySession.handleSendMessage.
  destruct (StudySession.orchestratorRef s) as [o | ];
    [ | split; [ exact Hwf | split; [ congruence | exact Hagree ] ] ].
  destruct (negb (JS.truthy (JS.trim (StudySession.inputMessage s))));
    [ split; [ exact Hwf | split; [ congruence | exact Hagree ] ] | ].
  pose proof (wf_addToCurrent (StudySession.userMessage s) db Hwf) as Hwf1.
  destruct (getCurrentTopic_addToCurrent_some (StudySession.userMessage s) db t Et)
    as (t1 & Hcur1 & Hnm1).
  assert (same_name (StudySession.currentTopicName s) t1 = true) as Hst1
    by (now rewrite (same_name_eq_name _ _ _ Hnm1)).
  pose proof (get_addToCurrent_none _ (StudySession.userMessage s) db Hfresh)
    as Hfresh1.
  destruct (nth_error (StudySession.slides s) (StudySession.currentSlideIndex s))
    as [slide | ].
  2: { split; [ exact Hwf1 | split; [ congruence | ] ].
       now apply (Hmk _ _ Hcur1 _ Hst1). }
  cbv zeta. rewrite (processUserQuery_store _ _ _ _ _ _ _ _ Hcur1).
  destruct (AgentOrchestrator.result _) as [res | ].
  2: { split; [ exact Hwf1 | split; [ congruence | ] ].
       now apply (Hmk _ _ Hcur1 _ Hst1). }
  set (reply := AgentOrchestrator.response res).
  set (a := AgentOrchestrator.resultAnalysis res).
  destruct (StudySession.shiftHandled a s) eqn:Hsh.
  - pose proof (wf_switchStore env (topicName a) _ Hwf1 Hne (fun _ => Hfresh1))
      as Hwf3.
    destruct (switchStore_active env (topicName a) _ Hwf1 Hne Hfresh1)
      as (t3 & Hcur3 & Hs3).
    destruct (getCurrentTopic_addToCurrent_some reply _ t3 Hcur3)
      as (t4 & H4 & Hnm4).
    split; [ now apply wf_addToCurrent | split; [ congruence | ] ].
    apply (Hmk _ _ H4 (topicName a)).
    + now rewrite (same_name_eq_name _ _ _ Hnm4).
    + unfold StudySession.answered. simpl. fold a. now rewrite Hsh.
  - destruct (getCurrentTopic_addToCurrent_some reply _ t1 Hcur1)
      as (t4 & H4 & Hnm4).
    split; [ now apply wf_addToCurrent | split; [ congruence | ] ].
    apply (Hmk _ _ H4 (StudySession.currentTopicName s)).
    + now rewrite (same_name_eq_name _ _ _ Hnm4).
    + unfold StudySession.answered. simpl. fold a. now rewrite Hsh.
Qed.

(** ** A session on History that is asked about cells *)

Example asking_is_reached q :
  option_map (StudySession.setInput q) (fst historySession) = Some (asking q).
Proof. reflexivity. Qed.

Example historyStore_active : getCurrentTopic historyStore = Some historyTopic.
Proof. reflexivity. Qed.

Lemma historyStore_wf : wf historyStore.
Proof.
  split; simpl.
  - repeat constructor. intros [].
  - repeat constructor. discriminate.
Qed.

Lemma shift_persists_across_topics_witness :
  let env := biologyEnv (Some "Cells are the units of life.") in
  let s := asking "What is a cell?" in
  let '(s', db', _) := StudySession.handleSendMessage env s historyStore in
  exists post pre',
    getCurrentTopic db' = Some post
    /\ name post = "Biology"
    /\ map text (messages post) = ["Cells are the units of life."]
    /\ TMap.get "id-1" (topics db') = Some pre'
    /\ map text (messages pre')
       = [text (StudySession.introMessage "History"); "What is a cell?"]
    /\ StudySession.currentTopicName s' = "Biology".
Proof.
  intros env s.
  pose proof (shift_persists_across_topics env s historyStore historyOrchestrator
                AgentOrchestrator.ChatSession romeSlide historyTopic
                eq_refl eq_refl eq_refl eq_refl historyStore_wf eq_refl
                "Cells are the units of life." eq_refl) as H.
  cbv zeta in H.
  destruct (StudySession.handleSendMessage env s historyStore) as [[s' db'] p].
  destruct H as (post & pre' & Hpost & Hpre & Hmsgs & _ & Hname & Hshift & _).
  - reflexivity.
  - discriminate.
  - intros _. reflexivity.
  - destruct Hshift as (_ & _ & Hnew); [ discriminate | ].
    destruct (Hnew eq_refl) as (Hid & Hn & _ & Hm).
    exists post, pre'. repeat split; try assumption.
    + now rewrite Hm.
    + rewrite Hmsgs, Hid. reflexivity.
Defined.

Lemma synthesis_failure_keeps_question_witness :
  let env := biologyEnv None in
  let s := asking "What is a cell?" in
  let '(s', db', _) := StudySession.handleSendMessage env s historyStore in
  getCurrentTopic db'
  = Some (push_message (StudySession.userMessage s) historyTopic)
  /\ currentTopicId db' = Some "id-1"
  /\ map text (StudySession.chatMessages s')
     = [text (StudySession.introMessage "History"); "What is a cell?";
        "Sorry, I encountered an error coordinating the agents."].
Proof.
  intros env s.
  pose proof (synthesis_failure_keeps_question env s historyStore historyOrchestrator
                AgentOrchestrator.ChatSession romeSlide historyTopic
                eq_refl eq_refl eq_refl eq_refl historyStore_wf eq_refl
                eq_refl) as H.
  destruct (StudySession.handleSendMessage env s historyStore) as [[s' db'] p].
  destruct H as ((Hchat & _) & Hcur & Hptr & _).
  split; [ exact Hcur | ].
  split; [ exact Hptr | ].
  now rewrite Hchat.
Defined.

Lemma notebook_context_witness :
  AgentOrchestrator.notebookOutput "When was Rome founded?" historyStore
  = "[DATA FROM NOTEBOOK AGENT]: The user has not uploaded any notes yet. Remind them to paste their content to use this feature."
  /\ AgentOrchestrator.notebookOutput "When was Rome founded?" notedStore
     = JS.nl
       ++ "        [DATA FROM NOTEBOOK AGENT]:" ++ JS.nl
       ++ "        The user has provided the following personal notes/documents:"
       ++ JS.nl
       ++ "        " ++ JS.dq ++ JS.dq ++ JS.dq ++ JS.nl
       ++ "        Rome was founded in 753 BC. ... (content truncated for context)"
       ++ JS.nl
       ++ "        " ++ JS.dq ++ JS.dq ++ JS.dq ++ JS.nl
       ++ "        " ++ JS.nl
       ++ "        Instructions: Answer the user's question " ++ JS.dq
       ++ "When was Rome founded?" ++ JS.dq
       ++ " strictly based on the provided notes above. If the answer isn't in the notes, say so."
       ++ JS.nl
       ++ "        ".
Proof.
  split.
  - destruct (notebook_context (biologyEnv None) "When was Rome founded?" []
                "Ancient Rome" historyOrchestrator historyStore)
      as (_ & _ & _ & _ & Hempty & _).
    exact (proj2 (Hempty eq_refl)).
  - destruct (notebook_context (biologyEnv None) "When was Rome founded?" []
                "Ancient Rome" historyOrchestrator notedStore)
      as (_ & _ & _ & _ & _ & Hfull & _).
    destruct (Hfull eq_refl) as (_ & Hout & _ & _ & _ & Hshort).
    rewrite Hout, Hshort; [ reflexivity | ].
    apply Nat.leb_le. vm_compute. reflexivity.
Defined.

Lemma no_shift_when_name_is_current_witness :
  let s := asking "When did Rome fall?" in
  let '(s', db', _) := StudySession.handleSendMessage echoEnv s historyStore in
  StudySession.orchestratorRef s' = Some historyOrchestrator
  /\ currentTopicId db' = currentTopicId historyStore
  /\ StudySession.currentTopicName s' = "History".
Proof.
  intros s.
  pose proof (no_shift_when_name_is_current echoEnv s historyStore
                historyOrchestrator eq_refl eq_refl eq_refl) as H.
  destruct (StudySession.handleSendMessage echoEnv s historyStore) as [[s' db'] p].
  destruct H as (_ & Ho & Hrest).
  destruct (Hrest eq_refl) as (Hp & Hn); [ discriminate | ].
  split; [ exact Ho | split; [ exact Hp | exact Hn ] ].
Defined.

(** C10, as it is stated, fails on the store's pointer. The orchestrator
    commits the new name before the engine is called and keeps it when the
    call fails, while the session keeps its own name. In the next turn the
    classifier reports the orchestrator's current name as new: the
    orchestrator handles no shift and the handler, whose name still differs,
    switches the store. *)
Lemma shift_with_current_name_counterexample :
  exists s0 db0 s1 db1 p1 o1 s2 db2 p2,
    historySession = (Some s0, db0)
    /\ StudySession.handleSendMessage (biologyEnv None)
         (StudySession.setInput "What is a cell?" s0) db0 = (s1, db1, p1)
    /\ StudySession.orchestratorRef s1 = Some o1
    /\ (let s := StudySession.setInput "Tell me more." s1 in
        let env := biologyEnv (Some "Cells are the units of life.") in
        isNewTopic (classification env s o1) = true
        /\ topicName (classification env s o1)
           = AgentOrchestrator.currentTopicName o1
        /\ AgentOrchestrator.systemInjection (turnRoute env s o1 romeSlide db1) = ""
        /\ StudySession.handleSendMessage env s db1 = (s2, db2, p2))
    /\ getCurrentTopic db1 <> None
    /\ currentTopicId db1 = Some "id-1"
    /\ currentTopicId db2 = Some "id-2"
    /\ currentTopicId db2 <> currentTopicId db1.
Proof.
  do 9 eexists.
  split; [ reflexivity | ].
  split; [ reflexivity | ].
  split; [ reflexivity | ].
  split; [ repeat split; reflexivity | ].
  repeat split; try reflexivity; discriminate.
Qed.

(** ** Further properties of the store *)

Lemma get_set_same k v m : TMap.get k (TMap.set k v m) = Some v.
Proof.
  induction m as [ | [k' v'] m IH ]; simpl.
  - now rewrite String.eqb_refl.
  - destruct (k' =? k) eqn:E; simpl; rewrite E; [ reflexivity | exact IH ].
Qed.

Lemma get_set_other k k' v m :
  k <> k' -> TMap.get k' (TMap.set k v m) = TMap.get k' m.
Proof.
  intros Hne. induction m as [ | [k0 v0] m IH ]; simpl.
  - destruct (k =? k') eqn:E; [ apply String.eqb_eq in E; contradiction | reflexivity ].
  - destruct (k0 =? k) eqn:E; simpl.
    + apply String.eqb_eq in E. subst k0.
      destruct (k =? k') eqn:E'; [ apply String.eqb_eq in E'; contradiction | reflexivity ].
    + destruct (k0 =? k'); [ reflexivity | exact IH ].
Qed.

Lemma has_set k k' v m :
  TMap.has k' m = true -> TMap.has k' (TMap.set k v m) = true.
Proof.
  unfold TMap.has. intros H.
  destruct (String.eqb_spec k k') as [ -> | Hne ].
  - now rewrite get_set_same.
  - now rewrite get_set_other.
Qed.

Lemma has_modify k k' f m : TMap.has k' (TMap.modify k f m) = TMap.has k' m.
Proof.
  unfold TMap.has. rewrite get_modify.
  destruct (k =? k'); [ | reflexivity ].
  now destruct (TMap.get k' m).
Qed.

Lemma pointer_valid_mutate k f db : pointer_valid db -> pointer_valid (mutate k f db).
Proof.
  intros H i Hi. rewrite currentTopicId_mutate in Hi.
  rewrite topics_mutate, has_modify. now apply H.
Qed.

Lemma pointer_valid_op o db : pointer_valid db -> pointer_valid (apply_op o db).
Proof.
  intros H. destruct o; simpl; unfold_mutators; try (now apply pointer_valid_mutate).
  - intros i Hi. rewrite currentTopicId_reset in Hi. injection Hi as <-.
    rewrite topics_reset. unfold TMap.has. simpl. now rewrite String.eqb_refl.
  - unfold createTopic.
    destruct (find (same_name n) (TMap.values (topics db))); simpl; [ exact H | ].
    intros i Hi. apply has_set. now apply H.
  - exact H.
  - unfold setCurrentTopic. destruct (TMap.has topicId (topics db)) eqn:E; [ | exact H ].
    intros i Hi. simpl in Hi. injection Hi as <-. exact E.
Qed.

Lemma pointer_valid_run ops : forall db,
  pointer_valid db -> pointer_valid (run ops db).
Proof.
  induction ops as [ | o ops IH ]; intros db H; [ exact H | ].
  rewrite run_cons. apply IH. now apply pointer_valid_op.
Qed.

(** X1. The pointer to the active topic never dangles: after any sequence of
    public operations on a store that starts empty, [currentTopicId] is unset
    or the key of a topic of the map, and [getCurrentTopic] returns that topic
    unless the id is the empty string. *)
Theorem current_topic_pointer_never_dangles (ops : list StoreOp) (i : string)
    (Hcur : currentTopicId (run ops newTopicDatabase) = Some i) :
  exists t,
    TMap.get i (topics (run ops newTopicDatabase)) = Some t
    /\ (i <> "" -> getCurrentTopic (run ops newTopicDatabase) = Some t).
Proof.
  assert (Hv : pointer_valid (run ops newTopicDatabase)).
  { apply pointer_valid_run. intros j Hj. discriminate. }
  specialize (Hv i Hcur). unfold TMap.has in Hv.
  destruct (TMap.get i (topics (run ops newTopicDatabase))) as [ t | ] eqn:E;
    [ | discriminate ].
  exists t. split; [ reflexivity | ].
  intros Hne. now apply getCurrentTopic_intro with (i := i).
Qed.

Lemma current_topic_pointer_never_dangles_witness :
  exists t,
    TMap.get "id-3" (topics (run shiftOps newTopicDatabase)) = Some t
    /\ ("id-3" <> "" -> getCurrentTopic (run shiftOps newTopicDatabase) = Some t).
Proof. apply (current_topic_pointer_never_dangles shiftOps "id-3"). reflexivity. Defined.

Lemma find_set_new (p : Topic -> bool) k v m :
  find p (TMap.values m) = None -> p v = true ->
  find p (TMap.values (TMap.set k v m)) = Some v.
Proof.
  intros Hnone Hv. induction m as [ | [k' v'] m IH ]; simpl in *.
  - now rewrite Hv.
  - destruct (p v') eqn:E; [ discriminate | ].
    destruct (k' =? k); simpl.
    + now rewrite Hv.
    + rewrite E. now apply IH.
Qed.

Lemma find_ext_eq {A : Type} (f g : A -> bool) (l : list A) :
  (forall x, f x = g x) -> find f l = find g l.
Proof.
  intros H. induction l as [ | x l IH ]; [ reflexivity | ].
  simpl. rewrite H, IH. reflexivity.
Qed.

Lemma same_name_fold n n' t :
  JS.toLowerCase n' = JS.toLowerCase n -> same_name n' t = same_name n t.
Proof. unfold same_name. now intros ->. Qed.

(** X2. A topic that [createTopic] returns is the one a later lookup of its
    name finds, in any letter case, and a later [createTopic] of that name
    returns it again and leaves the store as it is, whatever identifier and
    main flag the second call brings. *)
Theorem createTopic_then_lookup (uuid : string) (now : Z) (n n' : string)
    (isMain : bool) (db : TopicDatabase)
    (Hcase : JS.toLowerCase n' = JS.toLowerCase n) :
  let '(t, db') := createTopic uuid now n isMain db in
  getTopicByName n' db' = Some t
  /\ forall uuid2 now2 isMain2, createTopic uuid2 now2 n' isMain2 db' = (t, db').
Proof.
  assert (Hfind : let '(t, db') := createTopic uuid now n isMain db in
                  getTopicByName n' db' = Some t).
  { unfold createTopic, getTopicByName.
    destruct (find (same_name n) (TMap.values (topics db))) as [ e | ] eqn:E.
    - rewrite <- E. apply find_ext_eq. intros t. now apply same_name_fold.
    - simpl. apply find_set_new.
      + rewrite <- E. apply find_ext_eq. intros t. now apply same_name_fold.
      + unfold same_name. simpl. rewrite Hcase. apply String.eqb_refl. }
  destruct (createTopic uuid now n isMain db) as [t db'].
  split; [ exact Hfind | ].
  intros uuid2 now2 isMain2. now apply createTopic_found.
Qed.

Lemma createTopic_then_lookup_witness :
  let '(t, db') := createTopic "id-2" 2000 "Quantum Physics" false sampleStore in
  getTopicByName "QUANTUM physics" db' = Some t
  /\ forall uuid2 now2 isMain2,
       createTopic uuid2 now2 "QUANTUM physics" isMain2 db' = (t, db').
Proof.
  exact (createTopic_then_lookup "id-2" 2000 "Quantum Physics" "QUANTUM physics"
           false sampleStore eq_refl).
Defined.

Lemma later_state_refl t : later_state t t.
Proof.
  repeat split; try (exists []; now rewrite app_nil_r).
  exists "". now rewrite string_app_empty_r.
Qed.

Lemma later_state_trans a b c : later_state a b -> later_state b c -> later_state a c.
Proof.
  intros (I1 & N1 & T1 & M1 & (ms1 & Hm1) & (cs1 & Hc1) & (qs1 & Hq1) & (k1 & Hk1))
         (I2 & N2 & T2 & M2 & (ms2 & Hm2) & (cs2 & Hc2) & (qs2 & Hq2) & (k2 & Hk2)).
  repeat split; try congruence.
  - exists (ms1 ++ ms2)%list. rewrite Hm2, Hm1. now rewrite app_assoc.
  - exists (cs1 ++ cs2)%list. rewrite Hc2, Hc1. now rewrite app_assoc.
  - exists (qs1 ++ qs2)%list. rewrite Hq2, Hq1. now rewrite app_assoc.
  - exists (k1 ++ k2). rewrite Hk2, Hk1. now rewrite string_app_assoc.
Qed.

Lemma later_state_mutate i k f db t :
  (forall x, later_state x (f x)) ->
  TMap.get i (topics db) = Some t ->
  exists t', TMap.get i (topics (mutate k f db)) = Some t' /\ later_state t t'.
Proof.
  intros Hf Hget. rewrite topics_mutate, get_modify, Hget.
  destruct (k =? i); simpl.
  - exists (f t). split; [ reflexivity | apply Hf ].
  - exists t. split; [ reflexivity | apply later_state_refl ].
Qed.

Lemma later_state_op o db i t :
  is_reset o = false -> op_fresh o db ->
  TMap.get i (topics db) = Some t ->
  exists t', TMap.get i (topics (apply_op o db)) = Some t' /\ later_state t t'.
Proof.
  intros Hreset Hfresh Hget.
  destruct o; simpl in *; try discriminate; unfold_mutators;
    try (apply later_state_mutate; [ | exact Hget ]; intros x;
         repeat split; simpl;
         try (exists []; now rewrite app_nil_r);
         try (exists ""; now rewrite string_app_empty_r);
         eauto).
  - unfold createTopic. unfold getTopicByName in Hfresh.
    destruct (find (same_name n) (TMap.values (topics db))); simpl.
    + exists t. split; [ exact Hget | apply later_state_refl ].
    + specialize (Hfresh eq_refl).
      exists t. split; [ | apply later_state_refl ].
      rewrite get_set_other; [ exact Hget | ].
      intros ->. congruence.
  - exists t. split; [ exact Hget | apply later_state_refl ].
  - exists t. split; [ | apply later_state_refl ].
    unfold setCurrentTopic. now destruct (TMap.has topicId (topics db)).
Qed.

(** X3. Between two resets nothing is lost: while the identifiers drawn are
    fresh, no sequence of the other public operations removes a topic, changes
    its id, name, creation time or main flag, or drops or reorders a message,
    flashcard or quiz question it holds; these lists and the knowledge base
    only grow at their end. *)
Theorem topics_persist_between_resets (ops : list StoreOp) (db : TopicDatabase)
    (i : string) (t : Topic)
    (Hnoreset : forallb (fun o => negb (is_reset o)) ops = true)
    (Hfresh : fresh_ids ops db)
    (Hget : TMap.get i (topics db) = Some t) :
  exists t', TMap.get i (topics (run ops db)) = Some t' /\ later_state t t'.
Proof.
  revert db t Hfresh Hget.
  induction ops as [ | o ops IH ]; intros db t Hfresh Hget.
  - exists t. split; [ exact Hget | apply later_state_refl ].
  - simpl in Hnoreset. apply andb_prop in Hnoreset as [Ho Hrest].
    destruct Hfresh as [Hf Hfs].
    destruct (later_state_op o db i t) as (t1 & Hget1 & Hl1);
      [ now apply negb_true_iff in Ho | exact Hf | exact Hget | ].
    destruct (IH Hrest (apply_op o db) t1 Hfs Hget1) as (t2 & Hget2 & Hl2).
    exists t2. split; [ exact Hget2 | now apply later_state_trans with t1 ].
Qed.

Lemma topics_persist_between_resets_witness :
  exists t',
    TMap.get "id-1"
      (topics (run [ OpCreateTopic "id-2" 2000 "Math" false;
                     OpSetCurrentTopic "id-2";
                     OpAddMessage "id-1" (StudySession.introMessage "Biology");
                     OpAppendKnowledge "id-1" "cells" ] sampleStore)) = Some t'
    /\ name t' = "Biology" /\ isMainTopic t' = true.
Proof.
  destruct (topics_persist_between_resets
              [ OpCreateTopic "id-2" 2000 "Math" false;
                OpSetCurrentTopic "id-2";
                OpAddMessage "id-1" (StudySession.introMessage "Biology");
                OpAppendKnowledge "id-1" "cells" ] sampleStore "id-1"
              {| id := "id-1"; name := "Biology"; timestamp := 1000; messages := [];
                 flashcards := []; quizzes := []; examQuestions := [];
                 isMainTopic := true; videoUri := None; notebookContent := "";
                 knowledgeBase := "" |})
    as (t' & Hget & Hl).
  - reflexivity.
  - simpl. repeat split; intros; reflexivity.
  - reflexivity.
  - exists t'. split; [ exact Hget | ].
    destruct Hl as (_ & Hn & _ & Hm & _). split; assumption.
Defined.

Section StableSort.
Context {A : Type} (cmp : A -> A -> Z) (p : A -> bool).
Hypothesis p_ties : forall x y, p x = true -> p y = true -> (cmp x y <= 0)%Z.

Lemma filter_insert x l :
  filter p (JS.insert cmp x l) = filter p (x :: l).
Proof.
  induction l as [ | y l IH ]; [ reflexivity | ].
  simpl. destruct (cmp x y <=? 0)%Z eqn:E; [ reflexivity | ].
  simpl. simpl in IH. rewrite IH.
  destruct (p x) eqn:Px; [ | reflexivity ].
  destruct (p y) eqn:Py; [ | reflexivity ].
  apply Z.leb_gt in E. specialize (p_ties x y Px Py). lia.
Qed.

Lemma filter_sort l : filter p (JS.sort cmp l) = filter p l.
Proof.
  induction l as [ | x l IH ]; [ reflexivity | ].
  simpl. rewrite filter_insert. simpl. now rewrite IH.
Qed.
End StableSort.

(** X4. [getAllTopics] lists every topic of the store once, and it is
    stable: the topics that are not main and bear the same creation time
    (two calls of [Date.now()] within a millisecond) are listed in the order
    in which they were inserted. *)
Theorem getAllTopics_complete_and_stable (db : TopicDatabase) (ts : Z) :
  Permutation (getAllTopics db) (TMap.values (topics db))
  /\ List.length (getAllTopics db) = List.length (topics db)
  /\ filter (created_at ts) (getAllTopics db)
     = filter (created_at ts) (TMap.values (topics db)).
Proof.
  split; [ apply getAllTopics_perm | ].
  split.
  - rewrite (Permutation_length (getAllTopics_perm db)).
    unfold TMap.values. apply length_map.
  - apply filter_sort. intros x y Hx Hy.
    unfold created_at in Hx, Hy.
    apply andb_prop in Hx as [Mx Tx]. apply andb_prop in Hy as [My Ty].
    apply negb_true_iff in Mx. apply negb_true_iff in My.
    apply Z.eqb_eq in Tx. apply Z.eqb_eq in Ty.
    unfold compareTopics. rewrite Mx, My. lia.
Qed.

(** ** Further properties of the classifier and of the orchestrator *)

Lemma slice_last_slice_last {A : Type} (n m : nat) (l : list A) :
  n <= m -> JS.slice_last n (JS.slice_last m l) = JS.slice_last n l.
Proof.
  intros Hle. unfold JS.slice_last.
  rewrite skipn_skipn, length_skipn. f_equal. lia.
Qed.

Lemma map_slice_last {A B : Type} (f : A -> B) (n : nat) (l : list A) :
  map f (JS.slice_last n l) = JS.slice_last n (map f l).
Proof. unfold JS.slice_last. now rewrite skipn_map, length_map. Qed.

(** X5. The classifier reads no more of the conversation than the texts of
    its last three messages, though the handler passes it the last five; the
    message being sent is not among them, it is passed apart. Two sessions
    that agree on these texts and on the chat box get the same analysis from
    the same classifier. *)
Theorem classifier_reads_last_three_messages (env : Env)
    (s1 s2 : StudySession.t) (o : AgentOrchestrator.t)
    (Hinput : StudySession.inputMessage s1 = StudySession.inputMessage s2)
    (Hlast : JS.slice_last 3 (map text (StudySession.chatMessages s1))
             = JS.slice_last 3 (map text (StudySession.chatMessages s2))) :
  classification env s1 o = classification env s2 o.
Proof.
  unfold classification, analyzeTopicShift, historyContext.
  rewrite !slice_last_slice_last by lia.
  rewrite !map_slice_last, Hlast, Hinput. reflexivity.
Qed.

Lemma classifier_reads_last_three_messages_witness :
  let longer :=
    StudySession.answered (asking "What is a forum?")
      {| AgentOrchestrator.response := replyMessage "A public square." [];
         AgentOrchestrator.resultAnalysis :=
           {| isNewTopic := false; topicName := "History" |};
         AgentOrchestrator.resultSources := [] |} historyOrchestrator in
  let shorter :=
    {| StudySession.slides := [romeSlide];
       StudySession.currentSlideIndex := 0;
       StudySession.chatMessages := StudySession.chatMessages longer;
       StudySession.inputMessage := "";
       StudySession.isChatLoading := false;
       StudySession.currentTopicName := "Rome";
       StudySession.agentMode := RESEARCH;
       StudySession.slideChatHistoryRef := [];
       StudySession.orchestratorRef := None |} in
  classification echoEnv longer historyOrchestrator
  = classification echoEnv shorter historyOrchestrator.
Proof.
  intros longer shorter.
  apply (classifier_reads_last_three_messages echoEnv longer shorter
           historyOrchestrator); reflexivity.
Defined.

(** X6. A turn whose classifier does not report a new topic, an empty or
    missing response included, changes no topic state: the prompt carries no
    pivot note, the orchestrator is as it was, the session keeps its topic
    name and, when a topic is active, the store keeps its pointer. *)
Theorem no_new_topic_changes_nothing (env : Env) (s : StudySession.t)
    (db : TopicDatabase) (o : AgentOrchestrator.t)
    (Horch : StudySession.orchestratorRef s = Some o)
    (Hno : isNewTopic (classification env s o) = false) :
  (forall slide,
     let r := turnRoute env s o slide db in
     AgentOrchestrator.systemInjection r = ""
     /\ AgentOrchestrator.workingTopicName r = AgentOrchestrator.currentTopicName o
     /\ AgentOrchestrator.routedOrchestrator r = o)
  /\ let '(s', db', _) := StudySession.handleSendMessage env s db in
     StudySession.orchestratorRef s' = Some o
     /\ StudySession.currentTopicName s' = StudySession.currentTopicName s
     /\ (getCurrentTopic db <> None -> currentTopicId db' = currentTopicId db).
Proof.
  assert (Hns : AgentOrchestrator.shiftDetected (classification env s o) o = false).
  { unfold AgentOrchestrator.shiftDetected. now rewrite Hno. }
  assert (Hnh : StudySession.shiftHandled (classification env s o) s = false).
  { unfold StudySession.shiftHandled. now rewrite Hno. }
  split.
  - intros slide r.
    destruct (route_no_shift env (StudySession.inputMessage s)
                (StudySession.agentMode s)
                (JS.slice_last 5 (StudySession.chatMessages s)) (slide_title slide) o
                (StudySession.addToCurrent (StudySession.userMessage s) db) Hns)
      as (Hw & Hi & Ho & _).
    now repeat split.
  - unfold StudySession.handleSendMessage. rewrite Horch.
    destruct (negb (JS.truthy (JS.trim (StudySession.inputMessage s))));
      [ now repeat split | ].
    destruct (nth_error (StudySession.slides s) (StudySession.currentSlideIndex s))
      as [slide | ].
    + cbv zeta.
      rewrite (processUserQuery_orchestrator env (StudySession.inputMessage s)
                 (StudySession.agentMode s)
                 (JS.slice_last 5 (StudySession.chatMessages s)) (slide_title slide) o
                 (StudySession.addToCurrent (StudySession.userMessage s) db) Hns).
      destruct (AgentOrchestrator.result _) as [res | ] eqn:R.
      * pose proof (processUserQuery_analysis _ _ _ _ _ _ _ _ R) as Ha.
        fold (classification env s o) in Ha.
        unfold StudySession.answered. rewrite !Ha, Hnh. simpl.
        split; [ reflexivity | ]. split; [ reflexivity | ].
        intros Hcur. destruct (getCurrentTopic db) as [t | ] eqn:Et; [ | congruence ].
        destruct (getCurrentTopic_addToCurrent_some (StudySession.userMessage s) db t Et)
          as (t1 & Hcur1 & _).
        rewrite currentTopicId_addToCurrent.
        rewrite (processUserQuery_store _ _ _ _ _ _ _ _ Hcur1).
        apply currentTopicId_addToCurrent.
      * simpl. split; [ reflexivity | ]. split; [ reflexivity | ].
        intros Hcur. destruct (getCurrentTopic db) as [t | ] eqn:Et; [ | congruence ].
        destruct (getCurrentTopic_addToCurrent_some (StudySession.userMessage s) db t Et)
          as (t1 & Hcur1 & _).
        rewrite (processUserQuery_store _ _ _ _ _ _ _ _ Hcur1).
        apply currentTopicId_addToCurrent.
    + simpl. split; [ reflexivity | ]. split; [ reflexivity | ].
      intros _. apply currentTopicId_addToCurrent.
Qed.

Lemma no_new_topic_changes_nothing_witness :
  let env :=
    {| classifierCall := fun _ _ _ => Returned None;
       jsonParse := fun _ => Some {| isNewTopic := true; topicName := "Biology" |};
       performResearch := fun _ => {| research_text := ""; research_sources := [] |};
       sendMessage := fun _ => Some "Rome fell in 476.";
       uuid_background := "id-8"; now_background := 8000;
       uuid_shift := "id-2"; now_shift := 2000 |} in
  let s := asking "When did Rome fall?" in
  classification env s historyOrchestrator = {| isNewTopic := false; topicName := "" |}
  /\ let '(s', db', _) := StudySession.handleSendMessage env s historyStore in
     StudySession.orchestratorRef s' = Some historyOrchestrator
     /\ StudySession.currentTopicName s' = "History"
     /\ currentTopicId db' = Some "id-1".
Proof.
  intros env s. split; [ reflexivity | ].
  pose proof (no_new_topic_changes_nothing env s historyStore historyOrchestrator
                eq_refl eq_refl) as H.
  destruct H as [_ H].
  destruct (StudySession.handleSendMessage env s historyStore) as [[s' db'] p].
  destruct H as (Ho & Hn & Hp).
  split; [ exact Ho | ]. split; [ exact Hn | ].
  apply Hp. discriminate.
Defined.

(** X7. A reply carries citations only in RESEARCH mode, and then exactly the
    sources the researcher returned; a reply never carries an empty list of
    sources. *)
Theorem citations_only_in_research_mode (env : Env) (userText : string)
    (mode : AgentMode) (hist : list ChatMessage) (slideContext : string)
    (o : AgentOrchestrator.t) (db : TopicDatabase)
    (res : AgentOrchestrator.QueryResult)
    (Hres : AgentOrchestrator.result
              (AgentOrchestrator.processUserQuery env userText mode hist
                 slideContext o db) = Some res) :
  sources (AgentOrchestrator.response res)
  = match mode with
    | RESEARCH =>
        match research_sources (performResearch env userText) with
        | [] => None
        | found => Some found
        end
    | _ => None
    end
  /\ sources (AgentOrchestrator.response res) <> Some []
  /\ role (AgentOrchestrator.response res) = model.
Proof.
  unfold AgentOrchestrator.processUserQuery in Hres.
  destruct (AgentOrchestrator.parentChat o); [ | discriminate ].
  destruct (sendMessage env _) as [txt | ]; [ | discriminate ].
  destruct (AgentOrchestrator.triggerBackgroundGeneration env _ db).
  simpl in Hres. injection Hres as <-. simpl.
  unfold AgentOrchestrator.route, AgentOrchestrator.childAgent.
  destruct mode; simpl.
  - repeat split; discriminate.
  - destruct (research_sources (performResearch env userText));
      repeat split; discriminate.
  - repeat split; discriminate.
Qed.

Lemma citations_only_in_research_mode_witness :
  exists res,
    AgentOrchestrator.result
      (AgentOrchestrator.processUserQuery echoEnv "When did Rome fall?" NOTEBOOK []
         "Ancient Rome" historyOrchestrator historyStore) = Some res
    /\ sources (AgentOrchestrator.response res) = None.
Proof.
  eexists. split; [ reflexivity | ].
  exact (proj1 (citations_only_in_research_mode echoEnv "When did Rome fall?"
                  NOTEBOOK [] "Ancient Rome" historyOrchestrator historyStore _
                  eq_refl)).
Defined.

Lemma text_or_nonempty o d : d <> "" -> GeminiService.text_or o d <> "".
Proof.
  intros Hd. unfold GeminiService.text_or, JS.or_else.
  destruct o as [ s | ]; [ | exact Hd ].
  destruct (JS.truthy s) eqn:E; [ now apply truthy_true | exact Hd ].
Qed.

Lemma collectSources_shape chunks :
  Forall (fun s => title s <> "" /\ uri s <> "") (GeminiService.collectSources chunks)
  /\ List.length (GeminiService.collectSources chunks) <= List.length chunks.
Proof.
  induction chunks as [ | c chunks [IHf IHl] ]; simpl.
  - split; [ constructor | lia ].
  - destruct (GeminiService.chunkSource c) as [ src | ] eqn:E; simpl.
    + split; [ | lia ]. constructor; [ | exact IHf ].
      unfold GeminiService.chunkSource in E.
      destruct (GeminiService.web c) as [ w | ]; [ | discriminate ].
      destruct (GeminiService.web_uri w) as [ u | ]; [ | discriminate ].
      destruct (GeminiService.web_title w) as [ t | ]; [ | discriminate ].
      destruct (JS.truthy u) eqn:Eu; [ | discriminate ].
      destruct (JS.truthy t) eqn:Et; [ | discriminate ].
      simpl in E. injection E as <-. simpl.
      split; now apply truthy_true.
    + split; [ exact IHf | lia ].
Qed.

(** X8. Whatever the search call does, [performResearch] returns a text that
    is not empty, and every source it returns has a title and a link that are
    not empty; there are no more sources than grounding chunks, and none when
    the call throws or the response has no chunks. *)
Theorem performResearch_result_shape (call : GeminiService.ResearchCall) :
  let r := GeminiService.performResearch call in
  research_text r <> ""
  /\ Forall (fun s => title s <> "" /\ uri s <> "") (research_sources r)
  /\ List.length (research_sources r)
     <= match call with
        | GeminiService.ResearchReturned response =>
            match GeminiService.groundingChunks response with
            | Some chunks => List.length chunks
            | None => 0
            end
        | GeminiService.ResearchThrew => 0
        end.
Proof.
  destruct call as [ | response ]; simpl.
  - split; [ discriminate | ]. split; [ constructor | lia ].
  - split; [ apply text_or_nonempty; discriminate | ].
    destruct (GeminiService.groundingChunks response) as [ chunks | ].
    + apply collectSources_shape.
    + split; [ constructor | simpl; lia ].
Qed.

(** ** Further properties of a turn *)

Lemma createTopic_blank uuid now n isMain db :
  getTopicByName n db = None ->
  createTopic uuid now n isMain db
  = (blankTopic uuid now n isMain,
     with_topics (TMap.set uuid (blankTopic uuid now n isMain) (topics db)) db).
Proof. unfold getTopicByName, createTopic. now intros ->. Qed.

Lemma switchStore_blank env n db :
  getTopicByName n db = None ->
  uuid_shift env <> "" ->
  TMap.get (uuid_shift env) (topics db) = None ->
  let t := blankTopic (uuid_shift env) (now_shift env) n false in
  topics (StudySession.switchStore env n db)
  = (topics db ++ [(uuid_shift env, t)])%list
  /\ getCurrentTopic (StudySession.switchStore env n db) = Some t.
Proof.
  intros Hn Hne Hfresh t. unfold StudySession.switchStore. rewrite Hn.
  rewrite (createTopic_blank _ _ _ _ _ Hn). fold t.
  rewrite (set_absent _ _ _ Hfresh).
  assert (TMap.get (uuid_shift env)
            (topics db ++ [(uuid_shift env, t)])%list = Some t) as Hg.
  { rewrite (get_app_absent _ _ _ Hfresh). simpl. now rewrite String.eqb_refl. }
  unfold setCurrentTopic, TMap.has. simpl. rewrite Hg. simpl.
  split; [ reflexivity | ].
  now apply (getCurrentTopic_intro _ (uuid_shift env)).
Qed.

Lemma turnRoute_shift env s o slide db :
  AgentOrchestrator.shiftDetected (classification env s o) o = true ->
  AgentOrchestrator.routedOrchestrator (turnRoute env s o slide db)
  = AgentOrchestrator.updateTopic (topicName (classification env s o)) o.
Proof.
  intros Hshift. unfold turnRoute, AgentOrchestrator.route.
  fold (classification env s o). rewrite Hshift.
  now destruct (AgentOrchestrator.childAgent env _ _ _).
Qed.

(** X9. When the orchestrator and the session name the same topic and the
    conversation engine fails on a turn in which the orchestrator has
    detected a shift, the orchestrator has already moved to the new topic name
    and stays there, while the session keeps its topic name and the store its
    pointer: after the error message the orchestrator and the session name
    different topics. *)
Theorem failed_shift_turn_moves_the_orchestrator_alone (env : Env)
    (s : StudySession.t) (db : TopicDatabase) (o : AgentOrchestrator.t)
    (chat : AgentOrchestrator.Chat) (slide : LessonSlide)
    (Horch : StudySession.orchestratorRef s = Some o)
    (Hchat : AgentOrchestrator.parentChat o = Some chat)
    (Hinput : JS.truthy (JS.trim (StudySession.inputMessage s)) = true)
    (Hslide : nth_error (StudySession.slides s) (StudySession.currentSlideIndex s)
              = Some slide)
    (Hsame : AgentOrchestrator.currentTopicName o = StudySession.currentTopicName s)
    (Hshift : AgentOrchestrator.shiftDetected (classification env s o) o = true)
    (Hfail : sendMessage env (AgentOrchestrator.prompt (turnRoute env s o slide db))
             = None) :
  let '(s', db', pending) := StudySession.handleSendMessage env s db in
  option_map AgentOrchestrator.currentTopicName (StudySession.orchestratorRef s')
  = Some (topicName (classification env s o))
  /\ topicName (classification env s o) <> AgentOrchestrator.currentTopicName o
  /\ StudySession.currentTopicName s' = StudySession.currentTopicName s
  /\ option_map AgentOrchestrator.currentTopicName (StudySession.orchestratorRef s')
     <> Some (StudySession.currentTopicName s')
  /\ currentTopicId db' = currentTopicId db
  /\ pending = None.
Proof.
  rewrite (handleSendMessage_failed env s db o chat slide Horch Hchat Hinput Hslide
             Hfail).
  rewrite (turnRoute_shift env s o slide db Hshift). simpl.
  assert (Hne : topicName (classification env s o)
                <> AgentOrchestrator.currentTopicName o).
  { unfold AgentOrchestrator.shiftDetected in Hshift.
    apply andb_prop in Hshift as [_ Hne]. apply negb_true_iff in Hne.
    now apply String.eqb_neq. }
  split; [ reflexivity | ]. split; [ exact Hne | ].
  split; [ reflexivity | ]. split.
  - rewrite <- Hsame. intros E. injection E as E. contradiction.
  - split; [ apply currentTopicId_addToCurrent | reflexivity ].
Qed.

Lemma failed_shift_turn_moves_the_orchestrator_alone_witness :
  let env := biologyEnv None in
  let s := asking "What is a cell?" in
  let '(s', db', pending) := StudySession.handleSendMessage env s historyStore in
  option_map AgentOrchestrator.currentTopicName (StudySession.orchestratorRef s')
  = Some "Biology"
  /\ StudySession.currentTopicName s' = "History"
  /\ option_map AgentOrchestrator.currentTopicName (StudySession.orchestratorRef s')
     <> Some (StudySession.currentTopicName s')
  /\ currentTopicId db' = Some "id-1".
Proof.
  intros env s.
  pose proof (failed_shift_turn_moves_the_orchestrator_alone env s historyStore
                historyOrchestrator AgentOrchestrator.ChatSession romeSlide
                eq_refl eq_refl eq_refl eq_refl eq_refl eq_refl eq_refl) as H.
  destruct (StudySession.handleSendMessage env s historyStore) as [[s' db'] p].
  destruct H as (Ho & _ & Hn & Hdiff & Hp & _).
  split; [ exact Ho | ]. split; [ exact Hn | ]. split; [ exact Hdiff | exact Hp ].
Defined.

Lemma getTopicByName_addToCurrent_none n m db :
  getTopicByName n db = None ->
  getTopicByName n (StudySession.addToCurrent m db) = None.
Proof.
  intros Hn. unfold StudySession.addToCurrent.
  destruct (getCurrentTopic db) as [ cur | ]; [ | exact Hn ].
  destruct (JS.truthy (id cur)); [ | exact Hn ].
  pose proof (getTopicByName_mutate n (id cur) (push_message m) db
                (fun t => eq_refl)) as H.
  now rewrite Hn in H.
Qed.

(** X10. On a turn that shifts to a topic the store does not hold yet, the
    flashcards and quiz questions generated for the new subject are destined
    to the topic that was active before the shift: when they arrive they are
    appended to that topic, and the topic the session has moved to gets
    none. *)
Theorem enrichment_is_filed_under_the_previous_topic (env : Env)
    (s : StudySession.t) (db : TopicDatabase) (o : AgentOrchestrator.t)
    (chat : AgentOrchestrator.Chat) (slide : LessonSlide) (pre : Topic)
    (txt : string)
    (Horch : StudySession.orchestratorRef s = Some o)
    (Hchat : AgentOrchestrator.parentChat o = Some chat)
    (Hinput : JS.truthy (JS.trim (StudySession.inputMessage s)) = true)
    (Hslide : nth_error (StudySession.slides s) (StudySession.currentSlideIndex s)
              = Some slide)
    (Hwf : wf db)
    (Hactive : getCurrentTopic db = Some pre)
    (Hsynth : sendMessage env (AgentOrchestrator.prompt (turnRoute env s o slide db))
              = Some txt)
    (Hshift : StudySession.shiftHandled (classification env s o) s = true)
    (Hnew : getTopicByName (topicName (classification env s o)) db = None)
    (Huuid : uuid_shift env <> "")
    (Hfresh : TMap.get (uuid_shift env) (topics db) = None) :
  let '(s', db', pending) := StudySession.handleSendMessage env s db in
  pending = Some (id pre)
  /\ exists post,
       getCurrentTopic db' = Some post
       /\ name post = topicName (classification env s o)
       /\ id post <> id pre
       /\ forall materials,
            let db'' :=
              AgentOrchestrator.completeBackgroundGeneration (id pre) materials db' in
            tc_flashcards (getTopicContent (id pre) db'')
            = (flashcards pre ++ ms_flashcards materials)%list
            /\ tc_quizzes (getTopicContent (id pre) db'')
               = (quizzes pre ++ ms_quiz materials)%list
            /\ tc_flashcards (getTopicContent (id post) db'') = []
            /\ tc_quizzes (getTopicContent (id post) db'') = [].
Proof.
  rewrite (handleSendMessage_answered env s db o chat slide pre Horch Hchat Hinput
             Hslide Hwf Hactive txt Hsynth).
  cbv zeta. rewrite Hshift.
  set (n := topicName (classification env s o)) in *.
  set (reply := replyMessage txt _).
  set (db1 := StudySession.addToCurrent (StudySession.userMessage s) db).
  destruct (wf_current _ _ Hwf Hactive) as (_ & Hgpre & _).
  assert (Hne : uuid_shift env <> id pre).
  { intros E. rewrite E in Hfresh. congruence. }
  destruct (addToCurrent_active (StudySession.userMessage s) db pre Hwf Hactive)
    as (_ & Htopics1 & _).
  fold db1 in Htopics1.
  assert (Hfresh1 : TMap.get (uuid_shift env) (topics db1) = None)
    by now apply get_addToCurrent_none.
  assert (Hnew1 : getTopicByName n db1 = None)
    by now apply getTopicByName_addToCurrent_none.
  assert (Hwf1 : wf db1) by now apply wf_addToCurrent.
  destruct (switchStore_blank env n db1 Hnew1 Huuid Hfresh1) as [HtopicsS HcurS].
  set (blank := blankTopic (uuid_shift env) (now_shift env) n false) in *.
  assert (HwfS : wf (StudySession.switchStore env n db1)).
  { apply wf_switchStore; [ exact Hwf1 | exact Huuid | intros _; exact Hfresh1 ]. }
  destruct (addToCurrent_active reply _ blank HwfS HcurS) as (_ & Htopics2 & Hcur2).
  split; [ reflexivity | ].
  exists (push_message reply blank).
  split; [ exact Hcur2 | ]. split; [ reflexivity | ].
  split; [ exact Hne | ].
  intros materials.
  set (db'' := AgentOrchestrator.completeBackgroundGeneration (id pre) materials _).
  assert (Hpre'' : TMap.get (id pre) (topics db'')
                   = Some (push_quizzes (ms_quiz materials)
                             (push_flashcards (ms_flashcards materials)
                                (push_message (StudySession.userMessage s) pre)))).
  { unfold db'', AgentOrchestrator.completeBackgroundGeneration,
      addQuizQuestionsToTopic, addFlashcardsToTopic.
    rewrite !topics_mutate, !get_modify_same, Htopics2.
    rewrite get_modify_other by exact Hne.
    rewrite HtopicsS, Htopics1.
    rewrite (get_app_present _ _ _ (push_message (StudySession.userMessage s) pre)).
    - reflexivity.
    - now rewrite get_modify_same, Hgpre. }
  assert (Hpost'' : TMap.get (uuid_shift env) (topics db'')
                    = Some (push_message reply blank)).
  { unfold db'', AgentOrchestrator.completeBackgroundGeneration,
      addQuizQuestionsToTopic, addFlashcardsToTopic.
    rewrite !topics_mutate.
    rewrite !get_modify_other by (intros E; apply Hne; now rewrite E).
    rewrite Htopics2, get_modify_same, HtopicsS.
    rewrite (get_app_absent _ _ _ Hfresh1). simpl. now rewrite String.eqb_refl. }
  change (id (push_message reply blank)) with (uuid_shift env).
  unfold getTopicContent. rewrite Hpre'', Hpost''. simpl.
  repeat split.
Qed.

Lemma enrichment_is_filed_under_the_previous_topic_witness :
  let env := biologyEnv (Some "Cells are the units of life.") in
  let s := asking "What is a cell?" in
  let materials :=
    {| ms_flashcards := [ {| front := "Cell"; back := "The unit of life." |} ];
       ms_quiz := [] |} in
  let '(s', db', pending) := StudySession.handleSendMessage env s historyStore in
  pending = Some "id-1"
  /\ option_map name (getCurrentTopic db') = Some "Biology"
  /\ tc_flashcards
       (getTopicContent "id-1"
          (AgentOrchestrator.completeBackgroundGeneration "id-1" materials db'))
     = ms_flashcards materials.
Proof.
  intros env s materials.
  pose proof (enrichment_is_filed_under_the_previous_topic env s historyStore
                historyOrchestrator AgentOrchestrator.ChatSession romeSlide
                historyTopic "Cells are the units of life."
                eq_refl eq_refl eq_refl eq_refl historyStore_wf eq_refl eq_refl
                eq_refl eq_refl) as H.
  destruct (StudySession.handleSendMessage env s historyStore) as [[s' db'] p].
  destruct H as (Hp & post & Hcur & Hname & _ & Hm).
  - discriminate.
  - reflexivity.
  - split; [ exact Hp | ]. split.
    + rewrite Hcur. simpl. now rewrite Hname.
    + exact (proj1 (Hm materials)).
Defined.

(** X11. When no topic is active, the enrichment step of the orchestrator
    makes one active before it generates anything: the topic of the working
    name, found by name in any letter case or created, becomes the active
    topic and the target of the materials. *)
Theorem background_generation_activates_a_topic (env : Env) (n : string)
    (db : TopicDatabase)
    (Hwf : wf db)
    (Hnone : getCurrentTopic db = None)
    (Huuid : uuid_background env <> "")
    (Hfresh : getTopicByName n db = None ->
              TMap.get (uuid_background env) (topics db) = None) :
  let '(db1, target) := AgentOrchestrator.triggerBackgroundGeneration env n db in
  exists t,
    getCurrentTopic db1 = Some t
    /\ same_name n t = true
    /\ target = Some (id t)
    /\ (forall e, getTopicByName n db = Some e -> t = e /\ topics db1 = topics db)
    /\ (getTopicByName n db = None ->
        t = blankTopic (uuid_background env) (now_background env) n false).
Proof.
  unfold AgentOrchestrator.triggerBackgroundGeneration. rewrite Hnone.
  destruct (getTopicByName n db) as [ e | ] eqn:E.
  - rewrite (createTopic_found _ _ _ _ _ _ E).
    destruct (getTopicByName_In _ _ _ E) as [Hin Hsame].
    destruct (wf_value _ _ Hwf Hin) as [Hg Hne].
    assert (Hcur : getCurrentTopic (setCurrentTopic (id e) db) = Some e).
    { unfold setCurrentTopic, TMap.has. rewrite Hg.
      now apply (getCurrentTopic_intro _ (id e)). }
    rewrite Hcur. exists e.
    split; [ exact Hcur | ]. split; [ exact Hsame | ].
    split; [ now rewrite (proj2 (truthy_true _) Hne) | ].
    split; [ | discriminate ].
    intros e' He'. injection He' as <-. split; [ reflexivity | ].
    unfold setCurrentTopic, TMap.has. now rewrite Hg.
  - rewrite (createTopic_blank _ _ _ _ _ E).
    set (t := blankTopic (uuid_background env) (now_background env) n false).
    specialize (Hfresh eq_refl).
    assert (Hcur : getCurrentTopic
                     (setCurrentTopic (id t)
                        (with_topics (TMap.set (uuid_background env) t (topics db)) db))
                   = Some t).
    { unfold setCurrentTopic, TMap.has. simpl. rewrite get_set_same.
      apply (getCurrentTopic_intro _ (uuid_background env));
        [ reflexivity | exact Huuid | simpl; apply get_set_same ]. }
    rewrite Hcur. exists t.
    split; [ exact Hcur | ]. split.
    + unfold same_name. simpl. apply String.eqb_refl.
    + split; [ simpl; now rewrite (proj2 (truthy_true _) Huuid) | ].
      split; [ discriminate | reflexivity ].
Qed.

Lemma background_generation_activates_a_topic_witness :
  let '(db1, target) :=
    AgentOrchestrator.triggerBackgroundGeneration echoEnv "Chemistry"
      newTopicDatabase in
  exists t, getCurrentTopic db1 = Some t /\ name t = "Chemistry"
            /\ target = Some "id-8".
Proof.
  pose proof (background_generation_activates_a_topic echoEnv "Chemistry"
                newTopicDatabase) as H.
  destruct (AgentOrchestrator.triggerBackgroundGeneration echoEnv "Chemistry"
              newTopicDatabase) as [db1 target].
  destruct H as (t & Hcur & _ & Htarget & _ & Hblank).
  - split; constructor.
  - reflexivity.
  - discriminate.
  - intros _. reflexivity.
  - exists t. rewrite (Hblank eq_refl) in *. now repeat split.
Defined.

Lemma processUserQuery_reply_role env userText mode hist slideContext o db res :
  AgentOrchestrator.result
    (AgentOrchestrator.processUserQuery env userText mode hist slideContext o db)
  = Some res ->
  role (AgentOrchestrator.response res) = model.
Proof.
  unfold AgentOrchestrator.processUserQuery.
  destruct (AgentOrchestrator.parentChat o); [ | discriminate ].
  destruct (sendMessage env _) as [txt | ]; [ | discriminate ].
  destruct (AgentOrchestrator.triggerBackgroundGeneration env _ db).
  simpl. now intros [= <-].
Qed.

(** X12. A message that is blank, or sent while no orchestrator is set up,
    is ignored: the session and the store stay as they are. Every other turn,
    however its remote calls go, adds to the transcript the learner's message
    followed by exactly one message of the tutor, clears the chat box, ends
    with the loading flag down and leaves the slides where they are. *)
Theorem turn_appends_question_and_one_reply (env : Env) (s : StudySession.t)
    (db : TopicDatabase) :
  let '(s', db', pending) := StudySession.handleSendMessage env s db in
  if JS.truthy (JS.trim (StudySession.inputMessage s))
     && match StudySession.orchestratorRef s with Some _ => true | None => false end
  then
    exists reply,
      role reply = model
      /\ StudySession.chatMessages s'
         = (StudySession.chatMessages s ++ [StudySession.userMessage s; reply])%list
      /\ StudySession.inputMessage s' = ""
      /\ StudySession.isChatLoading s' = false
      /\ StudySession.slides s' = StudySession.slides s
      /\ StudySession.currentSlideIndex s' = StudySession.currentSlideIndex s
      /\ StudySession.agentMode s' = StudySession.agentMode s
  else s' = s /\ db' = db /\ pending = None.
Proof.
  unfold StudySession.handleSendMessage.
  destruct (StudySession.orchestratorRef s) as [ orch | ];
    [ | rewrite andb_false_r; now repeat split ].
  rewrite andb_true_r.
  destruct (JS.truthy (JS.trim (StudySession.inputMessage s))); simpl;
    [ | now repeat split ].
  destruct (nth_error (StudySession.slides s) (StudySession.currentSlideIndex s))
    as [ slide | ].
  - cbv zeta. destruct (AgentOrchestrator.result _) as [ res | ] eqn:R.
    + exists (AgentOrchestrator.response res). simpl.
      split; [ exact (processUserQuery_reply_role _ _ _ _ _ _ _ _ R) | ].
      rewrite <- app_assoc. now repeat split.
    + exists StudySession.errorMessage. simpl.
      rewrite <- app_assoc. now repeat split.
  - exists StudySession.errorMessage. simpl.
    rewrite <- app_assoc. now repeat split.
Qed.

(** X13. On a turn that is answered and shifts no topic, both messages of
    the exchange are appended, in order, to the topic that was active, which
    stays active; no other topic of the store changes. *)
Theorem answered_turn_is_recorded_under_the_active_topic (env : Env)
    (s : StudySession.t) (db : TopicDatabase) (o : AgentOrchestrator.t)
    (chat : AgentOrchestrator.Chat) (slide : LessonSlide) (pre : Topic)
    (txt : string)
    (Horch : StudySession.orchestratorRef s = Some o)
    (Hchat : AgentOrchestrator.parentChat o = Some chat)
    (Hinput : JS.truthy (JS.trim (StudySession.inputMessage s)) = true)
    (Hslide : nth_error (StudySession.slides s) (StudySession.currentSlideIndex s)
              = Some slide)
    (Hwf : wf db)
    (Hactive : getCurrentTopic db = Some pre)
    (Hsynth : sendMessage env (AgentOrchestrator.prompt (turnRoute env s o slide db))
              = Some txt)
    (Hstay : StudySession.shiftHandled (classification env s o) s = false) :
  let reply :=
    replyMessage txt (AgentOrchestrator.routedSources (turnRoute env s o slide db)) in
  let '(s', db', _) := StudySession.handleSendMessage env s db in
  getCurrentTopic db'
  = Some (push_message reply (push_message (StudySession.userMessage s) pre))
  /\ (forall k, k <> id pre -> TMap.get k (topics db') = TMap.get k (topics db))
  /\ TMap.keys (topics db') = TMap.keys (topics db).
Proof.
  intros reply.
  rewrite (handleSendMessage_answered env s db o chat slide pre Horch Hchat Hinput
             Hslide Hwf Hactive txt Hsynth).
  cbv zeta. rewrite Hstay. fold reply.
  destruct (addToCurrent_active (StudySession.userMessage s) db pre Hwf Hactive)
    as (_ & Htopics1 & Hcur1).
  pose proof (wf_addToCurrent (StudySession.userMessage s) db Hwf) as Hwf1.
  destruct (addToCurrent_active reply _ _ Hwf1 Hcur1) as (_ & Htopics2 & Hcur2).
  split; [ exact Hcur2 | ]. simpl id in Htopics2. split.
  - intros k Hk. rewrite Htopics2, Htopics1.
    rewrite !get_modify_other by (intros E; apply Hk; now rewrite E).
    reflexivity.
  - rewrite Htopics2, Htopics1. now rewrite !keys_modify.
Qed.

Lemma answered_turn_is_recorded_under_the_active_topic_witness :
  let s := asking "When did Rome fall?" in
  let '(s', db', _) := StudySession.handleSendMessage echoEnv s historyStore in
  option_map (fun t => map text (messages t)) (getCurrentTopic db')
  = Some [ text (StudySession.introMessage "History"); "When did Rome fall?";
           "Rome fell in 476." ].
Proof.
  intros s.
  pose proof (answered_turn_is_recorded_under_the_active_topic echoEnv s
                historyStore historyOrchestrator AgentOrchestrator.ChatSession
                romeSlide historyTopic "Rome fell in 476."
                eq_refl eq_refl eq_refl eq_refl historyStore_wf eq_refl eq_refl
                eq_refl) as H.
  cbv zeta in H.
  destruct (StudySession.handleSendMessage echoEnv s historyStore) as [[s' db'] p].
  destruct H as (Hcur & _). rewrite Hcur. reflexivity.
Defined.

(** ** Properties of the lesson page *)

Lemma handleSendMessage_slides env s db :
  StudySession.slides (fst (fst (StudySession.handleSendMessage env s db)))
  = StudySession.slides s
  /\ StudySession.currentSlideIndex (fst (fst (StudySession.handleSendMessage env s db)))
     = StudySession.currentSlideIndex s.
Proof.
  unfold StudySession.handleSendMessage.
  destruct (StudySession.orchestratorRef s); [ | now split ].
  destruct (negb (JS.truthy (JS.trim (StudySession.inputMessage s)))); [ now split | ].
  destruct (nth_error (StudySession.slides s) (StudySession.currentSlideIndex s));
    [ | now split ].
  cbv zeta. destruct (AgentOrchestrator.result _); now split.
Qed.

Lemma sound_mutate s k f db :
  (forall t, id (f t) = id t) -> (forall t, name (f t) = name t) ->
  wf db -> getCurrentTopic db <> None -> agree s db ->
  wf (mutate k f db) /\ getCurrentTopic (mutate k f db) <> None
  /\ agree s (mutate k f db).
Proof.
  intros Hid Hname Hwf Hcur Hagree.
  split; [ now apply wf_mutate | ].
  destruct (getCurrentTopic db) as [ t | ] eqn:E; [ | congruence ].
  destruct (getCurrentTopic_mutate k f db t E) as (t' & Hcur' & Hor).
  split; [ now rewrite Hcur' | ].
  intros t'' H. rewrite Hcur' in H. injection H as <-.
  destruct Hor as [ -> | -> ].
  - now apply Hagree.
  - rewrite (same_name_eq_name _ t (f t) (Hname t)). now apply Hagree.
Qed.

Lemma sound_saveSummary s summary db :
  wf db -> getCurrentTopic db <> None -> agree s db ->
  wf (Lesson.saveSummary summary db)
  /\ getCurrentTopic (Lesson.saveSummary summary db) <> None
  /\ agree s (Lesson.saveSummary summary db).
Proof.
  intros Hwf Hcur Hagree. unfold Lesson.saveSummary.
  destruct (getCurrentTopic db) as [ cur | ] eqn:E; [ | congruence ].
  destruct (JS.truthy (id cur)).
  - apply sound_mutate; try assumption; try reflexivity. now rewrite E.
  - split; [ exact Hwf | ]. split; [ now rewrite E | exact Hagree ].
Qed.

Lemma lesson_ok_step e st :
  event_fresh e (snd st) -> lesson_ok st -> lesson_ok (lessonStep e st).
Proof.
  destruct st as [l db]. unfold lesson_ok. simpl snd. simpl fst.
  intros Hfresh (Hwf & Hcur & Hagree & Hidx).
  destruct e as [ env txt | env | | c ]; simpl lessonStep.
  - destruct Hfresh as [Huuid Hnew].
    unfold Lesson.handleSendMessage.
    pose proof (handleSendMessage_sound env
                  (StudySession.setInput txt (Lesson.session l)) db
                  Hwf Hcur Hagree Huuid Hnew) as Hs.
    pose proof (handleSendMessage_slides env
                  (StudySession.setInput txt (Lesson.session l)) db) as Hsl.
    destruct (StudySession.handleSendMessage env _ db) as [[s' db'] p].
    simpl in Hsl. simpl.
    destruct Hs as (Hwf' & Hcur' & Hagree'). destruct Hsl as [Hs1 Hs2].
    rewrite Hs1, Hs2. auto.
  - unfold Lesson.handleNextSlide. cbv zeta.
    destruct (Z.of_nat _ <? _)%Z eqn:E.
    + simpl. apply Z.ltb_lt in E.
      split; [ exact Hwf | ]. split; [ exact Hcur | ]. split; [ exact Hagree | lia ].
    + destruct (nth_error _ _) as [ slide | ]; [ | simpl; auto ].
      set (summary := GeminiService.summarizeSlideDiscussion _ _ _).
      destruct (sound_saveSummary (Lesson.session l) summary db Hwf Hcur Hagree)
        as (Hwf' & Hcur' & Hagree').
      destruct (Lesson.getNextSlide env _ _ _) as [ next | ]; simpl.
      * split; [ exact Hwf' | ]. split; [ exact Hcur' | ].
        split; [ exact Hagree' | ]. rewrite length_app. simpl. lia.
      * auto.
  - simpl. split; [ exact Hwf | ]. split; [ exact Hcur | ].
    split; [ exact Hagree | lia ].
  - unfold Lesson.handleNotebookUpdate. simpl.
    destruct (getCurrentTopic db) as [ cur | ] eqn:E; [ | congruence ].
    destruct (JS.truthy (id cur)).
    + destruct (sound_mutate (Lesson.session l) (id cur) (set_notebookContent c) db)
        as (Hwf' & Hcur' & Hagree'); try assumption; try reflexivity.
      * now rewrite E.
      * unfold updateNotebookContent. auto.
    + split; [ exact Hwf | ]. split; [ now rewrite E | ]. split; assumption.
Qed.

Lemma lesson_ok_run events : forall st,
  events_fresh events st -> lesson_ok st -> lesson_ok (lessonRun events st).
Proof.
  induction events as [ | e events IH ]; intros st Hfresh Hok; [ exact Hok | ].
  destruct Hfresh as [Hf Hfs]. simpl. apply IH; [ exact Hfs | ].
  now apply lesson_ok_step.
Qed.

(** X14. A lesson stays sound whatever the learner does and however the
    remote calls go: from a new session on, after any sequence of messages
    sent, slides asked for, steps back and notebook edits, the store is well
    formed and has an active topic, the session's topic name names that
    topic, up to letter case, and the slide index points at a slide. *)
Theorem lesson_stays_sound (events : list LessonEvent) (uuid : string) (now : Z)
    (topic : string) (firstSlide : LessonSlide) (db0 db : TopicDatabase)
    (s : StudySession.t)
    (Huuid : uuid <> "")
    (Hinit : StudySession.initSession uuid now topic firstSlide db0 = (Some s, db))
    (Hfresh : events_fresh events (Lesson.start s, db)) :
  lesson_ok (lessonRun events (Lesson.start s, db)).
Proof.
  apply lesson_ok_run; [ exact Hfresh | ].
  destruct (initSession_sound uuid now topic firstSlide db0 Huuid)
    as (s0 & db1 & Heq & Hwf & Hcur & Hagree & _).
  rewrite Hinit in Heq. injection Heq as <- <-.
  unfold lesson_ok. simpl.
  split; [ exact Hwf | ]. split; [ exact Hcur | ]. split; [ exact Hagree | ].
  unfold StudySession.initSession in Hinit.
  destruct (getCurrentTopic (reset uuid now topic db0)); [ | discriminate ].
  injection Hinit as <- _. simpl. lia.
Qed.

Lemma lesson_stays_sound_witness :
  lesson_ok
    (lessonRun
       [ Send echoEnv "When did Rome fall?";
         EditNotebook "Rome was founded in 753 BC.";
         NextSlide {| Lesson.summarizeCall := fun _ _ => Threw;
                      Lesson.getNextSlide := fun _ _ _ => None |};
         PrevSlide;
         Send (biologyEnv (Some "Cells are the units of life.")) "What is a cell?" ]
       (Lesson.start (asking ""), historyStore)).
Proof.
  apply (lesson_stays_sound _ "id-1" 1000 "History" romeSlide newTopicDatabase).
  - discriminate.
  - reflexivity.
  - simpl. repeat split; try discriminate; reflexivity.
Defined.

(** X15. An edit of the notebook reaches the notebook agent: the text typed
    is stored under the active topic, no other topic changes, and the
    NOTEBOOK branch of the next turn reads that text. *)
Theorem notebook_edit_reaches_the_notebook_agent (content : string) (l : Lesson.t)
    (db : TopicDatabase) (cur : Topic)
    (Hwf : wf db)
    (Hactive : getCurrentTopic db = Some cur) :
  let '(l', db') := Lesson.handleNotebookUpdate content l db in
  Lesson.notebookContent l' = content
  /\ getCurrentTopic db' = Some (set_notebookContent content cur)
  /\ tc_notebookContent (getTopicContent (id cur) db') = content
  /\ activeNotebook db' = content
  /\ (forall userText,
        AgentOrchestrator.notebookOutput userText db'
        = if JS.truthy (JS.trim content)
          then AgentOrchestrator.notebookHeader
                 ++ substring 0 AgentOrchestrator.NOTEBOOK_BUDGET content
                 ++ AgentOrchestrator.notebookInstruction userText
          else AgentOrchestrator.notebookEmptyOutput)
  /\ (forall k, k <> id cur -> TMap.get k (topics db') = TMap.get k (topics db)).
Proof.
  destruct (wf_current _ _ Hwf Hactive) as (Hc & Hg & Ht).
  unfold Lesson.handleNotebookUpdate. rewrite Hactive, Ht.
  unfold updateNotebookContent.
  assert (Hget : TMap.get (id cur) (topics (mutate (id cur) (set_notebookContent content) db))
                 = Some (set_notebookContent content cur)).
  { now rewrite topics_mutate, get_modify_same, Hg. }
  assert (Hcur : getCurrentTopic (mutate (id cur) (set_notebookContent content) db)
                 = Some (set_notebookContent content cur)).
  { apply (getCurrentTopic_intro _ (id cur)).
    - now rewrite currentTopicId_mutate.
    - now apply truthy_true.
    - exact Hget. }
  assert (Hnb : activeNotebook (mutate (id cur) (set_notebookContent content) db)
                = content).
  { unfold activeNotebook. now rewrite Hcur. }
  split; [ reflexivity | ]. split; [ exact Hcur | ]. split.
  - unfold getTopicContent. rewrite Hget. simpl. apply or_else_empty.
  - split; [ exact Hnb | ]. split.
    + intros userText. rewrite notebookOutput_activeNotebook. now rewrite Hnb.
    + intros k Hk. rewrite topics_mutate. apply get_modify_other.
      intros E. apply Hk. now rewrite E.
Qed.

Lemma notebook_edit_reaches_the_notebook_agent_witness :
  let '(l', db') :=
    Lesson.handleNotebookUpdate "Rome was founded in 753 BC."
      (Lesson.start (asking "")) historyStore in
  activeNotebook db' = "Rome was founded in 753 BC."
  /\ tc_notebookContent (getTopicContent "id-1" db') = "Rome was founded in 753 BC.".
Proof.
  pose proof (notebook_edit_reaches_the_notebook_agent "Rome was founded in 753 BC."
                (Lesson.start (asking "")) historyStore historyTopic
                historyStore_wf eq_refl) as H.
  destruct (Lesson.handleNotebookUpdate _ _ historyStore) as [l' db'].
  destruct H as (_ & _ & Hc & Hnb & _). split; [ exact Hnb | exact Hc ].
Defined.

Lemma shift_turn_store env s db o chat slide pre txt :
  StudySession.orchestratorRef s = Some o ->
  AgentOrchestrator.parentChat o = Some chat ->
  JS.truthy (JS.trim (StudySession.inputMessage s)) = true ->
  nth_error (StudySession.slides s) (StudySession.currentSlideIndex s) = Some slide ->
  wf db ->
  getCurrentTopic db = Some pre ->
  sendMessage env (AgentOrchestrator.prompt (turnRoute env s o slide db)) = Some txt ->
  StudySession.shiftHandled (classification env s o) s = true ->
  getTopicByName (topicName (classification env s o)) db = None ->
  uuid_shift env <> "" ->
  TMap.get (uuid_shift env) (topics db) = None ->
  let reply :=
    replyMessage txt (AgentOrchestrator.routedSources (turnRoute env s o slide db)) in
  let post :=
    push_message reply
      (blankTopic (uuid_shift env) (now_shift env)
         (topicName (classification env s o)) false) in
  let db' := snd (fst (StudySession.handleSendMessage env s db)) in
  topics db'
  = (TMap.modify (id pre) (push_message (StudySession.userMessage s)) (topics db)
       ++ [(uuid_shift env, post)])%list
  /\ getCurrentTopic db' = Some post
  /\ TMap.get (id pre) (topics db')
     = Some (push_message (StudySession.userMessage s) pre).
Proof.
  intros Horch Hchat Hinput Hslide Hwf Hactive Hsynth Hshift Hnew Huuid Hfresh.
  rewrite (handleSendMessage_answered env s db o chat slide pre Horch Hchat Hinput
             Hslide Hwf Hactive txt Hsynth).
  cbv zeta. rewrite Hshift. simpl snd.
  set (n := topicName (classification env s o)) in *.
  set (reply := replyMessage txt _).
  set (db1 := StudySession.addToCurrent (StudySession.userMessage s) db).
  destruct (wf_current _ _ Hwf Hactive) as (_ & Hgpre & _).
  destruct (addToCurrent_active (StudySession.userMessage s) db pre Hwf Hactive)
    as (_ & Htopics1 & _).
  fold db1 in Htopics1.
  assert (Hfresh1 : TMap.get (uuid_shift env) (topics db1) = None)
    by now apply get_addToCurrent_none.
  assert (Hnew1 : getTopicByName n db1 = None)
    by now apply getTopicByName_addToCurrent_none.
  assert (Hwf1 : wf db1) by now apply wf_addToCurrent.
  destruct (switchStore_blank env n db1 Hnew1 Huuid Hfresh1) as [HtopicsS HcurS].
  set (blank := blankTopic (uuid_shift env) (now_shift env) n false) in *.
  assert (HwfS : wf (StudySession.switchStore env n db1)).
  { apply wf_switchStore; [ exact Hwf1 | exact Huuid | intros _; exact Hfresh1 ]. }
  destruct (addToCurrent_active reply _ blank HwfS HcurS) as (_ & Htopics2 & Hcur2).
  change (id blank) with (uuid_shift env) in Htopics2.
  assert (Htopics : topics (StudySession.addToCurrent reply
                              (StudySession.switchStore env n db1))
                    = (TMap.modify (id pre) (push_message (StudySession.userMessage s))
                         (topics db)
                         ++ [(uuid_shift env, push_message reply blank)])%list).
  { rewrite Htopics2, HtopicsS. rewrite <- Htopics1.
    clear - Hfresh1. induction (topics db1) as [ | [k v] m IH ]; simpl in *.
    - now rewrite String.eqb_refl.
    - destruct (k =? uuid_shift env); [ discriminate | ].
      now rewrite (IH Hfresh1). }
  split; [ exact Htopics | ]. split; [ exact Hcur2 | ].
  rewrite Htopics.
  apply get_app_present. now rewrite get_modify_same, Hgpre.
Qed.

(** X16. The notebook belongs to the topic that was active when it was
    typed, and the page does not follow: after a turn that shifts to a topic
    the store did not hold, the page still shows the notes, the store keeps
    them under the previous topic, and the notebook agent, which reads the
    new active topic, reports that no notes were uploaded. *)
Theorem notes_stay_with_the_previous_topic (env : Env) (l : Lesson.t)
    (db : TopicDatabase) (o : AgentOrchestrator.t)
    (chat : AgentOrchestrator.Chat) (slide : LessonSlide) (pre : Topic)
    (txt : string)
    (Horch : StudySession.orchestratorRef (Lesson.session l) = Some o)
    (Hchat : AgentOrchestrator.parentChat o = Some chat)
    (Hinput : JS.truthy (JS.trim (StudySession.inputMessage (Lesson.session l)))
              = true)
    (Hslide : nth_error (StudySession.slides (Lesson.session l))
                (StudySession.currentSlideIndex (Lesson.session l)) = Some slide)
    (Hwf : wf db)
    (Hactive : getCurrentTopic db = Some pre)
    (Hsynth : sendMessage env
                (AgentOrchestrator.prompt (turnRoute env (Lesson.session l) o slide db))
              = Some txt)
    (Hshift : StudySession.shiftHandled (classification env (Lesson.session l) o)
                (Lesson.session l) = true)
    (Hnew : getTopicByName (topicName (classification env (Lesson.session l) o)) db
            = None)
    (Huuid : uuid_shift env <> "")
    (Hfresh : TMap.get (uuid_shift env) (topics db) = None) :
  let '(l', db', _) := Lesson.handleSendMessage env l db in
  Lesson.notebookContent l' = Lesson.notebookContent l
  /\ tc_notebookContent (getTopicContent (id pre) db') = notebookContent pre
  /\ activeNotebook db' = ""
  /\ forall userText,
       AgentOrchestrator.notebookOutput userText db'
       = AgentOrchestrator.notebookEmptyOutput.
Proof.
  pose proof (shift_turn_store env (Lesson.session l) db o chat slide pre txt
                Horch Hchat Hinput Hslide Hwf Hactive Hsynth Hshift Hnew Huuid
                Hfresh) as H.
  cbv zeta in H. unfold Lesson.handleSendMessage.
  destruct (StudySession.handleSendMessage env (Lesson.session l) db)
    as [[s' db'] p].
  simpl in H. destruct H as (_ & Hcur & Hpre).
  assert (Hnb : activeNotebook db' = "").
  { unfold activeNotebook. now rewrite Hcur. }
  split; [ reflexivity | ]. split.
  - unfold getTopicContent. rewrite Hpre. simpl. apply or_else_empty.
  - split; [ exact Hnb | ].
    intros userText. rewrite notebookOutput_activeNotebook. now rewrite Hnb.
Qed.

Lemma notes_stay_with_the_previous_topic_witness :
  let env := biologyEnv (Some "Cells are the units of life.") in
  let l := Lesson.with_session (asking "What is a cell?")
             (fst (Lesson.handleNotebookUpdate "Rome was founded in 753 BC."
                     (Lesson.start (asking "")) historyStore)) in
  let '(l', db', _) := Lesson.handleSendMessage env l notedStore in
  Lesson.notebookContent l' = "Rome was founded in 753 BC."
  /\ tc_notebookContent (getTopicContent "id-1" db') = "Rome was founded in 753 BC."
  /\ activeNotebook db' = "".
Proof.
  intros env l.
  pose proof (notes_stay_with_the_previous_topic env l notedStore historyOrchestrator
                AgentOrchestrator.ChatSession romeSlide
                (set_notebookContent "Rome was founded in 753 BC." historyTopic)
                "Cells are the units of life.") as H.
  destruct (Lesson.handleSendMessage env l notedStore) as [[l' db'] p].
  destruct H as (Hui & Hpre & Hnb & _); try reflexivity.
  - unfold notedStore, updateNotebookContent.
    apply wf_mutate; [ reflexivity | exact historyStore_wf ].
  - discriminate.
  - split; [ exact Hui | ]. split; [ exact Hpre | exact Hnb ].
Defined.

Lemma summarizeSlideDiscussion_nonempty call slideTitle chatHistory :
  GeminiService.summarizeSlideDiscussion call slideTitle chatHistory <> "".
Proof.
  unfold GeminiService.summarizeSlideDiscussion.
  destruct chatHistory as [ | m rest ]; [ discriminate | ].
  destruct (call slideTitle _) as [ | responseText ]; [ discriminate | ].
  apply text_or_nonempty. discriminate.
Qed.

Lemma handleNextSlide_last env l db slide :
  on_last_slide l slide ->
  let summary := slideSummary env l slide in
  let updatedContext :=
    Lesson.lessonContext l ++ JS.nl ++ "- Slide " ++ JS.dq ++ slide_title slide
      ++ JS.dq ++ " Summary: " ++ summary in
  Lesson.handleNextSlide env l db
  = match Lesson.getNextSlide env (StudySession.currentTopicName (Lesson.session l))
            (slide_title slide) updatedContext with
    | None =>
        ({| Lesson.session := Lesson.session l;
            Lesson.lessonContext := updatedContext;
            Lesson.generatingNext := false;
            Lesson.notebookContent := Lesson.notebookContent l |},
         Lesson.saveSummary summary db)
    | Some nextSlide =>
        ({| Lesson.session :=
              Lesson.moved (StudySession.slides (Lesson.session l) ++ [nextSlide])
                (StudySession.currentSlideIndex (Lesson.session l) + 1)
                [Lesson.movingOnMessage nextSlide] (Lesson.session l);
            Lesson.lessonContext := updatedContext;
            Lesson.generatingNext := false;
            Lesson.notebookContent := Lesson.notebookContent l |},
         Lesson.saveSummary summary db)
    end.
Proof.
  intros [Hnth Hlen] summary updatedContext. unfold Lesson.handleNextSlide.
  cbv zeta.
  destruct (Z.of_nat _ <? _)%Z eqn:E; [ apply Z.ltb_lt in E; lia | ].
  rewrite Hnth. reflexivity.
Qed.

Lemma saveSummary_active summary db cur :
  wf db -> getCurrentTopic db = Some cur ->
  let cur' :=
    set_knowledgeBase (knowledgeBase cur ++ knowledge_separator ++ summary) cur in
  wf (Lesson.saveSummary summary db)
  /\ getCurrentTopic (Lesson.saveSummary summary db) = Some cur'
  /\ getKnowledgeBase (id cur) (Lesson.saveSummary summary db) = knowledgeBase cur'
  /\ (forall k, k <> id cur ->
        TMap.get k (topics (Lesson.saveSummary summary db)) = TMap.get k (topics db)).
Proof.
  intros Hwf Hcur cur'. destruct (wf_current _ _ Hwf Hcur) as (Hc & Hg & Ht).
  unfold Lesson.saveSummary. rewrite Hcur, Ht.
  pose proof (get_appendKnowledge_same (id cur) summary db cur Hg) as Hget.
  fold cur' in Hget.
  split; [ unfold appendKnowledge; now apply wf_mutate | ].
  split.
  - apply (getCurrentTopic_intro _ (id cur)).
    + unfold appendKnowledge. now rewrite currentTopicId_mutate.
    + now apply truthy_true.
    + exact Hget.
  - split; [ now apply getKnowledgeBase_get | ].
    intros k Hk. unfold appendKnowledge. rewrite topics_mutate.
    apply get_modify_other. intros E. apply Hk. now rewrite E.
Qed.

(** X17. Asking for a slide beyond the last one records the summary of the
    slide's discussion in the knowledge base of the active topic before the
    slide is generated, and the summary is never empty. When the generation
    fails, the summary stays recorded, the learner stays on the slide with
    its discussion kept, and a second attempt records a second summary of
    that discussion after the first. When it succeeds, the new slide is
    appended and shown, the discussion starts empty and the transcript gets
    one announcement. *)
Theorem slide_summary_is_recorded_before_the_next_slide (env : Lesson.SlideEnv)
    (l : Lesson.t) (db : TopicDatabase) (cur : Topic) (slide : LessonSlide)
    (Hwf : wf db)
    (Hactive : getCurrentTopic db = Some cur)
    (Hlast : on_last_slide l slide) :
  let summary := slideSummary env l slide in
  let '(l', db') := Lesson.handleNextSlide env l db in
  summary <> ""
  /\ getKnowledgeBase (id cur) db'
     = knowledgeBase cur ++ knowledge_separator ++ summary
  /\ (forall k, k <> id cur -> TMap.get k (topics db') = TMap.get k (topics db))
  /\ match Lesson.getNextSlide env
             (StudySession.currentTopicName (Lesson.session l)) (slide_title slide)
             (Lesson.lessonContext l') with
     | None =>
         Lesson.session l' = Lesson.session l
         /\ forall env2,
              getKnowledgeBase (id cur) (snd (Lesson.handleNextSlide env2 l' db'))
              = knowledgeBase cur ++ knowledge_separator ++ summary
                  ++ knowledge_separator ++ slideSummary env2 l slide
     | Some nextSlide =>
         StudySession.slides (Lesson.session l')
         = (StudySession.slides (Lesson.session l) ++ [nextSlide])%list
         /\ nth_error (StudySession.slides (Lesson.session l'))
              (StudySession.currentSlideIndex (Lesson.session l')) = Some nextSlide
         /\ StudySession.slideChatHistoryRef (Lesson.session l') = []
         /\ StudySession.chatMessages (Lesson.session l')
            = (StudySession.chatMessages (Lesson.session l)
                 ++ [Lesson.movingOnMessage nextSlide])%list
     end.
Proof.
  intros summary.
  pose proof (handleNextSlide_last env l db slide Hlast) as Heq.
  cbv zeta in Heq. fold summary in Heq.
  destruct (saveSummary_active summary db cur Hwf Hactive)
    as (Hwf' & Hcur' & Hkb & Hother).
  cbv zeta in Hcur', Hkb. simpl in Hkb.
  set (updatedContext := Lesson.lessonContext l ++ _) in Heq.
  destruct (Lesson.getNextSlide env _ _ updatedContext) as [ nextSlide | ] eqn:G;
    rewrite Heq; simpl Lesson.lessonContext; rewrite G;
    (split; [ apply summarizeSlideDiscussion_nonempty | ]);
    (split; [ exact Hkb | ]); (split; [ exact Hother | ]).
  - destruct Hlast as [_ Hlen]. simpl.
    split; [ reflexivity | ]. split; [ | now split ].
    rewrite nth_error_app2 by lia.
    replace (_ - _) with 0 by lia. reflexivity.
  - simpl. split; [ reflexivity | ].
    intros env2.
    set (l' := {| Lesson.session := Lesson.session l;
                  Lesson.lessonContext := updatedContext;
                  Lesson.generatingNext := false;
                  Lesson.notebookContent := Lesson.notebookContent l |}).
    pose proof (handleNextSlide_last env2 l' (Lesson.saveSummary summary db) slide
                  Hlast) as Heq2.
    cbv zeta in Heq2.
    destruct (saveSummary_active (slideSummary env2 l' slide) _ _ Hwf' Hcur')
      as (_ & _ & Hkb2 & _).
    cbv zeta in Hkb2. simpl in Hkb2.
    rewrite Heq2.
    destruct (Lesson.getNextSlide env2 _ _ _); simpl snd; rewrite Hkb2;
      now rewrite !string_app_assoc.
Qed.

Lemma slide_summary_is_recorded_before_the_next_slide_witness :
  let env := {| Lesson.summarizeCall := fun _ _ => Threw;
                Lesson.getNextSlide := fun _ _ _ => None |} in
  let '(l', db') :=
    Lesson.handleNextSlide env (Lesson.start (asking "")) historyStore in
  getKnowledgeBase "id-1" db' = JS.nl ++ "- Completed slide: Ancient Rome."
  /\ Lesson.session l' = asking "".
Proof.
  intros env.
  pose proof (slide_summary_is_recorded_before_the_next_slide env
                (Lesson.start (asking "")) historyStore historyTopic romeSlide
                historyStore_wf eq_refl (conj eq_refl eq_refl)) as H.
  cbv zeta in H.
  destruct (Lesson.handleNextSlide env (Lesson.start (asking "")) historyStore)
    as [l' db'].
  destruct H as (_ & Hkb & _ & Hnext).
  split; [ exact Hkb | exact (proj1 Hnext) ].
Defined.

(** X18. Going back a slide and forward again drops the discussion: the
    learner returns to the slide they left, no remote call is made and the
    store is untouched, but the messages exchanged on the slide since its last
    summary are gone from the record the next summary is made of. *)
Theorem going_back_and_forth_drops_the_discussion (env : Lesson.SlideEnv)
    (l : Lesson.t) (db : TopicDatabase)
    (Hpos : 0 < StudySession.currentSlideIndex (Lesson.session l))
    (Hin : StudySession.currentSlideIndex (Lesson.session l)
           < List.length (StudySession.slides (Lesson.session l))) :
  let '(l', db') := Lesson.handleNextSlide env (Lesson.handlePrevSlide l) db in
  db' = db
  /\ StudySession.slides (Lesson.session l') = StudySession.slides (Lesson.session l)
  /\ StudySession.currentSlideIndex (Lesson.session l')
     = StudySession.currentSlideIndex (Lesson.session l)
  /\ StudySession.chatMessages (Lesson.session l')
     = StudySession.chatMessages (Lesson.session l)
  /\ Lesson.lessonContext l' = Lesson.lessonContext l
  /\ StudySession.slideChatHistoryRef (Lesson.session l') = [].
Proof.
  unfold Lesson.handleNextSlide, Lesson.handlePrevSlide. cbv zeta. simpl.
  destruct (Z.of_nat _ <? _)%Z eqn:E.
  - simpl. split; [ reflexivity | ]. split; [ reflexivity | ].
    split; [ lia | ]. split; [ apply app_nil_r | ]. now split.
  - apply Z.ltb_ge in E. lia.
Qed.

Lemma going_back_and_forth_drops_the_discussion_witness :
  let l :=
    Lesson.start
      (Lesson.moved [romeSlide; romeSlide] 1 []
         (StudySession.answered (asking "When did Rome fall?")
            {| AgentOrchestrator.response := replyMessage "In 476." [];
               AgentOrchestrator.resultAnalysis :=
                 {| isNewTopic := false; topicName := "History" |};
               AgentOrchestrator.resultSources := [] |} historyOrchestrator)) in
  let env := {| Lesson.summarizeCall := fun _ _ => Threw;
                Lesson.getNextSlide := fun _ _ _ => None |} in
  let '(l', db') := Lesson.handleNextSlide env (Lesson.handlePrevSlide l) historyStore in
  db' = historyStore
  /\ StudySession.currentSlideIndex (Lesson.session l') = 1.
Proof.
  intros l env.
  pose proof (going_back_and_forth_drops_the_discussion env l historyStore) as H.
  destruct (Lesson.handleNextSlide env (Lesson.handlePrevSlide l) historyStore)
    as [l' db'].
  destruct H as (Hdb & _ & Hidx & _).
  - simpl. lia.
  - simpl. lia.
  - split; [ exact Hdb | exact Hidx ].
Defined.

Lemma trimEnd_cons c s :
  JS.trimEnd (String c s)
  = match JS.trimEnd s with
    | EmptyString => if JS.is_space c then EmptyString else String c EmptyString
    | String a b => String c (String a b)
    end.
Proof. reflexivity. Qed.

Lemma trimEnd_idempotent s : JS.trimEnd (JS.trimEnd s) = JS.trimEnd s.
Proof.
  induction s as [ | c s IH ]; [ reflexivity | ].
  rewrite (trimEnd_cons c s).
  destruct (JS.trimEnd s) as [ | d r ] eqn:E.
  - destruct (JS.is_space c) eqn:Ec; [ reflexivity | ].
    rewrite trimEnd_cons. simpl. now rewrite Ec.
  - rewrite trimEnd_cons, IH. reflexivity.
Qed.

Lemma trimStart_trimEnd c s :
  JS.is_space c = false ->
  JS.trimStart (JS.trimEnd (String c s)) = JS.trimEnd (String c s).
Proof.
  intros Hc. rewrite trimEnd_cons.
  destruct (JS.trimEnd s); rewrite ?Hc; simpl; now rewrite Hc.
Qed.

Lemma trim_idempotent s : JS.trim (JS.trim s) = JS.trim s.
Proof.
  unfold JS.trim. destruct (JS.trimStart s) as [ | c r ] eqn:E; [ reflexivity | ].
  rewrite (trimStart_trimEnd c r (trimStart_head _ _ _ E)).
  apply trimEnd_idempotent.
Qed.

(** X19. The topic form submits nothing when the field is blank, and
    otherwise the text without the white space around it: the topic a lesson
    starts on is never empty and never begins or ends with white space. *)
Theorem topic_input_submits_trimmed_text (value : string) :
  match TopicInput.handleSubmit value with
  | Some topic =>
      all_space value = false /\ topic = JS.trim value /\ topic <> ""
      /\ JS.trim topic = topic /\ all_space topic = false
  | None => all_space value = true
  end.
Proof.
  unfold TopicInput.handleSubmit.
  destruct (JS.truthy (JS.trim value)) eqn:E.
  - apply truthy_true in E.
    assert (Hv : all_space value = false).
    { destruct (all_space value) eqn:A; [ | reflexivity ].
      apply trim_empty_iff in A. contradiction. }
    split; [ exact Hv | ]. split; [ reflexivity | ]. split; [ exact E | ].
    split; [ apply trim_idempotent | ].
    destruct (all_space (JS.trim value)) eqn:A; [ | reflexivity ].
    apply trim_empty_iff in A. rewrite trim_idempotent in A. contradiction.
  - unfold JS.truthy in E. apply negb_false_iff in E. apply String.eqb_eq in E.
    now apply trim_empty_iff.
Qed.

(** X20. Leaving the lesson page and coming back to the same topic restores
    the lesson from the state saved in the store: slides, slide index, lesson
    context, transcript, topic name and agent mode are those that were saved,
    the notebook shown is that of the active topic, and the orchestrator
    starts on the session's topic name. The discussion of the current slide is
    not restored. Under any other topic name nothing is restored. *)
Theorem leaving_and_returning_restores_the_lesson (l : Lesson.t)
    (db : TopicDatabase) (topic : string)
    (Hwf : wf db)
    (Hmain : getMainTopicName db = Some topic)
    (Hslides : StudySession.slides (Lesson.session l) <> []) :
  (exists l',
     Lesson.restore topic (Lesson.saveState l db) = Some l'
     /\ StudySession.slides (Lesson.session l') = StudySession.slides (Lesson.session l)
     /\ StudySession.currentSlideIndex (Lesson.session l')
        = StudySession.currentSlideIndex (Lesson.session l)
     /\ StudySession.chatMessages (Lesson.session l')
        = StudySession.chatMessages (Lesson.session l)
     /\ StudySession.currentTopicName (Lesson.session l')
        = StudySession.currentTopicName (Lesson.session l)
     /\ StudySession.agentMode (Lesson.session l')
        = StudySession.agentMode (Lesson.session l)
     /\ Lesson.lessonContext l' = Lesson.lessonContext l
     /\ Lesson.notebookContent l' = activeNotebook db
     /\ StudySession.slideChatHistoryRef (Lesson.session l') = []
     /\ option_map AgentOrchestrator.currentTopicName
          (StudySession.orchestratorRef (Lesson.session l'))
        = Some (StudySession.currentTopicName (Lesson.session l)))
  /\ (forall other, other <> topic ->
        Lesson.restore other (Lesson.saveState l db) = None)
  /\ topics (Lesson.saveState l db) = topics db
  /\ currentTopicId (Lesson.saveState l db) = currentTopicId db.
Proof.
  unfold Lesson.saveState. cbv zeta.
  destruct (StudySession.slides (Lesson.session l)) as [ | slide rest ] eqn:S;
    [ congruence | ].
  simpl Nat.ltb. cbv iota.
  unfold getMainTopicName in Hmain.
  split; [ | split; [ | now split ] ].
  - unfold Lesson.restore, getMainTopicName, getSessionState. simpl.
    rewrite Hmain, String.eqb_refl.
    eexists. split; [ reflexivity | ]. simpl.
    repeat (split; [ reflexivity | ]).
    split; [ | now split ].
    unfold activeNotebook, getCurrentTopic at 1. simpl.
    change (match currentTopicId db with
            | Some i => if JS.truthy i then TMap.get i (topics db) else None
            | None => None
            end) with (getCurrentTopic db).
    destruct (getCurrentTopic db) as [ cur | ] eqn:E.
    + destruct (wf_current _ _ Hwf E) as (_ & Hg & _).
      rewrite or_else_empty. unfold getTopicContent. simpl. rewrite Hg. simpl.
      apply or_else_empty.
    + unfold getTopicContent. simpl.
      destruct (TMap.get "" (topics db)) as [ t | ] eqn:G; [ | reflexivity ].
      destruct (wf_get _ _ _ Hwf G) as [_ Hne]. congruence.
  - intros other Hother.
    unfold Lesson.restore, getMainTopicName, getSessionState. simpl.
    rewrite Hmain.
    destruct (topic =? other) eqn:E; [ | reflexivity ].
    apply String.eqb_eq in E. congruence.
Qed.

Lemma leaving_and_returning_restores_the_lesson_witness :
  exists l',
    Lesson.restore "History" (Lesson.saveState (Lesson.start (asking "")) notedStore)
    = Some l'
    /\ Lesson.notebookContent l' = "Rome was founded in 753 BC."
    /\ StudySession.slides (Lesson.session l') = [romeSlide].
Proof.
  destruct (leaving_and_returning_restores_the_lesson (Lesson.start (asking ""))
              notedStore "History") as [(l' & Hr & Hs & _ & _ & _ & _ & _ & Hnb & _) _].
  - unfold notedStore, updateNotebookContent.
    apply wf_mutate; [ reflexivity | exact historyStore_wf ].
  - reflexivity.
  - discriminate.
  - exists l'. split; [ exact Hr | ]. split; [ exact Hnb | exact Hs ].
Defined.

(** ** Properties of the practice pages *)

Lemma quiz_ok_step e st : quiz_ok st -> quiz_ok (Quiz.step e st).
Proof.
  unfold quiz_ok. intros [Hscore Hidx].
  destruct e as [ index | ]; simpl.
  - unfold Quiz.handleOptionSelect.
    destruct (Quiz.isAnswered st) eqn:A; [ rewrite A; now split | ].
    simpl. destruct (nth_error (Quiz.questions st) (Quiz.currentQIndex st))
      as [ q | ] eqn:N.
    + split.
      * destruct (index =? correctAnswerIndex q)%Z; lia.
      * left. apply nth_error_Some. congruence.
    + split; [ lia | ]. destruct Hidx as [ Hlt | (Hq & Hi & Hs) ]; [ now left | ].
      right. now repeat split.
  - unfold Quiz.handleNext.
    destruct (Z.of_nat _ <? _)%Z eqn:E; simpl.
    + apply Z.ltb_lt in E. split; [ destruct (Quiz.isAnswered st); lia | left; lia ].
    + now split.
Qed.

Lemma quiz_questions_step e st : Quiz.questions (Quiz.step e st) = Quiz.questions st.
Proof.
  destruct e; simpl.
  - unfold Quiz.handleOptionSelect. now destruct (Quiz.isAnswered st).
  - unfold Quiz.handleNext. now destruct (Z.of_nat _ <? _)%Z.
Qed.

Lemma quiz_run_inv events : forall st,
  quiz_ok st ->
  quiz_ok (Quiz.run events st)
  /\ Quiz.questions (Quiz.run events st) = Quiz.questions st.
Proof.
  induction events as [ | e events IH ]; intros st Hok; [ now split | ].
  simpl. destruct (IH (Quiz.step e st) (quiz_ok_step e st Hok)) as [H1 H2].
  split; [ exact H1 | ]. now rewrite H2, quiz_questions_step.
Qed.

Lemma quiz_run_loaded events loadedQuestions err st0 :
  let st := Quiz.run events (Quiz.loaded loadedQuestions err st0) in
  Quiz.questions st = loadedQuestions
  /\ Quiz.score st <= List.length loadedQuestions
  /\ Quiz.score st <= Quiz.currentQIndex st + (if Quiz.isAnswered st then 1 else 0)
  /\ (loadedQuestions <> [] -> Quiz.currentQIndex st < List.length loadedQuestions).
Proof.
  intros st.
  destruct (quiz_run_inv events (Quiz.loaded loadedQuestions err st0)) as [Hok Hq].
  { unfold quiz_ok. simpl. split; [ lia | ].
    destruct loadedQuestions; [ right; now repeat split | left; simpl; lia ]. }
  fold st in Hok, Hq. simpl in Hq. unfold quiz_ok in Hok. rewrite Hq in Hok.
  destruct Hok as [Hscore Hidx].
  split; [ exact Hq | ]. split.
  - destruct Hidx as [ Hlt | (_ & Hi & Hs) ]; [ | lia ].
    destruct (Quiz.isAnswered st); lia.
  - split; [ exact Hscore | ].
    intros Hne. destruct Hidx as [ Hlt | (He & _) ]; [ exact Hlt | contradiction ].
Qed.

Lemma loadQuiz_loaded getQuiz st db i :
  Quiz.activeTopicId st = Some i -> JS.truthy i = true ->
  exists loadedQuestions err,
    fst (Quiz.loadQuiz getQuiz st db) = Quiz.loaded loadedQuestions err st.
Proof.
  intros Hid Htruthy. unfold Quiz.loadQuiz. rewrite Hid, Htruthy. simpl negb.
  cbv iota. cbv zeta.
  destruct (find _ _) as [ obj | ]; [ | eexists; eexists; reflexivity ].
  destruct (match tc_quizzes (getTopicContent i db) with
            | [] => isMainTopic obj
            | _ :: _ => false
            end); [ | eexists; eexists; reflexivity ].
  destruct (getQuiz _ _); eexists; eexists; reflexivity.
Qed.

(** X21. A quiz never reports more right answers than it has questions:
    once a topic is selected, a load (the first one or Try Again) ends, however
    the service answers, in a state with score 0 on the first question, and
    whatever sequence of answers and steps forward follows, the questions stay
    the same, the score is at most the number of questions reached and at most
    the number of questions, and the index points at a question whenever there
    is one. *)
Theorem quiz_score_is_bounded (events : list Quiz.Event)
    (getQuiz : string -> string -> option (list QuizQuestion))
    (st0 : Quiz.t) (db : TopicDatabase) (i : string)
    (Hid : Quiz.activeTopicId st0 = Some i)
    (Htruthy : JS.truthy i = true) :
  let loadedState := fst (Quiz.loadQuiz getQuiz st0 db) in
  let st := Quiz.run events loadedState in
  (Quiz.score loadedState = 0 /\ Quiz.currentQIndex loadedState = 0
   /\ Quiz.isAnswered loadedState = false /\ Quiz.quizCompleted loadedState = false)
  /\ Quiz.questions st = Quiz.questions loadedState
  /\ Quiz.score st <= List.length (Quiz.questions st)
  /\ Quiz.score st <= Quiz.currentQIndex st + (if Quiz.isAnswered st then 1 else 0)
  /\ (Quiz.questions st <> [] ->
      Quiz.currentQIndex st < List.length (Quiz.questions st)).
Proof.
  intros loadedState st.
  destruct (loadQuiz_loaded getQuiz st0 db i Hid Htruthy) as (qs & err & Hl).
  fold loadedState in Hl. unfold st. rewrite Hl.
  destruct (quiz_run_loaded events qs err st0) as (Hq & Hs & Hr & Hi).
  cbv zeta in Hq, Hs, Hr, Hi.
  split; [ now repeat split | ].
  rewrite Hq. simpl Quiz.questions. now repeat split.
Qed.

Lemma quiz_score_is_bounded_witness :
  let question answer :=
    {| question := "When did Rome fall?"; options := ["476"; "1453"];
       correctAnswerIndex := answer; explanation := "The West fell in 476." |} in
  Quiz.score
    (Quiz.run [ Quiz.Select 0; Quiz.Next; Quiz.Select 0; Quiz.Next ]
       (fst (Quiz.loadQuiz (fun _ _ => Some [question 0%Z; question 1%Z])
               (Quiz.mount historyStore Quiz.initial) historyStore)))
  <= 2.
Proof.
  intros question.
  exact (proj1 (proj2 (proj2
           (quiz_score_is_bounded [ Quiz.Select 0; Quiz.Next; Quiz.Select 0; Quiz.Next ]
              (fun _ _ => Some [question 0%Z; question 1%Z])
              (Quiz.mount historyStore Quiz.initial) historyStore "id-1"
              eq_refl eq_refl)))).
Defined.

Lemma loadCardsForTopic_stored getFlashcards st db i :
  Flashcards.activeTopicId st = Some i ->
  JS.truthy i = true ->
  tc_flashcards (getTopicContent i db) <> [] ->
  Flashcards.loadCardsForTopic getFlashcards st db
  = (Flashcards.loaded (tc_flashcards (getTopicContent i db)) None st, db).
Proof.
  intros Hid Htruthy Hsome. unfold Flashcards.loadCardsForTopic.
  rewrite Hid, Htruthy. simpl negb. cbv iota. cbv zeta.
  destruct (tc_flashcards (getTopicContent i db)) as [ | c rest ]; [ congruence | ].
  now destruct (find _ _).
Qed.

(** X22. The generic flashcards of the main topic are fetched once: when
    the store has no card for the main topic, the deck shows what the service
    returns and the store keeps it; from then on, as long as that was not an
    empty list, loading the deck again shows the same cards whatever the
    service would do, without changing the store. *)
Theorem flashcards_are_fetched_once
    (getFlashcards : string -> string -> option (list Flashcard))
    (st : Flashcards.t) (db : TopicDatabase) (i : string) (obj t : Topic)
    (fetched : list Flashcard)
    (Hid : Flashcards.activeTopicId st = Some i)
    (Htruthy : JS.truthy i = true)
    (Hobj : find (fun t0 => id t0 =? i) (Flashcards.availableTopics st) = Some obj)
    (Hmain : isMainTopic obj = true)
    (Hstored : TMap.get i (topics db) = Some t)
    (Hnone : flashcards t = [])
    (Hfetch : getFlashcards (name obj) (getKnowledgeBase i db) = Some fetched)
    (Hsome : fetched <> []) :
  let '(st1, db1) := Flashcards.loadCardsForTopic getFlashcards st db in
  Flashcards.cards st1 = fetched
  /\ Flashcards.error st1 = None
  /\ Flashcards.currentIndex st1 = 0%Z
  /\ tc_flashcards (getTopicContent i db1) = fetched
  /\ forall other, Flashcards.loadCardsForTopic other st1 db1 = (st1, db1).
Proof.
  assert (Hfirst : Flashcards.loadCardsForTopic getFlashcards st db
                   = (Flashcards.loaded fetched None st,
                      addFlashcardsToTopic i fetched db)).
  { unfold Flashcards.loadCardsForTopic. rewrite Hid, Htruthy. simpl negb. cbv iota.
    cbv zeta. unfold getTopicContent. rewrite Hstored. simpl tc_flashcards.
    now rewrite Hnone, Hobj, Hmain, Hfetch. }
  rewrite Hfirst.
  assert (Hget : TMap.get i (topics (addFlashcardsToTopic i fetched db))
                 = Some (push_flashcards fetched t)).
  { unfold addFlashcardsToTopic. now rewrite topics_mutate, get_modify_same, Hstored. }
  assert (Hcontent : tc_flashcards (getTopicContent i (addFlashcardsToTopic i fetched db))
                     = fetched).
  { unfold getTopicContent. rewrite Hget. simpl. now rewrite Hnone. }
  split; [ reflexivity | ]. split; [ reflexivity | ]. split; [ reflexivity | ].
  split; [ exact Hcontent | ].
  intros other.
  rewrite (loadCardsForTopic_stored other _ _ i); [ | exact Hid | exact Htruthy | ].
  - now rewrite Hcontent.
  - now rewrite Hcontent.
Qed.

Lemma flashcards_are_fetched_once_witness :
  let deck := [ {| front := "Forum"; back := "A public square." |} ] in
  let st := Flashcards.mount historyStore Flashcards.initial in
  let '(st1, db1) := Flashcards.loadCardsForTopic (fun _ _ => Some deck) st historyStore in
  Flashcards.cards st1 = deck
  /\ Flashcards.loadCardsForTopic (fun _ _ => None) st1 db1 = (st1, db1).
Proof.
  intros deck st.
  pose proof (flashcards_are_fetched_once (fun _ _ => Some deck) st historyStore
                "id-1" historyTopic historyTopic deck
                eq_refl eq_refl eq_refl eq_refl eq_refl eq_refl eq_refl) as H.
  destruct (Flashcards.loadCardsForTopic (fun _ _ => Some deck) st historyStore)
    as [st1 db1].
  destruct H as (Hc & _ & _ & _ & Hagain); [ discriminate | ].
  split; [ exact Hc | apply Hagain ].
Defined.

Lemma patient_click e st :
  Flashcards.timers st = [] -> card_shown st ->
  let st' := Flashcards.fireTimer (Flashcards.step e st) in
  Flashcards.timers st' = [] /\ card_shown st'
  /\ Flashcards.cards st' = Flashcards.cards st.
Proof.
  unfold card_shown. intros Ht Hin.
  destruct e; simpl; unfold Flashcards.fireTimer.
  - unfold Flashcards.handleNext.
    destruct (Flashcards.currentIndex st <? _)%Z eqn:E.
    + apply Z.ltb_lt in E. simpl. rewrite Ht. simpl. repeat split; try reflexivity; try assumption; lia.
    + rewrite Ht. now repeat split.
  - unfold Flashcards.handlePrev.
    destruct (0 <? Flashcards.currentIndex st)%Z eqn:E.
    + apply Z.ltb_lt in E. simpl. rewrite Ht. simpl. repeat split; try reflexivity; try assumption; lia.
    + rewrite Ht. now repeat split.
  - simpl. rewrite Ht. now repeat split.
  - simpl. rewrite Ht. simpl. repeat split; try reflexivity; try assumption; lia.
  - unfold Flashcards.fireTimer. rewrite Ht. rewrite Ht. now repeat split.
Qed.

(** X23. For a learner who waits for the card to change before clicking
    again, the deck always shows a card: whatever they click (next, previous,
    flip, reset), the index stays within the deck. *)
Theorem patient_navigation_stays_in_the_deck (clicks : list Flashcards.Event)
    (st : Flashcards.t)
    (Hidle : Flashcards.timers st = [])
    (Hshown : card_shown st) :
  let st' := Flashcards.run (patient clicks) st in
  card_shown st'
  /\ Flashcards.timers st' = []
  /\ Flashcards.cards st' = Flashcards.cards st.
Proof.
  revert st Hidle Hshown.
  induction clicks as [ | e clicks IH ]; intros st Hidle Hshown.
  - split; [ exact Hshown | ]. split; [ exact Hidle | reflexivity ].
  - destruct (patient_click e st Hidle Hshown) as (Ht & Hin & Hc).
    cbv zeta in Ht, Hin, Hc.
    destruct (IH _ Ht Hin) as (H1 & H2 & H3).
    cbv zeta in H1, H2, H3. simpl.
    split; [ exact H1 | ]. split; [ exact H2 | ]. now rewrite H3.
Qed.

Lemma patient_navigation_stays_in_the_deck_witness :
  let deck := [ {| front := "Forum"; back := "A public square." |};
                {| front := "Senate"; back := "The council of elders." |} ] in
  let st := Flashcards.loaded deck None Flashcards.initial in
  card_shown
    (Flashcards.run
       (patient [ Flashcards.ClickNext; Flashcards.ClickNext; Flashcards.ClickFlip;
                  Flashcards.ClickPrev; Flashcards.ClickPrev ]) st).
Proof.
  intros deck st.
  apply (patient_navigation_stays_in_the_deck _ st); [ reflexivity | ].
  unfold card_shown. simpl. lia.
Defined.

(** X24. Two quick clicks on Next overshoot the deck: on the card before
    the last one, a second click that comes before the timer of the first has
    run passes the same guard, both timers then advance the index, and the
    index ends one past the last card, where the deck has no card. *)
Theorem two_quick_clicks_overshoot_the_deck (st : Flashcards.t)
    (Hidle : Flashcards.timers st = [])
    (Hbefore_last : (Flashcards.currentIndex st
                     = Z.of_nat (List.length (Flashcards.cards st)) - 2)%Z)
    (Hshown : card_shown st) :
  let st' :=
    Flashcards.run [ Flashcards.ClickNext; Flashcards.ClickNext;
                     Flashcards.TimerFires; Flashcards.TimerFires ] st in
  Flashcards.currentIndex st' = Z.of_nat (List.length (Flashcards.cards st'))
  /\ nth_error (Flashcards.cards st') (Z.to_nat (Flashcards.currentIndex st')) = None
  /\ ~ card_shown st'.
Proof.
  unfold card_shown in *. simpl.
  unfold Flashcards.handleNext.
  destruct (Flashcards.currentIndex st <? _)%Z eqn:E;
    [ | apply Z.ltb_ge in E; lia ].
  simpl. rewrite E. simpl. unfold Flashcards.fireTimer. simpl.
  rewrite Hidle. simpl.
  split; [ lia | ]. split.
  - apply nth_error_None. lia.
  - lia.
Qed.

Lemma two_quick_clicks_overshoot_the_deck_witness :
  let deck := [ {| front := "Forum"; back := "A public square." |};
                {| front := "Senate"; back := "The council of elders." |} ] in
  Flashcards.currentIndex
    (Flashcards.run [ Flashcards.ClickNext; Flashcards.ClickNext;
                      Flashcards.TimerFires; Flashcards.TimerFires ]
       (Flashcards.loaded deck None Flashcards.initial)) = 2%Z.
Proof.
  intros deck.
  refine (proj1 (two_quick_clicks_overshoot_the_deck
                   (Flashcards.loaded deck None Flashcards.initial) eq_refl eq_refl _)).
  unfold card_shown. simpl. lia.
Defined.

(** ** Properties of the exam page *)

Lemma fillIds_length raw : forall k,
  List.length (GeminiService.fillIds k raw) = List.length raw.
Proof. induction raw as [ | q raw IH ]; intros k; simpl; [ | rewrite IH ]; reflexivity. Qed.

Lemma fillIds_nth raw : forall k i q0,
  nth_error raw i = Some q0 ->
  nth_error (GeminiService.fillIds k raw) i
  = Some (GeminiService.with_exam_id
            (JS.or_else (exam_id q0) ("q-" ++ GeminiService.index_text (k + i))) q0).
Proof.
  induction raw as [ | q raw IH ]; intros k i q0 H; [ now destruct i | ].
  destruct i as [ | i ]; simpl in *.
  - injection H as <-. now rewrite Nat.add_0_r.
  - rewrite (IH (S k) i q0 H). now rewrite Nat.add_succ_r.
Qed.

Lemma fillIds_ids raw : forall k,
  Forall (fun q => exam_id q <> "") (GeminiService.fillIds k raw).
Proof.
  induction raw as [ | q raw IH ]; intros k; simpl; constructor; [ | apply IH ].
  simpl. unfold JS.or_else.
  destruct (JS.truthy (exam_id q)) eqn:E; [ now apply truthy_true | discriminate ].
Qed.

(** X25. [generateExam] returns a list exactly when the call returns and
    its text parses (a response without text counts as the empty array), and
    the list is the parsed one with the ids filled in: it has as many
    questions, in the same order; a question that comes without an id gets
    [q-] followed by its position, counted from 0, a question that has one
    keeps it, and nothing else of a question is touched. So every question
    returned has an id that is not empty. *)
Theorem generated_exam_questions_have_ids (call : CallOutcome)
    (parse : string -> option (list ExamQuestion)) (qs : list ExamQuestion)
    (Hgen : GeminiService.generateExam call parse = Some qs) :
  Forall (fun q => exam_id q <> "") qs
  /\ exists responseText raw,
       call = Returned responseText
       /\ match responseText with
          | Some txt => if JS.truthy txt then parse txt = Some raw else raw = []
          | None => raw = []
          end
       /\ List.length qs = List.length raw
       /\ (forall i q0,
             nth_error raw i = Some q0 ->
             exists q,
               nth_error qs i = Some q
               /\ exam_id q
                  = (if JS.truthy (exam_id q0) then exam_id q0
                     else "q-" ++ GeminiService.index_text i)
               /\ exam_type q = exam_type q0
               /\ exam_question q = exam_question q0
               /\ exam_options q = exam_options q0
               /\ exam_correctAnswerIndex q = exam_correctAnswerIndex q0
               /\ modelAnswer q = modelAnswer q0)
       /\ (forall call',
             GeminiService.generateExam call' parse = None <->
             call' = Threw
             \/ exists txt, call' = Returned (Some txt) /\ JS.truthy txt = true
                            /\ parse txt = None).
Proof.
  unfold GeminiService.generateExam in Hgen.
  destruct call as [ | responseText ]; [ discriminate | ].
  cbv zeta in Hgen.
  destruct (match responseText with
            | Some txt => if JS.truthy txt then parse txt else Some []
            | None => Some []
            end) as [ raw | ] eqn:Hraw; [ | discriminate ].
  injection Hgen as <-.
  split; [ apply fillIds_ids | ].
  exists responseText, raw. split; [ reflexivity | ]. split.
  { destruct responseText as [ txt | ]; [ | now injection Hraw as <- ].
    destruct (JS.truthy txt); [ exact Hraw | now injection Hraw as <- ]. }
  split; [ apply fillIds_length | ]. split.
  - intros i q0 H. eexists. split; [ exact (fillIds_nth raw 0 i q0 H) | ].
    simpl. now repeat split.
  - intros call'. unfold GeminiService.generateExam. split.
    + destruct call' as [ | [ txt | ] ]; [ now left | | discriminate ].
      destruct (JS.truthy txt) eqn:T; [ | discriminate ].
      destruct (parse txt) eqn:Pt; [ discriminate | ].
      intros _. right. exists txt. now repeat split.
    + intros [ -> | (txt & -> & T & Pt) ]; [ reflexivity | ].
      now rewrite T, Pt.
Qed.

Lemma generated_exam_questions_have_ids_witness :
  let blank i :=
    {| exam_id := i; exam_type := SHORT_ANSWER; exam_question := "Why did Rome fall?";
       exam_options := None; exam_correctAnswerIndex := None; modelAnswer := None |} in
  exists qs,
    GeminiService.generateExam (Returned (Some "two questions"))
      (fun _ => Some [blank "q-1"; blank ""]) = Some qs
    /\ Forall (fun q => exam_id q <> "") qs
    /\ map exam_id qs = ["q-1"; "q-1"].
Proof.
  intros blank. eexists. split; [ reflexivity | ]. split; [ | reflexivity ].
  exact (proj1 (generated_exam_questions_have_ids (Returned (Some "two questions"))
                  (fun _ => Some [blank "q-1"; blank ""]) _ eq_refl)).
Defined.

Lemma startExam_stored generate st db i :
  ExamMode.selectedTopicId st = Some i ->
  JS.truthy i = true ->
  getExamQuestionsForTopic i db <> [] ->
  ExamMode.startExam generate st db
  = (ExamMode.with_exam ExamMode.EXAM (getExamQuestionsForTopic i db) true st, db).
Proof.
  intros Hid Htruthy Hsome. unfold ExamMode.startExam.
  rewrite Hid, Htruthy. simpl negb. cbv iota.
  destruct (getExamQuestionsForTopic i db); [ congruence | reflexivity ].
Qed.

(** X26. An exam is generated once per topic: the first start generates the
    questions, shows them and stores them under the topic, touching no other
    topic; as long as that was not an empty list, starting the exam of that
    topic again shows the stored questions, whatever the generator would do,
    and leaves the store as it is. *)
Theorem exam_is_generated_once
    (generate : string -> string -> option (list ExamQuestion))
    (st : ExamMode.t) (db : TopicDatabase) (i : string) (t : Topic)
    (qs : list ExamQuestion)
    (Hid : ExamMode.selectedTopicId st = Some i)
    (Htruthy : JS.truthy i = true)
    (Hstored : TMap.get i (topics db) = Some t)
    (Hnone : examQuestions t = [])
    (Hgen : generate (ExamMode.selectedTopicName st) (getKnowledgeBase i db) = Some qs)
    (Hsome : qs <> []) :
  let '(st1, db1) := ExamMode.startExam generate st db in
  ExamMode.step st1 = ExamMode.EXAM
  /\ ExamMode.questions st1 = qs
  /\ ExamMode.isExamActive st1 = true
  /\ ExamMode.loading st1 = false
  /\ getExamQuestionsForTopic i db1 = qs
  /\ (forall k, k <> i -> TMap.get k (topics db1) = TMap.get k (topics db))
  /\ forall generate2,
       ExamMode.startExam generate2 (ExamMode.handleExit st1) db1
       = (ExamMode.with_exam ExamMode.EXAM qs true (ExamMode.handleExit st1), db1).
Proof.
  assert (Hfirst : ExamMode.startExam generate st db
                   = (ExamMode.with_exam ExamMode.EXAM qs true st,
                      setExamQuestionsForTopic i qs db)).
  { unfold ExamMode.startExam. rewrite Hid, Htruthy. simpl negb. cbv iota.
    unfold getExamQuestionsForTopic. rewrite Hstored, Hnone. now rewrite Hgen. }
  rewrite Hfirst.
  assert (Hget : getExamQuestionsForTopic i (setExamQuestionsForTopic i qs db) = qs).
  { unfold getExamQuestionsForTopic, setExamQuestionsForTopic.
    now rewrite topics_mutate, get_modify_same, Hstored. }
  repeat (split; [ reflexivity | ]).
  split; [ exact Hget | ]. split.
  - intros k Hk. unfold setExamQuestionsForTopic. rewrite topics_mutate.
    apply get_modify_other. intros E. apply Hk. now rewrite E.
  - intros generate2.
    rewrite (startExam_stored generate2 _ _ i); [ | exact Hid | exact Htruthy | ].
    + now rewrite Hget.
    + now rewrite Hget.
Qed.

Lemma exam_is_generated_once_witness :
  let question :=
    {| exam_id := "q-0"; exam_type := SHORT_ANSWER;
       exam_question := "Why did Rome fall?"; exam_options := None;
       exam_correctAnswerIndex := None; modelAnswer := None |} in
  let st := ExamMode.mount historyStore ExamMode.initial in
  let '(st1, db1) := ExamMode.startExam (fun _ _ => Some [question]) st historyStore in
  ExamMode.questions st1 = [question]
  /\ ExamMode.questions
       (fst (ExamMode.startExam (fun _ _ => None) (ExamMode.handleExit st1) db1))
     = [question].
Proof.
  intros question st.
  pose proof (exam_is_generated_once (fun _ _ => Some [question]) st historyStore
                "id-1" historyTopic [question]
                eq_refl eq_refl eq_refl eq_refl eq_refl) as H.
  destruct (ExamMode.startExam (fun _ _ => Some [question]) st historyStore)
    as [st1 db1].
  destruct H as (_ & Hq & _ & _ & _ & _ & Hagain); [ discriminate | ].
  split; [ exact Hq | ]. now rewrite Hagain.
Defined.

(** X27. Once [startExam] has finished, the application is locked exactly
    when the exam page is shown: a start that finds no topic selected or
    whose generation fails leaves the page, the questions and the store as
    they were and the application unlocked. *)
Theorem exam_lock_is_held_only_on_the_exam_page
    (generate : string -> string -> option (list ExamQuestion))
    (st : ExamMode.t) (db : TopicDatabase)
    (Hunlocked : ExamMode.isExamActive st = false)
    (Hstep : ExamMode.step st <> ExamMode.EXAM) :
  let '(st', db') := ExamMode.startExam generate st db in
  (ExamMode.isExamActive st' = true <-> ExamMode.step st' = ExamMode.EXAM)
  /\ (ExamMode.step st' <> ExamMode.EXAM ->
      db' = db /\ ExamMode.questions st' = ExamMode.questions st
      /\ ExamMode.step st' = ExamMode.step st)
  /\ (ExamMode.step st' = ExamMode.EXAM ->
      exists i, ExamMode.selectedTopicId st = Some i
                /\ (getExamQuestionsForTopic i db <> [] ->
                    ExamMode.questions st' = getExamQuestionsForTopic i db)
                /\ (getExamQuestionsForTopic i db = [] ->
                    generate (ExamMode.selectedTopicName st) (getKnowledgeBase i db)
                    = Some (ExamMode.questions st'))).
Proof.
  unfold ExamMode.startExam.
  destruct (ExamMode.selectedTopicId st) as [ i | ] eqn:Hid.
  2:{ rewrite Hunlocked. split; [ split; [ discriminate | contradiction ] | ].
      split; [ now repeat split | contradiction ]. }
  destruct (negb (JS.truthy i)).
  { rewrite Hunlocked. split; [ split; [ discriminate | contradiction ] | ].
    split; [ now repeat split | contradiction ]. }
  destruct (getExamQuestionsForTopic i db) as [ | q rest ] eqn:Hex.
  - destruct (generate _ _) as [ newQuestions | ] eqn:G; simpl.
    + split; [ now split | ]. split; [ congruence | ].
      intros _. exists i. split; [ reflexivity | ]. split; [ congruence | ].
      intros _. exact G.
    + split; [ split; [ discriminate | contradiction ] | ].
      split; [ now repeat split | contradiction ].
  - simpl. split; [ now split | ]. split; [ congruence | ].
    intros _. exists i. split; [ reflexivity | ].
    split; [ intros _; now rewrite Hex | now rewrite Hex ].
Qed.

Lemma exam_lock_is_held_only_on_the_exam_page_witness :
  let st := ExamMode.mount historyStore ExamMode.initial in
  let '(st', db') := ExamMode.startExam (fun _ _ => None) st historyStore in
  ExamMode.isExamActive st' = false /\ db' = historyStore.
Proof.
  intros st.
  pose proof (exam_lock_is_held_only_on_the_exam_page (fun _ _ => None) st
                historyStore eq_refl) as H.
  destruct (ExamMode.startExam (fun _ _ => None) st historyStore) as [st' db'] eqn:E.
  destruct H as (Hlock & Hkeep & _); [ discriminate | ].
  assert (Hs : ExamMode.step st' <> ExamMode.EXAM).
  { injection E as <- _. discriminate. }
  split; [ | exact (proj1 (Hkeep Hs)) ].
  destruct (ExamMode.isExamActive st'); [ | reflexivity ].
  exfalso. apply Hs. now apply Hlock.
Defined.

Lemma In_setAnswer x k v m :
  In x (map fst (ExamMode.setAnswer k v m)) <-> x = k \/ In x (map fst m).
Proof.
  induction m as [ | [k0 v0] m IH ]; simpl.
  - split; [ intros [ <- | [] ]; now left | intros [ -> | [] ]; now left ].
  - destruct (String.eqb_spec k0 k) as [ -> | Hne ]; simpl.
    + intuition congruence.
    + rewrite IH. intuition congruence.
Qed.

Lemma NoDup_setAnswer k v m :
  NoDup (map fst m) -> NoDup (map fst (ExamMode.setAnswer k v m)).
Proof.
  induction m as [ | [k0 v0] m IH ]; simpl; intros H.
  - constructor; [ intros [] | constructor ].
  - inversion H as [ | ? ? Hnotin Hrest ]; subst.
    destruct (String.eqb_spec k0 k) as [ -> | Hne ]; simpl.
    + now constructor.
    + constructor; [ | now apply IH ].
      rewrite In_setAnswer. intros [ -> | Hin ]; [ now apply Hne | contradiction ].
Qed.

Lemma answer_inv e st :
  NoDup (answeredIds st) -> incl (answeredIds st) (examIds st) ->
  NoDup (answeredIds (ExamMode.answer e st))
  /\ incl (answeredIds (ExamMode.answer e st)) (examIds st)
  /\ ExamMode.questions (ExamMode.answer e st) = ExamMode.questions st.
Proof.
  unfold answeredIds, examIds. intros Hnd Hincl.
  destruct e as [ position optionIndex | position txt ]; simpl;
    destruct (nth_error (ExamMode.questions st) position) as [ q | ] eqn:N;
    try (now repeat split); simpl;
    (split; [ now apply NoDup_setAnswer | ]);
    (split; [ | reflexivity ]);
    intros x Hx; apply In_setAnswer in Hx; destruct Hx as [ -> | Hx ];
    try (now apply Hincl);
    apply in_map; now apply (nth_error_In _ _ N).
Qed.

Lemma answerAll_inv events : forall st,
  NoDup (answeredIds st) -> incl (answeredIds st) (examIds st) ->
  NoDup (answeredIds (ExamMode.answerAll events st))
  /\ incl (answeredIds (ExamMode.answerAll events st)) (examIds st)
  /\ ExamMode.questions (ExamMode.answerAll events st) = ExamMode.questions st.
Proof.
  unfold ExamMode.answerAll.
  induction events as [ | e events IH ]; intros st Hnd Hincl; [ now repeat split | ].
  destruct (answer_inv e st Hnd Hincl) as (Hnd1 & Hincl1 & Hq1).
  simpl. destruct (IH (ExamMode.answer e st)) as (Hnd2 & Hincl2 & Hq2).
  - exact Hnd1.
  - unfold examIds. now rewrite Hq1.
  - split; [ exact Hnd2 | ]. split.
    + unfold examIds in *. now rewrite Hq1 in Hincl2.
    + now rewrite Hq2.
Qed.

Lemma submitEnabled_iff st :
  ExamMode.submitEnabled st = true
  <-> List.length (examIds st) <= List.length (answeredIds st).
Proof.
  unfold ExamMode.submitEnabled, examIds, answeredIds. rewrite !length_map.
  rewrite negb_true_iff, Nat.ltb_ge. reflexivity.
Qed.

Lemma examPage_inv qs st0 events :
  let st := ExamMode.answerAll events (examPage qs st0) in
  NoDup (answeredIds st) /\ incl (answeredIds st) (map exam_id qs)
  /\ examIds st = map exam_id qs.
Proof.
  intros st.
  destruct (answerAll_inv events (examPage qs st0)) as (Hnd & Hincl & Hq).
  - constructor.
  - intros x [].
  - fold st in Hnd, Hincl, Hq. unfold examIds at 1. rewrite Hq.
    now repeat split.
Qed.

(** X28. When the questions of an exam have distinct ids, the exam can be
    submitted exactly when every question has an answer, in whatever order
    the answers were given and however often they were changed; a text
    answer counts as soon as something was typed, even if it was deleted
    again. *)
Theorem exam_can_be_submitted_when_every_question_is_answered
    (events : list ExamMode.AnswerEvent) (qs : list ExamQuestion)
    (st0 : ExamMode.t)
    (Hids : NoDup (map exam_id qs)) :
  let st := ExamMode.answerAll events (examPage qs st0) in
  ExamMode.submitEnabled st = true
  <-> forall q, In q qs -> In (exam_id q) (answeredIds st).
Proof.
  intros st. destruct (examPage_inv qs st0 events) as (Hnd & Hincl & Hq).
  fold st in Hnd, Hincl, Hq.
  rewrite submitEnabled_iff, Hq. split.
  - intros Hlen q Hin.
    apply (NoDup_length_incl Hnd Hlen Hincl). now apply in_map.
  - intros Hall. apply NoDup_incl_length; [ exact Hids | ].
    intros x Hx. apply in_map_iff in Hx as (q & <- & Hin). now apply Hall.
Qed.

Lemma exam_can_be_submitted_when_every_question_is_answered_witness :
  let question i :=
    {| exam_id := i; exam_type := SHORT_ANSWER; exam_question := "Why did Rome fall?";
       exam_options := None; exam_correctAnswerIndex := None; modelAnswer := None |} in
  ExamMode.submitEnabled
    (ExamMode.answerAll
       [ ExamMode.AnswerShort 1 "Invasions."; ExamMode.AnswerShort 0 "Debt.";
         ExamMode.AnswerShort 1 "" ]
       (examPage [question "q-0"; question "q-1"] ExamMode.initial)) = true.
Proof.
  intros question.
  apply (exam_can_be_submitted_when_every_question_is_answered _
           [question "q-0"; question "q-1"] ExamMode.initial).
  - repeat constructor; simpl; intuition discriminate.
  - intros q [ <- | [ <- | [] ] ]; simpl; auto.
Defined.

(** X29. An exam in which two questions bear the same id can never be
    submitted: the answers are kept by question id, so there are always fewer
    answers than questions and the button stays disabled whatever the learner
    answers, while the application is locked. *)
Theorem exam_with_a_repeated_id_cannot_be_submitted
    (events : list ExamMode.AnswerEvent) (qs : list ExamQuestion)
    (st0 : ExamMode.t)
    (Hdup : ~ NoDup (map exam_id qs)) :
  let st := ExamMode.answerAll events (examPage qs st0) in
  ExamMode.submitEnabled st = false
  /\ ExamMode.isExamActive st = true
  /\ ExamMode.step st = ExamMode.EXAM.
Proof.
  intros st. destruct (examPage_inv qs st0 events) as (Hnd & Hincl & Hq).
  fold st in Hnd, Hincl, Hq.
  split.
  - destruct (ExamMode.submitEnabled st) eqn:E; [ | reflexivity ].
    exfalso. apply Hdup. apply submitEnabled_iff in E. rewrite Hq in E.
    exact (NoDup_incl_NoDup Hnd E Hincl).
  - unfold st, ExamMode.answerAll. clear.
    induction events as [ | e events IH ] using rev_ind; [ now split | ].
    rewrite fold_left_app. simpl.
    destruct e as [ position optionIndex | position txt ]; simpl;
      destruct (nth_error _ position); simpl; exact IH.
Qed.

Lemma exam_with_a_repeated_id_cannot_be_submitted_witness :
  let question i :=
    {| exam_id := i; exam_type := SHORT_ANSWER; exam_question := "Why did Rome fall?";
       exam_options := None; exam_correctAnswerIndex := None; modelAnswer := None |} in
  ExamMode.submitEnabled
    (ExamMode.answerAll
       [ ExamMode.AnswerShort 0 "Debt."; ExamMode.AnswerShort 1 "Invasions." ]
       (examPage [question "q-1"; question "q-1"] ExamMode.initial)) = false.
Proof.
  intros question.
  refine (proj1 (exam_with_a_repeated_id_cannot_be_submitted _
                   [question "q-1"; question "q-1"] ExamMode.initial _)).
  intros H. inversion H as [ | ? ? Hnotin _ ]. apply Hnotin. now left.
Defined.

(** X30. Starting a lesson on a new topic discards the study material of
    the previous one, whether or not the lesson then starts: the store is
    reset before the first slide is asked for, so whatever it held, it holds
    afterwards one topic, the active main topic of the name asked for, with
    no flashcard, quiz question, exam or knowledge; every other id reads as
    empty, and the lesson state that was saved is cleared, so that nothing of
    the previous lesson can be restored. The session starts exactly when the
    first slide arrives in a component that is still mounted: then the topic
    holds the greeting as its only message and the lesson shows that slide;
    otherwise the topic holds no message and no session exists. *)
Theorem new_session_discards_the_previous_material (uuid : string) (now : Z)
    (topic : string) (getInitialSlide : string -> option LessonSlide)
    (isMounted : bool) (db : TopicDatabase)
    (Huuid : uuid <> "") :
  let '(started, db') :=
    StudySession.newSession uuid now topic getInitialSlide isMounted db in
  let main :=
    match started with
    | Some _ => push_message (StudySession.introMessage topic)
                  (blankTopic uuid now topic true)
    | None => blankTopic uuid now topic true
    end in
  (started <> None <-> getInitialSlide topic <> None /\ isMounted = true)
  /\ (forall s, started = Some s ->
        option_map (fun slide => [slide]) (getInitialSlide topic)
        = Some (StudySession.slides s)
        /\ StudySession.currentSlideIndex s = 0
        /\ StudySession.chatMessages s = [StudySession.introMessage topic]
        /\ StudySession.currentTopicName s = topic)
  /\ getAllTopics db' = [main]
  /\ TMap.values (topics db') = [main]
  /\ getCurrentTopic db' = Some main
  /\ getMainTopicName db' = Some topic
  /\ getSessionState db' = None
  /\ (forall k, k <> uuid ->
        getTopicContent k db' = emptyTopicContent /\ getKnowledgeBase k db' = "")
  /\ Lesson.restore topic db' = None.
Proof.
  assert (Hcur : getCurrentTopic (reset uuid now topic db)
                 = Some (blankTopic uuid now topic true)).
  { apply (getCurrentTopic_intro _ uuid); [ reflexivity | exact Huuid | ].
    rewrite topics_reset. simpl. now rewrite String.eqb_refl. }
  assert (Hreset : forall k, k <> uuid ->
            getTopicContent k (reset uuid now topic db) = emptyTopicContent
            /\ getKnowledgeBase k (reset uuid now topic db) = "").
  { intros k Hk. unfold getTopicContent, getKnowledgeBase. rewrite topics_reset.
    simpl. destruct (String.eqb_spec uuid k); [ congruence | now split ]. }
  assert (Hfailed :
            let main := blankTopic uuid now topic true in
            getAllTopics (reset uuid now topic db) = [main]
            /\ TMap.values (topics (reset uuid now topic db)) = [main]
            /\ getCurrentTopic (reset uuid now topic db) = Some main
            /\ getMainTopicName (reset uuid now topic db) = Some topic
            /\ getSessionState (reset uuid now topic db) = None
            /\ (forall k, k <> uuid ->
                  getTopicContent k (reset uuid now topic db) = emptyTopicContent
                  /\ getKnowledgeBase k (reset uuid now topic db) = "")
            /\ Lesson.restore topic (reset uuid now topic db) = None).
  { intros main. split; [ reflexivity | ]. split; [ reflexivity | ].
    split; [ exact Hcur | ]. split; [ reflexivity | ]. split; [ reflexivity | ].
    split; [ exact Hreset | reflexivity ]. }
  unfold StudySession.newSession.
  destruct (getInitialSlide topic) as [ firstSlide | ].
  2:{ split; [ split; [ congruence | intros [H _]; congruence ] | ].
      split; [ discriminate | exact Hfailed ]. }
  destruct isMounted.
  2:{ split; [ split; [ congruence | intros [_ H]; discriminate ] | ].
      split; [ discriminate | exact Hfailed ]. }
  unfold StudySession.initSession. rewrite Hcur. simpl id.
  set (main := push_message (StudySession.introMessage topic)
                 (blankTopic uuid now topic true)).
  assert (Htopics : topics (addMessageToTopic uuid (StudySession.introMessage topic)
                              (reset uuid now topic db)) = [(uuid, main)]).
  { unfold addMessageToTopic. rewrite topics_mutate, topics_reset. simpl.
    now rewrite String.eqb_refl. }
  split; [ split; [ intros _; split; [ discriminate | reflexivity ] | discriminate ] | ].
  split; [ intros s [= <-]; now repeat split | ].
  split; [ unfold getAllTopics; now rewrite Htopics | ].
  split; [ now rewrite Htopics | ].
  split.
  - apply (getCurrentTopic_intro _ uuid).
    + unfold addMessageToTopic. now rewrite currentTopicId_mutate.
    + exact Huuid.
    + rewrite Htopics. simpl. now rewrite String.eqb_refl.
  - assert (Hmiss : forall k, k <> uuid ->
              TMap.get k (topics (addMessageToTopic uuid
                                    (StudySession.introMessage topic)
                                    (reset uuid now topic db))) = None).
    { intros k Hk. rewrite Htopics. simpl.
      destruct (String.eqb_spec uuid k); [ congruence | reflexivity ]. }
    unfold addMessageToTopic, mutate in *. rewrite topics_reset in *.
    simpl in *. rewrite String.eqb_refl in *. simpl in *.
    split; [ reflexivity | ]. split; [ reflexivity | ]. split.
    + intros k Hk. unfold getTopicContent, getKnowledgeBase. simpl.
      specialize (Hmiss k Hk). simpl in Hmiss.
      destruct (uuid =? k); [ discriminate | now split ].
    + reflexivity.
Qed.

Lemma new_session_discards_the_previous_material_witness :
  let '(started, db') :=
    StudySession.newSession "id-5" 5000 "Chemistry" (fun _ => None) true
      quantumStore in
  started = None
  /\ map name (getAllTopics db') = ["Chemistry"]
  /\ map messages (getAllTopics db') = [[]]
  /\ getKnowledgeBase "id-1" db' = "".
Proof.
  pose proof (new_session_discards_the_previous_material "id-5" 5000 "Chemistry"
                (fun _ => None) true quantumStore) as H.
  destruct (StudySession.newSession "id-5" 5000 "Chemistry" (fun _ => None) true
              quantumStore) as [started db'].
  destruct H as (Hstart & _ & Hall & _ & _ & _ & _ & Hmiss & _); [ discriminate | ].
  assert (Hnone : started = None).
  { destruct started; [ | reflexivity ].
    destruct (proj1 Hstart) as [Hs _]; [ discriminate | now contradiction Hs ]. }
  subst started. cbv zeta in Hall.
  split; [ reflexivity | ]. split; [ now rewrite Hall | ].
  split; [ now rewrite Hall | ].
  apply Hmiss. discriminate.
Defined.
